(** * Classroom seating model: a shallow embedding of [model.py]

    The development follows the four classes of the module: [ClassroomDesign]
    (the layout), [Seat] (the utility functions), [Student] (the seat
    selection procedure) and [ClassroomModel] (construction, ticks and the
    exported seating matrix).
    The helpers of [model_comparison.py] that work on an exported seating
    matrix ([count_clusters], [count_lbp], [insert_aisles], [calculate_mse])
    follow the model.

    Conventions of the embedding.
    - Python exceptions are values of [exn]; a function that can raise returns
      a [result].
    - Finite floating-point values are idealised as exact rationals ([Q]);
      the IEEE specials that the code can produce (the [np.infty] sentinel of
      [get_accessibility] and what arithmetic makes of it) are kept, see
      [pyfloat].
    - Grid coordinates are naturals (the entrances of a layout are pairs of
      integers: the default one is [(width - 1, 0)], also on a layout of
      width 0); a [mesa] grid cell holds at most one
      [Seat] (placed once, at construction) and the [Student]s whose [pos] is
      that cell, so the content of a cell is read off the seat list and the
      roster.
    - Objects are referred to by their key: a [Seat] by its position, a
      [Student] by its [unique_id].
    - The scheduler ([RandomActivation]) activates the agents in an order
      that it draws from a generator of its own; a tick therefore takes the
      permutation as an argument.  The generator of the model
      ([np.random.RandomState(seed)]) is the sequence of its outputs.
    - [social.network] and the generator behind [RandomState] are
      arguments of the constructor. *)

From Stdlib Require Import List ZArith QArith Qminmax Bool Lia Lqa String Permutation Arith.
Import ListNotations.

Local Open Scope nat_scope.

(** ** Exceptions and results *)

Inductive exn : Type :=
| NameError (name : string)
| ValueError (msg : string)
| ZeroDivisionError
| AttributeError (msg : string)
| IndexError
| ExternalError (code : nat).

Inductive result (A : Type) : Type :=
| Ok (a : A)
| Raise (e : exn).

Arguments Ok {A} a.
Arguments Raise {A} e.

Definition bind {A B : Type} (r : result A) (k : A -> result B) : result B :=
  match r with
  | Ok a => k a
  | Raise e => Raise e
  end.

Notation "x <- r ;; k" := (bind r (fun x => k))
  (at level 61, r at next level, right associativity).

Definition is_ok {A : Type} (r : result A) : bool :=
  match r with Ok _ => true | Raise _ => false end.

(** ** Numbers *)

(** A Python/numpy float: a finite value or one of the IEEE specials. *)
Inductive pyfloat : Type :=
| Fin (q : Q)
| PInf
| NInf
| NaN.

Definition Qsgn (q : Q) : Z := Z.sgn (Qnum q).

Definition fadd (a b : pyfloat) : pyfloat :=
  match a, b with
  | NaN, _ | _, NaN => NaN
  | Fin x, Fin y => Fin (x + y)
  | PInf, NInf | NInf, PInf => NaN
  | PInf, _ | _, PInf => PInf
  | NInf, _ | _, NInf => NInf
  end.

Definition fneg (a : pyfloat) : pyfloat :=
  match a with
  | Fin x => Fin (- x)
  | PInf => NInf
  | NInf => PInf
  | NaN => NaN
  end.

Definition fsub (a b : pyfloat) : pyfloat := fadd a (fneg b).

Definition finf_signed (s : Z) : pyfloat :=
  match s with
  | Z0 => NaN
  | Zpos _ => PInf
  | Zneg _ => NInf
  end.

Definition fsgn (a : pyfloat) : option Z :=
  match a with
  | Fin x => Some (Qsgn x)
  | PInf => Some 1%Z
  | NInf => Some (-1)%Z
  | NaN => None
  end.

Definition fmul (a b : pyfloat) : pyfloat :=
  match a, b with
  | Fin x, Fin y => Fin (x * y)
  | _, _ =>
      match fsgn a, fsgn b with
      | Some s, Some t => finf_signed (s * t)
      | _, _ => NaN
      end
  end.

(** [a == b] on floats: [nan] equals nothing. *)
Definition feqb (a b : pyfloat) : bool :=
  match a, b with
  | Fin x, Fin y => Qeq_bool x y
  | PInf, PInf | NInf, NInf => true
  | _, _ => false
  end.

(** [a <= b] on floats: false as soon as one side is [nan]. *)
Definition fleb (a b : pyfloat) : bool :=
  match a, b with
  | NaN, _ | _, NaN => false
  | NInf, _ | _, PInf => true
  | Fin x, Fin y => Qle_bool x y
  | _, _ => false
  end.

Definition is_nan (a : pyfloat) : bool :=
  match a with NaN => true | _ => false end.

(** The binary step of [np.max]: [nan] propagates. *)
Definition fmax (a b : pyfloat) : pyfloat :=
  if is_nan a || is_nan b then NaN
  else if fleb a b then b else a.

(** [np.max] of a Python list of floats. *)
Definition np_max (l : list pyfloat) : result pyfloat :=
  match l with
  | [] => Raise (ValueError "zero-size array to reduction operation maximum")
  | a :: l' => Ok (fold_left fmax l' a)
  end.

(** Python's [x / y] on built-in numbers: a zero divisor raises. *)
Definition py_div (a b : pyfloat) : result pyfloat :=
  match b with
  | NaN => Ok NaN
  | PInf | NInf =>
      match a with
      | Fin _ => Ok (Fin 0)
      | _ => Ok NaN
      end
  | Fin y =>
      if Qeq_bool y 0 then Raise ZeroDivisionError
      else match a with
           | Fin x => Ok (Fin (x / y))
           | NaN => Ok NaN
           | _ => Ok (fmul a (finf_signed (Qsgn y)))
           end
  end.

(** numpy's [x / y] on a finite [float64] numerator: a zero divisor gives
    an infinity or [nan] (and a warning), never an exception. *)
Definition np_div (x y : Q) : pyfloat :=
  if Qeq_bool y 0 then finf_signed (Qsgn x) else Fin (x / y).

(** The count of students to pass on one side of a seat: an [int], or the
    [np.infty] sentinel. *)
Inductive count : Type :=
| Cnt (n : nat)
| Infty.

Definition count_min (a b : count) : count :=
  match a, b with
  | Cnt x, Cnt y => Cnt (Nat.min x y)
  | Cnt x, Infty => Cnt x
  | Infty, Cnt y => Cnt y
  | Infty, Infty => Infty
  end.

Definition count_float (c : count) : pyfloat :=
  match c with
  | Cnt n => Fin (inject_Z (Z.of_nat n))
  | Infty => PInf
  end.

(** ** Two-dimensional arrays *)

Record ndarray : Type := mk_ndarray {
  shape0 : nat;
  shape1 : nat;
  data : list (list Q)
}.

Definition np_zeros (n0 n1 : nat) : ndarray :=
  mk_ndarray n0 n1 (repeat (repeat 0%Q n1) n0).

Definition insert_at {A : Type} (i : nat) (a : A) (l : list A) : list A :=
  firstn i l ++ a :: skipn i l.

(** [np.insert(a, x, 0, axis=0)] for [x < a.shape[0]]. *)
Definition np_insert_axis0 (a : ndarray) (x : nat) : ndarray :=
  mk_ndarray (S (shape0 a)) (shape1 a)
             (insert_at x (repeat 0%Q (shape1 a)) (data a)).

(** [np.concatenate((a, np.zeros((1, a.shape[1]))), axis=0)]. *)
Definition np_append_axis0 (a : ndarray) : ndarray :=
  mk_ndarray (S (shape0 a)) (shape1 a)
             (data a ++ [repeat 0%Q (shape1 a)]).

(** [np.insert(a, y, 0, axis=1)] for [y < a.shape[1]]. *)
Definition np_insert_axis1 (a : ndarray) (y : nat) : ndarray :=
  mk_ndarray (shape0 a) (S (shape1 a)) (map (insert_at y 0%Q) (data a)).

(** [np.concatenate((a, np.zeros((a.shape[0], 1))), axis=1)]. *)
Definition np_append_axis1 (a : ndarray) : ndarray :=
  mk_ndarray (shape0 a) (S (shape1 a)) (map (fun r => r ++ [0%Q]) (data a)).

Definition Qmax_list (l : list Q) : option Q :=
  match l with
  | [] => None
  | a :: l' => Some (fold_left Qmax l' a)
  end.

(** [np.max] of an array: an empty array has no maximum. *)
Definition np_max_array (a : ndarray) : result Q :=
  match Qmax_list (List.concat (data a)) with
  | None => Raise (ValueError "zero-size array to reduction operation maximum")
  | Some q => Ok q
  end.

Definition np_scale (a : ndarray) (d : Q) : ndarray :=
  mk_ndarray (shape0 a) (shape1 a) (map (map (fun q => q / d)%Q) (data a)).

(** [a[x, y]] on an array indexed in bounds. *)
Definition np_get (a : ndarray) (x y : nat) : Q :=
  nth y (nth x (data a) []) 0%Q.

Definition shape_is (a : ndarray) (d0 d1 : Z) : bool :=
  (Z.of_nat (shape0 a) =? d0)%Z && (Z.of_nat (shape1 a) =? d1)%Z.

(** ** ClassroomDesign *)

Record ClassroomDesign : Type := mk_design {
  width : nat;
  num_rows : nat;
  aisles_x : list nat;
  aisles_y : list nat;
  entrances : list (Z * Z);
  pos_utilities : ndarray;
  max_pass : Z;
  seat_count : Z
}.

(** The loop over [range(len(blocks)-1)] that lays out the vertical aisles. *)
Fixpoint vertical_aisles (current_x : nat) (blocks : list nat) : list nat :=
  match blocks with
  | [] => []
  | b :: rest =>
      match rest with
      | [] => []
      | _ :: _ => (current_x + b) :: vertical_aisles (current_x + b + 1) rest
      end
  end.

Definition splice_aisles_x (xs : list nat) (p : ndarray) : ndarray :=
  fold_left (fun p x => if x <? shape0 p then np_insert_axis0 p x
                        else np_append_axis0 p) xs p.

Definition splice_aisles_y (ys : list nat) (p : ndarray) : ndarray :=
  fold_left (fun p y => if y <? shape1 p then np_insert_axis1 p y
                        else np_append_axis1 p) ys p.

(** [max_pass_per_block]: [int((b-1)/2)] truncates towards zero. *)
Fixpoint max_pass_per_block (i len : nat) (blocks : list nat) : list Z :=
  match blocks with
  | [] => []
  | b :: rest =>
      (if (0 <? i) && (i <? len - 1)
       then Z.quot (Z.of_nat b - 1) 2
       else (Z.of_nat b - 1)%Z)
        :: max_pass_per_block (S i) len rest
  end.

Definition Zmax_list (l : list Z) : option Z :=
  match l with
  | [] => None
  | a :: l' => Some (fold_left Z.max l' a)
  end.

(** A cell of the grid as a pair of integers. *)
Definition of_cell (p : nat * nat) : Z * Z :=
  (Z.of_nat (fst p), Z.of_nat (snd p)).

(** [ClassroomDesign.__init__].  [pos_utilities], [entrances] and [aisles_y]
    are [None] when the caller leaves them out; supplied entrances are cells
    with natural coordinates. *)
Definition ClassroomDesign_init (blocks : list nat) (num_rows : nat)
    (pos_utilities : option ndarray) (entrances : option (list (nat * nat)))
    (aisles_y : option (list nat)) : result ClassroomDesign :=
  match blocks with
  | [] =>
      (* the width is -1: no shape matches and [np.zeros] refuses it *)
      match pos_utilities with
      | None => Raise (AttributeError "'NoneType' object has no attribute 'shape'")
      | Some _ => Raise (ValueError "negative dimensions are not allowed")
      end
  | _ :: _ =>
      let width := list_sum blocks + List.length blocks - 1 in
      let aisles_x := vertical_aisles 0 blocks in
      let aisles_y := match aisles_y with None => [0] | Some ys => ys end in
      let entrances := match entrances with
                       | None => [(0, 0); (Z.of_nat width - 1, 0)]%Z
                       | Some es => map of_cell es
                       end in
      match pos_utilities with
      | None => Raise (AttributeError "'NoneType' object has no attribute 'shape'")
      | Some p =>
          let p := if shape_is p (Z.of_nat width - Z.of_nat (List.length aisles_x))
                                 (Z.of_nat num_rows - Z.of_nat (List.length aisles_y))
                   then splice_aisles_y aisles_y (splice_aisles_x aisles_x p)
                   else p in
          pu <- (if shape_is p (Z.of_nat width) (Z.of_nat num_rows)
                 then mx <- np_max_array p ;;
                      Ok (if negb (Qle_bool mx 0)
                          then np_scale p mx
                          else np_zeros width num_rows)
                 else Ok (np_zeros width num_rows)) ;;
          match Zmax_list (max_pass_per_block 0 (List.length blocks) blocks) with
          | None => Raise (ValueError "max() arg is an empty sequence")
          | Some mp =>
              Ok (mk_design width num_rows aisles_x aisles_y entrances pu mp
                    ((Z.of_nat width - Z.of_nat (List.length aisles_x))
                     * (Z.of_nat num_rows - Z.of_nat (List.length aisles_y)))%Z)
          end
      end
  end.

(** ** The state of a simulation *)

Record Student : Type := mk_student {
  unique_id : nat;
  sociability : Q;
  seated : bool;
  initial_happiness : pyfloat;
  will_to_change_seat : bool;
  moving_threshold : Q;
  moving_prob : Q;
  pos : nat * nat
}.

(** [student] is the reference held by the seat: the [unique_id] of the
    occupant, or [None]. *)
Record Seat : Type := mk_seat {
  seat_pos : nat * nat;
  student : option nat
}.

(** [np.random.RandomState]: the generator's output sequence and how far it
    has been consumed. *)
Record RandomState : Type := mk_rand {
  stream : nat -> nat;
  cursor : nat
}.

Definition randint (n : nat) (r : RandomState) : result (nat * RandomState) :=
  if n =? 0 then Raise (ValueError "low >= high")
  else Ok (stream r (cursor r) mod n, mk_rand (stream r) (S (cursor r))).

Definition uniform (r : RandomState) : Q * RandomState :=
  (((Z.of_nat (stream r (cursor r)) mod 9007199254740992)%Z # 9007199254740992)%Q,
   mk_rand (stream r) (S (cursor r))).

(** [rand.choice(a)] on a one-dimensional sequence. *)
Definition choice {A : Type} (l : list A) (r : RandomState)
    : result (A * RandomState) :=
  match l with
  | [] => Raise (ValueError "a must be non-empty")
  | a :: _ =>
      ir <- randint (List.length l) r ;;
      Ok (nth (fst ir) l a, snd ir)
  end.

Record ClassroomModel : Type := mk_model {
  rand : RandomState;
  classroom : ClassroomDesign;
  coefs : list Q;
  random_seat_choice : bool;
  max_num_agents : Z;
  social_network : nat -> nat -> Q;
  sociability_sequence : list Q;
  sociability_range : Q * Q;
  (* whether the sociability values are numpy scalars (sequence given as an
     array) rather than built-in floats (sequence given as a list) *)
  sociability_np : bool;
  seats : list Seat;
  (* [schedule.agents], in order of admission *)
  agents : list Student;
  stdout : list string
}.

Definition set_rand (r : RandomState) (m : ClassroomModel) : ClassroomModel :=
  mk_model r (classroom m) (coefs m) (random_seat_choice m) (max_num_agents m)
           (social_network m) (sociability_sequence m) (sociability_range m)
           (sociability_np m) (seats m) (agents m) (stdout m).

Definition set_seats (ss : list Seat) (m : ClassroomModel) : ClassroomModel :=
  mk_model (rand m) (classroom m) (coefs m) (random_seat_choice m)
           (max_num_agents m) (social_network m) (sociability_sequence m)
           (sociability_range m) (sociability_np m) ss (agents m) (stdout m).

Definition set_agents (l : list Student) (m : ClassroomModel) : ClassroomModel :=
  mk_model (rand m) (classroom m) (coefs m) (random_seat_choice m)
           (max_num_agents m) (social_network m) (sociability_sequence m)
           (sociability_range m) (sociability_np m) (seats m) l (stdout m).

Definition set_sociability_sequence (q : list Q) (m : ClassroomModel)
    : ClassroomModel :=
  mk_model (rand m) (classroom m) (coefs m) (random_seat_choice m)
           (max_num_agents m) (social_network m) q (sociability_range m)
           (sociability_np m) (seats m) (agents m) (stdout m).

Definition print (line : string) (m : ClassroomModel) : ClassroomModel :=
  mk_model (rand m) (classroom m) (coefs m) (random_seat_choice m)
           (max_num_agents m) (social_network m) (sociability_sequence m)
           (sociability_range m) (sociability_np m) (seats m) (agents m)
           (stdout m ++ [line]).

Definition pos_eqb (p q : nat * nat) : bool :=
  (fst p =? fst q) && (snd p =? snd q).

Definition is_free (s : Seat) : bool :=
  match student s with None => true | Some _ => false end.

(** The [Student]s in a grid cell. *)
Definition students_at (m : ClassroomModel) (p : nat * nat) : list Student :=
  filter (fun a => pos_eqb (pos a) p) (agents m).

(** The [Seat] in a grid cell, when unoccupied (the only seat content that
    [choose_seat] looks for). *)
Definition free_seats_at (m : ClassroomModel) (p : nat * nat) : list Seat :=
  filter (fun s => pos_eqb (seat_pos s) p && is_free s) (seats m).

Definition get_agent (id : nat) (m : ClassroomModel) : option Student :=
  find (fun a => unique_id a =? id) (agents m).

Definition update_agent (id : nat) (f : Student -> Student)
    (l : list Student) : list Student :=
  map (fun a => if unique_id a =? id then f a else a) l.

Definition set_student (p : nat * nat) (o : option nat) (l : list Seat)
    : list Seat :=
  map (fun s => if pos_eqb (seat_pos s) p then mk_seat (seat_pos s) o else s) l.

Definition out_of_bounds (d : ClassroomDesign) (x y : Z) : bool :=
  (x <? 0)%Z || (Z.of_nat (width d) <=? x)%Z
  || (y <? 0)%Z || (Z.of_nat (num_rows d) <=? y)%Z.

Fixpoint mapM {A B : Type} (f : A -> result B) (l : list A) : result (list B) :=
  match l with
  | [] => Ok []
  | a :: l' => b <- f a ;; bs <- mapM f l' ;; Ok (b :: bs)
  end.

(** ** Seat *)

Definition get_position_utility (s : Seat) (m : ClassroomModel) : Q :=
  np_get (pos_utilities (classroom m)) (fst (seat_pos s)) (snd (seat_pos s)).

(** The element of [l] at [np.argmin] of the keys (first minimum). *)
Definition at_argmin (key : nat -> nat) (l : list nat) : option nat :=
  fold_left (fun best i =>
               match best with
               | None => Some i
               | Some b => if key i <? key b then Some i else Some b
               end) l None.

(** The number of [Student] agents standing on the cells [(i, y)] for [i] in
    [range(lo, hi)]. *)
Definition count_students (m : ClassroomModel) (lo hi y : nat) : nat :=
  list_sum (map (fun i => List.length (students_at m (i, y)))
                (seq lo (hi - lo))).

Definition count_left (s : Seat) (m : ClassroomModel) : count :=
  let x := fst (seat_pos s) in
  let y := snd (seat_pos s) in
  match at_argmin (fun i => x - i)
                  (filter (fun i => i <? x) (aisles_x (classroom m))) with
  | Some aisle_left => Cnt (count_students m (aisle_left + 1) x y)
  | None => Infty
  end.

Definition count_right (s : Seat) (m : ClassroomModel) : count :=
  let x := fst (seat_pos s) in
  let y := snd (seat_pos s) in
  match at_argmin (fun i => i - x)
                  (filter (fun i => x <? i) (aisles_x (classroom m))) with
  | Some aisle_right => Cnt (count_students m (x + 1) aisle_right y)
  | None => Infty
  end.

Definition get_accessibility (s : Seat) (m : ClassroomModel) : result pyfloat :=
  q <- py_div (count_float (count_min (count_right s m) (count_left s m)))
              (Fin (inject_Z (max_pass (classroom m)))) ;;
  Ok (fsub (Fin 1) q).

(** The identifier that the loop over a cell's content leaves in the
    neighbourhood matrix: that of the last seated student of the cell. *)
Definition last_seated_id (l : list Student) : option nat :=
  fold_left (fun acc a => if seated a then Some (unique_id a) else acc) l None.

(** The two loops of [get_neighborhood] over a window of [size_x] by
    [size_y] cells: [None] stands for the entry [-1]. *)
Definition neighborhood_matrix (s : Seat) (size_x size_y : nat)
    (m : ClassroomModel) : list (list (option nat)) :=
  let to_center_x := size_x / 2 in
  let to_center_y := size_y / 2 in
  map (fun i =>
         map (fun j =>
                let cx := (Z.of_nat (fst (seat_pos s)) + Z.of_nat i
                           - Z.of_nat to_center_x)%Z in
                let cy := (Z.of_nat (snd (seat_pos s)) + Z.of_nat j
                           - Z.of_nat to_center_y)%Z in
                if out_of_bounds (classroom m) cx cy then None
                else last_seated_id
                       (students_at m (Z.to_nat cx, Z.to_nat cy)))
             (seq 0 size_y))
      (seq 0 size_x).

(** [get_neighborhood]: an even size is made odd by taking 1 off; the size
    0 becomes -1, which [np.ones] refuses. *)
Definition get_neighborhood (s : Seat) (size_x size_y : nat)
    (m : ClassroomModel) : result (list (list (option nat))) :=
  if (size_x =? 0) || (size_y =? 0)
  then Raise (ValueError "negative dimensions are not allowed")
  else
    let size_x := if Nat.even size_x then size_x - 1 else size_x in
    let size_y := if Nat.even size_y then size_y - 1 else size_y in
    Ok (neighborhood_matrix s size_x size_y m).

(** [np.array([[0, 0, 0], [0.5, 0, 0.5], [0, 0, 0]]).T], the value of both
    [friendship_interaction_matrix] and [sociability_interaction_matrix]. *)
Definition interaction_matrix : list (list Q) :=
  [[0; 1 # 2; 0]; [0; 0; 0]; [0; 1 # 2; 0]]%Q.

Definition friendship_interaction_matrix (x y : nat) : Q :=
  nth y (nth x interaction_matrix []) 0%Q.

Definition sociability_interaction_matrix (x y : nat) : Q :=
  nth y (nth x interaction_matrix []) 0%Q.

(** The accumulators of the double loop of [get_social_utility]:
    [u_friendship], [u_sociability] and whether [u_sociability] has become a
    numpy scalar (it does as soon as one stranger is met). *)
Definition social_acc : Type := (Q * Q * bool)%type.

Definition social_cell (st : Student) (m : ClassroomModel)
    (nb : list (list (option nat))) (acc : social_acc) (xy : nat * nat)
    : social_acc :=
  let '(uf, us, np) := acc in
  match nth (snd xy) (nth (fst xy) nb []) None with
  | None => acc
  | Some nid =>
      let friendship := social_network m (unique_id st) nid in
      let uf' := (uf + friendship_interaction_matrix (fst xy) (snd xy)
                       * friendship)%Q in
      if Qeq_bool friendship 0
      then (uf', (us + sociability_interaction_matrix (fst xy) (snd xy)
                       * sociability st)%Q, true)
      else (uf', us, np)
  end.

Definition get_social_utility (s : Seat) (st : Student) (m : ClassroomModel)
    : result (Q * pyfloat) :=
  nb <- get_neighborhood s 3 3 m ;;
  let '(uf, us, np) :=
    fold_left (social_cell st m nb)
              (list_prod (seq 0 3) (seq 0 3)) (0%Q, 0%Q, false) in
  let s_min := fst (sociability_range m) in
  let s_max := snd (sociability_range m) in
  u_sociability <-
    (if np || sociability_np m
     then Ok (np_div (us - s_min) (s_max - s_min))
     else py_div (Fin (us - s_min)) (Fin (s_max - s_min))) ;;
  Ok (uf, u_sociability).

Definition unpack_coefs (m : ClassroomModel) : result (Q * Q * Q * Q) :=
  match coefs m with
  | [cp; cf; cs; ca] => Ok (cp, cf, cs, ca)
  | _ => Raise (ValueError "unpack")
  end.

Definition get_total_utility (s : Seat) (st : Student) (m : ClassroomModel)
    : result pyfloat :=
  fs <- get_social_utility s st m ;;
  c <- unpack_coefs m ;;
  let '(cp, cf, cs, ca) := c in
  a <- get_accessibility s m ;;
  Ok (fadd (fadd (fadd (Fin (cp * get_position_utility s m))
                       (Fin (cf * fst fs)))
                 (fmul (Fin cs) (snd fs)))
           (fmul (Fin ca) a)).

Definition get_happiness (s : Seat) (st : Student) (m : ClassroomModel)
    : result pyfloat :=
  fs <- get_social_utility s st m ;;
  c <- unpack_coefs m ;;
  let '(cp, cf, cs, ca) := c in
  Ok (fadd (fadd (Fin (cp * get_position_utility s m))
                 (Fin (cf * fst fs)))
           (fmul (Fin cs) (snd fs))).

(** ** Student *)

Definition no_empty_seats : string := "No empty seats!".

(** The empty seats in the order of [grid.coord_iter()] (the seat list is
    kept in that order). *)
Definition seat_options (m : ClassroomModel) : list Seat :=
  filter is_free (seats m).

(** [np.array(seat_options)[np.where(seat_utilities == mx)]]. *)
Definition optimal_seats (opts : list Seat) (us : list pyfloat) (mx : pyfloat)
    : list Seat :=
  map fst (filter (fun su => feqb (snd su) mx) (combine opts us)).

(** The selection part of [choose_seat]: the seat chosen, if any, and the
    model after what the selection printed and drew. *)
Definition select_seat (self : Student) (seat_pos : option (nat * nat))
    (old_seat : option (nat * nat)) (m : ClassroomModel)
    : result (option Seat * ClassroomModel) :=
  match seat_pos with
  | None =>
      let opts := seat_options m in
      match opts with
      | [] => Ok (None, print no_empty_seats m)
      | first :: _ =>
          if random_seat_choice m then
            sr <- choice opts (rand m) ;;
            Ok (Some (fst sr), set_rand (snd sr) m)
          else
            match old_seat with
            | None =>
                us <- mapM (fun s => get_total_utility s self m) opts ;;
                mx <- np_max us ;;
                sr <- choice (optimal_seats opts us mx) (rand m) ;;
                Ok (Some (fst sr), set_rand (snd sr) m)
            | Some _ =>
                _ <- get_total_utility first self m ;;
                Raise (AttributeError
                         "'Seat' object has no attribute 'get_stand_up_cost'")
            end
      end
  | Some p =>
      (* [grid.get_cell_list_contents] indexes the grid *)
      if out_of_bounds (classroom m) (Z.of_nat (fst p)) (Z.of_nat (snd p))
      then Raise IndexError
      else Ok (last (map Some (free_seats_at m p)) None, m)
  end.

Definition move_to (p : nat * nat) (a : Student) : Student :=
  mk_student (unique_id a) (sociability a) (seated a) (initial_happiness a)
             (will_to_change_seat a) (moving_threshold a) (moving_prob a) p.

Definition sit_down (h : pyfloat) (a : Student) : Student :=
  mk_student (unique_id a) (sociability a) true h
             (will_to_change_seat a) (moving_threshold a) (moving_prob a)
             (pos a).

(** The second half of [choose_seat]: occupy the selected seat. *)
Definition occupy (self : Student) (seat_choice : Seat)
    (old_seat : option (nat * nat)) (m : ClassroomModel)
    : result ClassroomModel :=
  let ss := match old_seat with
            | Some p => set_student p None (seats m)
            | None => seats m
            end in
  let ss := set_student (seat_pos seat_choice) (Some (unique_id self)) ss in
  let m1 := set_agents (update_agent (unique_id self)
                                     (move_to (seat_pos seat_choice))
                                     (agents m))
                       (set_seats ss m) in
  h <- get_happiness seat_choice (move_to (seat_pos seat_choice) self) m1 ;;
  Ok (set_agents (update_agent (unique_id self) (sit_down h) (agents m1)) m1).

Definition choose_seat (self : Student) (seat_pos : option (nat * nat))
    (old_seat : option (nat * nat)) (m : ClassroomModel)
    : result ClassroomModel :=
  sm <- select_seat self seat_pos old_seat m ;;
  match fst sm with
  | None => Ok (snd sm)
  | Some seat_choice => occupy self seat_choice old_seat (snd sm)
  end.

(** The seats in the cell of a student (free or not), for the re-seating
    branch of [step]. *)
Definition seats_at (m : ClassroomModel) (p : nat * nat) : list Seat :=
  filter (fun s => pos_eqb (seat_pos s) p) (seats m).

(** [Student.step], run on the roster entry [id]. *)
Definition Student_step (id : nat) (m : ClassroomModel) : result ClassroomModel :=
  match get_agent id m with
  | None => Ok m
  | Some self =>
      m1 <- (if seated self then Ok m else choose_seat self None None m) ;;
      if will_to_change_seat self then
        let ur := uniform (rand m1) in
        let m2 := set_rand (snd ur) m1 in
        if Qle_bool (moving_prob self) (fst ur) then Ok m2
        else
          match get_agent id m2 with
          | None => Ok m2
          | Some self' =>
              fold_left (fun r s => mm <- r ;;
                                    match get_agent id mm with
                                    | None => Ok mm
                                    | Some cur =>
                                        choose_seat cur None (Some (seat_pos s)) mm
                                    end)
                        (seats_at m2 (pos self')) (Ok m2)
          end
      else Ok m1
  end.

(** ** ClassroomModel *)

(** [schedule.step()]: every agent of the schedule is activated once, in the
    order the scheduler shuffled them into. *)
Fixpoint schedule_step (order : list nat) (m : ClassroomModel)
    : result ClassroomModel :=
  match order with
  | [] => Ok m
  | id :: rest => m' <- Student_step id m ;; schedule_step rest m'
  end.

Definition new_student (n : nat) (s : Q) (p : nat * nat) : Student :=
  mk_student n s false (Fin 0) false 1%Q (1 # 5)%Q p.

(** The first half of [ClassroomModel.step]: let one student in while the
    population cap is not reached. *)
Definition admission (m : ClassroomModel) : result ClassroomModel :=
  let n := List.length (agents m) in
  if (Z.of_nat n <? max_num_agents m)%Z then
    c2 <- match nth_error (coefs m) 2 with
          | Some c => Ok c
          | None => Raise IndexError
          end ;;
    sq <- (if Qeq_bool c2 0 then Ok (0%Q, sociability_sequence m)
           else match sociability_sequence m with
                | [] => Raise IndexError
                | s :: rest => Ok (s, rest)
                end) ;;
    ir <- randint (List.length (entrances (classroom m))) (rand m) ;;
    let initial_pos := nth (fst ir) (entrances (classroom m)) (0, 0)%Z in
    if out_of_bounds (classroom m) (fst initial_pos) (snd initial_pos)
    then Raise IndexError
    else Ok (set_agents
               (agents m ++ [new_student n (fst sq)
                               (Z.to_nat (fst initial_pos),
                                Z.to_nat (snd initial_pos))])
               (set_sociability_sequence (snd sq) (set_rand (snd ir) m)))
  else Ok m.

(** [ClassroomModel.step]; [shuffle] is the permutation that the scheduler
    applies to its agents in this tick. *)
Definition ClassroomModel_step (shuffle : list nat -> list nat)
    (m : ClassroomModel) : result ClassroomModel :=
  m1 <- admission m ;;
  schedule_step (shuffle (map unique_id (agents m1))) m1.

(** [n] ticks; [sched t] is the shuffle of tick [t]. *)
Fixpoint run (sched : nat -> list nat -> list nat) (t n : nat)
    (m : ClassroomModel) : result ClassroomModel :=
  match n with
  | 0 => Ok m
  | S n' => m' <- ClassroomModel_step (sched t) m ;; run sched (S t) n' m'
  end.

Fixpoint list_update {A : Type} (i : nat) (f : A -> A) (l : list A) : list A :=
  match l with
  | [] => []
  | a :: l' =>
      match i with
      | 0 => f a :: l'
      | S i' => a :: list_update i' f l'
      end
  end.

(** [a[x, y] = v]: an index out of range raises. *)
Definition np_set (a : ndarray) (x y : nat) (v : Q) : result ndarray :=
  if (x <? shape0 a) && (y <? shape1 a)
  then Ok (mk_ndarray (shape0 a) (shape1 a)
             (list_update x (list_update y (fun _ => v)) (data a)))
  else Raise IndexError.

(** The elements of [l] whose index (counted from [i]) is not in [idxs]. *)
Fixpoint drop_indices {A : Type} (idxs : list nat) (i : nat) (l : list A)
    : list A :=
  match l with
  | [] => []
  | a :: l' =>
      if existsb (Nat.eqb i) idxs then drop_indices idxs (S i) l'
      else a :: drop_indices idxs (S i) l'
  end.

Definition count_kept (idxs : list nat) (n : nat) : nat :=
  List.length (drop_indices idxs 0 (seq 0 n)).

(** [np.delete(a, idxs, axis=0)]: an index out of range raises. *)
Definition np_delete_axis0 (a : ndarray) (idxs : list nat) : result ndarray :=
  if forallb (fun i => i <? shape0 a) idxs
  then Ok (mk_ndarray (count_kept idxs (shape0 a)) (shape1 a)
             (drop_indices idxs 0 (data a)))
  else Raise IndexError.

(** [np.delete(a, idxs, axis=1)]. *)
Definition np_delete_axis1 (a : ndarray) (idxs : list nat) : result ndarray :=
  if forallb (fun i => i <? shape1 a) idxs
  then Ok (mk_ndarray (shape0 a) (count_kept idxs (shape1 a))
             (map (drop_indices idxs 0) (data a)))
  else Raise IndexError.

Definition get_binary_model_state (m : ClassroomModel) : result ndarray :=
  model_state <-
    fold_left (fun r a => ms <- r ;; np_set ms (fst (pos a)) (snd (pos a)) 1%Q)
              (agents m)
              (Ok (np_zeros (width (classroom m)) (num_rows (classroom m)))) ;;
  model_state <- np_delete_axis0 model_state (aisles_x (classroom m)) ;;
  np_delete_axis1 model_state (aisles_y (classroom m)).

(** How the caller passed a sequence of numbers: as a Python list or as a
    numpy array.  The two differ in what [== 0] means and in the type of
    the elements. *)
Inductive pyseq : Type :=
| PyList (l : list Q)
| NdArray (l : list Q).

Definition pyseq_items (s : pyseq) : list Q :=
  match s with PyList l | NdArray l => l end.

Definition pyseq_is_array (s : pyseq) : bool :=
  match s with PyList _ => false | NdArray _ => true end.

Definition Qsum (l : list Q) : Q := fold_left Qplus l 0%Q.

(** [np.all(coefs == 0)]: a list is not equal to [0], an array is compared
    element by element. *)
Definition np_all_eq_zero (c : pyseq) : bool :=
  match c with
  | PyList _ => false
  | NdArray l => forallb (fun q => Qeq_bool q 0) l
  end.

Definition Qmin_list (l : list Q) : option Q :=
  match l with
  | [] => None
  | a :: l' => Some (fold_left Qmin l' a)
  end.

(** [(min(seq), max(seq))]. *)
Definition min_max (l : list Q) : result (Q * Q) :=
  match Qmin_list l, Qmax_list l with
  | Some lo, Some hi => Ok (lo, hi)
  | _, _ => Raise (ValueError "min() arg is an empty sequence")
  end.

(** The seats created by the constructor, column by column. *)
Definition initial_seats (d : ClassroomDesign) : list Seat :=
  flat_map (fun x =>
              if existsb (Nat.eqb x) (aisles_x d) then []
              else flat_map (fun y =>
                               if existsb (Nat.eqb y) (aisles_y d) then []
                               else [mk_seat (x, y) None])
                            (seq 0 (num_rows d)))
           (seq 0 (width d)).

Section Construction.

(** The collaborators of the constructor that live outside the module:
    the generator behind [np.random.RandomState(seed)] and the two
    functions of [social.network], each returning the tie matrix or
    raising. *)
Variable mt19937 : Z -> nat -> nat.
Variable erdos_renyi : Z -> Q -> result (nat -> nat -> Q).
Variable walts_graph : list nat -> result (nat -> nat -> Q).

(** [ClassroomModel.__init__]. *)
Definition ClassroomModel_init (classroom_design : ClassroomDesign)
    (coefs : pyseq) (degree_sequence : option (list nat))
    (sociability_sequence : option pyseq) (seed : Z)
    : result ClassroomModel :=
  let rand := mk_rand (mt19937 seed) 0 in
  let total := Qsum (pyseq_items coefs) in
  let coefs' := map (fun c => if negb (Qle_bool total 0) then (c / total)%Q
                              else 0%Q) (pyseq_items coefs) in
  let random_seat_choice := np_all_eq_zero coefs in
  mn <- match degree_sequence with
        | None =>
            net <- erdos_renyi (seat_count classroom_design) (1 # 5) ;;
            Ok (seat_count classroom_design, net)
        | Some ds =>
            net <- walts_graph ds ;;
            Ok (Z.of_nat (List.length ds), net)
        end ;;
  let max_num_agents := fst mn in
  sr <- match sociability_sequence with
        | None =>
            if (0 <? max_num_agents)%Z
            then Raise (NameError "SOCIABILITY_MIN")
            else r <- min_max [] ;; Ok ([], r, false)
        | Some s =>
            if (Z.of_nat (List.length (pyseq_items s)) =? max_num_agents)%Z
            then r <- min_max (pyseq_items s) ;;
                 Ok (pyseq_items s, r, pyseq_is_array s)
            else Raise (ValueError
                   "'sociability_sequence' and 'degree_sequence' must have same length")
        end ;;
  Ok (mk_model rand classroom_design coefs' random_seat_choice
               max_num_agents (snd mn) (fst (fst sr)) (snd (fst sr))
               (snd sr) (initial_seats classroom_design) [] []).

End Construction.

(** ** Notions used to state the properties *)

(** The model after [k] more reports of the empty-seat condition. *)
Definition prints (k : nat) (m : ClassroomModel) : ClassroomModel :=
  mk_model (rand m) (classroom m) (coefs m) (random_seat_choice m)
           (max_num_agents m) (social_network m) (sociability_sequence m)
           (sociability_range m) (sociability_np m) (seats m) (agents m)
           (stdout m ++ repeat no_empty_seats k).

Definition unseated (m : ClassroomModel) (id : nat) : bool :=
  match get_agent id m with
  | Some a => negb (seated a)
  | None => false
  end.

(** The number of students of the roster that are still standing. *)
Definition unseated_count (m : ClassroomModel) : nat :=
  List.length (filter (fun a => negb (seated a)) (agents m)).

(** Identifiers are handed out in order of admission and re-seating is
    switched off for everybody. *)
Definition roster_ok (m : ClassroomModel) : Prop :=
  map unique_id (agents m) = seq 0 (List.length (agents m))
  /\ Forall (fun a => will_to_change_seat a = false) (agents m).

(** Student [id] sits on the seat at [p]. *)
Definition committed (m : ClassroomModel) (p : nat * nat) (id : nat) : Prop :=
  In (mk_seat p (Some id)) (seats m)
  /\ exists a, get_agent id m = Some a /\ seated a = true /\ pos a = p.

(** Whether the seat at [(x, y)] has an occupant. *)
Definition occupied (m : ClassroomModel) (x y : nat) : bool :=
  existsb (fun s => pos_eqb (seat_pos s) (x, y) && negb (is_free s)) (seats m).

Definition seat_columns (d : ClassroomDesign) : list nat :=
  drop_indices (aisles_x d) 0 (seq 0 (width d)).

Definition seat_rows (d : ClassroomDesign) : list nat :=
  drop_indices (aisles_y d) 0 (seq 0 (num_rows d)).

(** The seating matrix as the specification words it: one entry per
    non-aisle cell, 1 where the seat is occupied and 0 where it is empty. *)
Definition seating_table (m : ClassroomModel) : list (list Q) :=
  map (fun x => map (fun y => if occupied m x y then 1%Q else 0%Q)
                    (seat_rows (classroom m)))
      (seat_columns (classroom m)).



(** The total utility of every empty seat for [self], the list that
    [choose_seat] builds. *)
Definition seat_utilities (self : Student) (m : ClassroomModel)
    : result (list pyfloat) :=
  mapM (fun s => get_total_utility s self m) (seat_options m).

(** The array whose entry at [(x, y)] is [f x y]. *)
Definition tabulate (f : nat -> nat -> Q) (w h : nat) : list (list Q) :=
  map (fun x => map (f x) (seq 0 h)) (seq 0 w).

(** Whether some student of the roster stands on the cell [(x, y)]. *)
Definition stands_on (m : ClassroomModel) (x y : nat) : bool :=
  existsb (fun a => pos_eqb (pos a) (x, y)) (agents m).

(** The accessibility as the specification words it: only seated students
    between the seat and the aisle are counted. *)
Definition count_seated (m : ClassroomModel) (lo hi y : nat) : nat :=
  list_sum (map (fun i => List.length (filter seated (students_at m (i, y))))
                (seq lo (hi - lo))).

Definition seated_left (s : Seat) (m : ClassroomModel) : count :=
  let x := fst (seat_pos s) in
  match at_argmin (fun i => x - i)
                  (filter (fun i => i <? x) (aisles_x (classroom m))) with
  | Some aisle_left => Cnt (count_seated m (aisle_left + 1) x (snd (seat_pos s)))
  | None => Infty
  end.

Definition seated_right (s : Seat) (m : ClassroomModel) : count :=
  let x := fst (seat_pos s) in
  match at_argmin (fun i => i - x)
                  (filter (fun i => x <? i) (aisles_x (classroom m))) with
  | Some aisle_right => Cnt (count_seated m (x + 1) aisle_right (snd (seat_pos s)))
  | None => Infty
  end.

Definition accessibility_of_seated (s : Seat) (m : ClassroomModel)
    : result pyfloat :=
  q <- py_div (count_float (count_min (seated_right s m) (seated_left s m)))
              (Fin (inject_Z (max_pass (classroom m)))) ;;
  Ok (fsub (Fin 1) q).

(** The width of the grid for a list of blocks, and the horizontal aisles
    that the constructor settles on. *)
Definition grid_width (blocks : list nat) : nat :=
  list_sum blocks + List.length blocks - 1.

Definition horizontal_aisles (aisles_y : option (list nat)) : list nat :=
  match aisles_y with None => [0] | Some ys => ys end.

(** The population size that the constructor derives from its arguments. *)
Definition population (d : ClassroomDesign) (degree_sequence : option (list nat))
    : Z :=
  match degree_sequence with
  | None => seat_count d
  | Some ds => Z.of_nat (List.length ds)
  end.

(** The call of [social.network] that the constructor makes. *)
Definition tie_source (erdos_renyi : Z -> Q -> result (nat -> nat -> Q))
    (walts_graph : list nat -> result (nat -> nat -> Q))
    (d : ClassroomDesign) (degree_sequence : option (list nat))
    : result (nat -> nat -> Q) :=
  match degree_sequence with
  | None => erdos_renyi (seat_count d) (1 # 5)%Q
  | Some ds => walts_graph ds
  end.

Definition is_name_error {A : Type} (r : result A) : bool :=
  match r with
  | Raise (NameError _) => true
  | _ => false
  end.

(** What the tick invariant says of a model between two ticks. *)
Record consistent (m : ClassroomModel) : Prop := mk_consistent {
  cons_roster : roster_ok m;
  (* a student still standing means that every seat is taken *)
  cons_full : forall a, In a (agents m) -> seated a = false ->
                        seat_options m = [];
  (* the occupant of a seat is a seated student standing on it *)
  cons_seat : forall s id, In s (seats m) -> student s = Some id ->
                exists a, In a (agents m) /\ unique_id a = id
                          /\ seated a = true /\ pos a = seat_pos s;
  (* a seated student is the occupant of the seat it stands on *)
  cons_student : forall a, In a (agents m) -> seated a = true ->
                   In (mk_seat (pos a) (Some (unique_id a))) (seats m);
  (* one seat per cell *)
  cons_cell : forall s1 s2, In s1 (seats m) -> In s2 (seats m) ->
                seat_pos s1 = seat_pos s2 -> s1 = s2;
  (* the seats are where the constructor put them *)
  cons_layout : map seat_pos (seats m) = map seat_pos (initial_seats (classroom m));
  (* everybody stands inside the grid *)
  cons_bounds : forall a, In a (agents m) ->
                  fst (pos a) < width (classroom m)
                  /\ snd (pos a) < num_rows (classroom m)
}.

(** The shuffles of a scheduler only reorder the agents. *)
Definition shuffles (sched : nat -> list nat -> list nat) : Prop :=
  forall t l, Permutation (sched t l) l.

(** ** Concrete configurations *)

Module Examples.

Definition zero_net : nat -> nat -> Q := fun _ _ => 0%Q.
Definition erdos_renyi (n : Z) (p : Q) : result (nat -> nat -> Q) := Ok zero_net.
Definition walts_graph (ds : list nat) : result (nat -> nat -> Q) := Ok zero_net.
Definition mt19937 (seed : Z) (i : nat) : nat := 0.
Definition in_order (t : nat) (l : list nat) : list nat := l.
Definition reversed (t : nat) (l : list nat) : list nat := rev l.

Definition new_model := ClassroomModel_init mt19937 erdos_renyi walts_graph.

(** [ClassroomDesign(blocks=[1,1], num_rows=2, pos_utilities=np.zeros((3,2)))]:
    two seats, one on each side of the aisle, so [max_pass] is 0. *)
Definition design_1_1 : result ClassroomDesign :=
  ClassroomDesign_init [1; 1] 2 (Some (np_zeros 3 2)) None None.

(** [ClassroomDesign(blocks=[2,2], num_rows=2, pos_utilities=np.zeros((5,2)))]. *)
Definition design_2_2 : result ClassroomDesign :=
  ClassroomDesign_init [2; 2] 2 (Some (np_zeros 5 2)) None None.

(** [ClassroomDesign(blocks=[3,3], num_rows=1, pos_utilities=np.zeros((7,1)),
    entrances=[(1,0)], aisles_y=[])]: one row of seats, entered at the
    second seat. *)
Definition design_3_3 : result ClassroomDesign :=
  ClassroomDesign_init [3; 3] 1 (Some (np_zeros 7 1)) (Some [(1, 0)]) (Some []).

(** [ClassroomDesign(blocks=[6,14,0], num_rows=1, pos_utilities=np.zeros((22,1)))]:
    the only row is the front aisle, so there is no seat. *)
Definition design_no_seat : result ClassroomDesign :=
  ClassroomDesign_init [6; 14; 0] 1 (Some (np_zeros 22 1)) None None.

(** [ClassroomModel(design_1_1, coefs=[0,0,0,0], sociability_sequence=[0,1])]. *)
Definition model_zero_list : result ClassroomModel :=
  d <- design_1_1 ;;
  new_model d (PyList [0; 0; 0; 0]%Q) None (Some (PyList [0; 1]%Q)) 0%Z.

(** The same with [coefs=np.array([0,0,0,0])]. *)
Definition model_zero_array : result ClassroomModel :=
  d <- design_1_1 ;;
  new_model d (NdArray [0; 0; 0; 0]%Q) None (Some (PyList [0; 1]%Q)) 0%Z.

(** [ClassroomModel(design_1_1, coefs=[0.25,0.25,0.25,0.25],
    sociability_sequence=[0,1])]. *)
Definition model_1_1 : result ClassroomModel :=
  d <- design_1_1 ;;
  new_model d (PyList [1 # 4; 1 # 4; 1 # 4; 1 # 4]%Q) None
            (Some (PyList [0; 1]%Q)) 0%Z.

(** [ClassroomModel(design_2_2, coefs=[0.25,0.25,0.25,0.25],
    sociability_sequence=[0.3,0.3,0.3,0.3])]. *)
Definition model_flat_sociability : result ClassroomModel :=
  d <- design_2_2 ;;
  new_model d (PyList [1 # 4; 1 # 4; 1 # 4; 1 # 4]%Q) None
            (Some (PyList [3 # 10; 3 # 10; 3 # 10; 3 # 10]%Q)) 0%Z.

(** [ClassroomModel(design_2_2, coefs=[0,0,1,0],
    sociability_sequence=[0.5,1,0.5,1])]. *)
Definition model_positive_sociability : result ClassroomModel :=
  d <- design_2_2 ;;
  new_model d (PyList [0; 0; 1; 0]%Q) None
            (Some (PyList [1 # 2; 1; 1 # 2; 1]%Q)) 0%Z.

(** [ClassroomModel(design_2_2, coefs=[0.25,0.25,0.25,0.25],
    sociability_sequence=[-1,0,1,0])]. *)
Definition model_2_2 : result ClassroomModel :=
  d <- design_2_2 ;;
  new_model d (PyList [1 # 4; 1 # 4; 1 # 4; 1 # 4]%Q) None
            (Some (PyList [-1; 0; 1; 0]%Q)) 0%Z.

(** [ClassroomModel(design_3_3, coefs=[0,0,0,1],
    sociability_sequence=[0,1,0,1,0,1])]. *)
Definition model_3_3 : result ClassroomModel :=
  d <- design_3_3 ;;
  new_model d (PyList [0; 0; 0; 1]%Q) None
            (Some (PyList [0; 1; 0; 1; 0; 1]%Q)) 0%Z.

(** [ClassroomModel(design_2_2, degree_sequence=[1,1,1,1,1],
    sociability_sequence=[-1,0,1,0,1])]: five students for four seats. *)
Definition model_crowded : result ClassroomModel :=
  d <- design_2_2 ;;
  new_model d (PyList [1 # 4; 1 # 4; 1 # 4; 1 # 4]%Q) (Some [1; 1; 1; 1; 1])
            (Some (PyList [-1; 0; 1; 0; 1]%Q)) 0%Z.

(** The value of a result known to be [Ok]. *)
Definition the {A : Type} (default : A) (r : result A) : A :=
  match r with Ok a => a | Raise _ => default end.

Definition no_design : ClassroomDesign :=
  mk_design 0 0 [] [] [] (np_zeros 0 0) 0 0.

Definition no_model : ClassroomModel :=
  mk_model (mk_rand (fun _ => 0) 0) no_design [] false 0 zero_net [] (0%Q, 0%Q)
           false [] [] [].

(** [ClassroomDesign(blocks=[3], num_rows=2, pos_utilities=np.zeros((3,2)))]:
    a single block, hence no vertical aisle. *)
Definition design_single_block : result ClassroomDesign :=
  ClassroomDesign_init [3] 2 (Some (np_zeros 3 2)) None None.

(** [ClassroomModel(design_single_block, coefs=[0,0,0,1],
    sociability_sequence=[0,1,0])]. *)
Definition model_single_block : result ClassroomModel :=
  d <- design_single_block ;;
  new_model d (PyList [0; 0; 0; 1]%Q) None (Some (PyList [0; 1; 0]%Q)) 0%Z.

(** The designs and models above, as constructed, and some of the states
    they reach. *)
Definition design_1_1_value : ClassroomDesign :=
  Eval vm_compute in the no_design design_1_1.
Definition design_2_2_value : ClassroomDesign :=
  Eval vm_compute in the no_design design_2_2.
Definition design_no_seat_value : ClassroomDesign :=
  Eval vm_compute in the no_design design_no_seat.
Definition model_zero_list_value : ClassroomModel :=
  Eval vm_compute in the no_model model_zero_list.
Definition model_zero_array_value : ClassroomModel :=
  Eval vm_compute in the no_model model_zero_array.
Definition model_1_1_value : ClassroomModel :=
  Eval vm_compute in the no_model model_1_1.
Definition model_flat_sociability_value : ClassroomModel :=
  Eval vm_compute in the no_model model_flat_sociability.
Definition model_2_2_value : ClassroomModel :=
  Eval vm_compute in the no_model model_2_2.
Definition model_single_block_value : ClassroomModel :=
  Eval vm_compute in the no_model model_single_block.

(** After the admission of the first student, who stands at the entrance. *)
Definition positive_sociability_arrival : ClassroomModel :=
  Eval vm_compute in the no_model (m <- model_positive_sociability ;; admission m).
Definition model_3_3_arrival : ClassroomModel :=
  Eval vm_compute in the no_model (m <- model_3_3 ;; admission m).
Definition model_2_2_arrival : ClassroomModel :=
  Eval vm_compute in the no_model (m <- model_2_2 ;; admission m).

(** The crowded classroom after five ticks. *)
Definition crowded_after_5 : ClassroomModel :=
  Eval vm_compute in the no_model (m <- model_crowded ;; run in_order 0 5 m).

End Examples.

(** ** Further notions *)

(** The fields that neither a report, nor a draw, nor sitting down touches. *)
Definition same_setting (m m' : ClassroomModel) : Prop :=
  classroom m' = classroom m /\ coefs m' = coefs m
  /\ random_seat_choice m' = random_seat_choice m
  /\ max_num_agents m' = max_num_agents m
  /\ social_network m' = social_network m
  /\ sociability_range m' = sociability_range m
  /\ sociability_np m' = sociability_np m.

Definition seated_count (m : ClassroomModel) : nat :=
  List.length (filter seated (agents m)).

Definition taken (s : Seat) : bool := negb (is_free s).

Definition taken_count (m : ClassroomModel) : nat :=
  List.length (filter taken (seats m)).

(** How the values of a supplied sociability sequence [l] have been handed
    out in [m], [c2] being the sociability coefficient. *)
Definition sociability_given (l : list Q) (c2 : Q) (m : ClassroomModel) : Prop :=
  nth_error (coefs m) 2 = Some c2
  /\ if Qeq_bool c2 0
     then map sociability (agents m) = repeat 0%Q (List.length (agents m))
          /\ sociability_sequence m = l
     else map sociability (agents m) = firstn (List.length (agents m)) l
          /\ sociability_sequence m = skipn (List.length (agents m)) l.

(** The total weight that the interaction matrix gives to a list of cells. *)
Definition interaction_weight (cells : list (nat * nat)) : Q :=
  fold_right (fun xy acc => friendship_interaction_matrix (fst xy) (snd xy) + acc)%Q
             0%Q cells.

(** ** Comparison of seating matrices ([model_comparison.py]) *)

(** [calculate_mse]: the squared differences of the zipped lists, summed
    and divided by the length of the shorter list. *)
(** A profile of counts: whole numbers, small enough for the squares of
    their differences to be exact in a [float64]. *)
Definition whole_numbers (l : list Q) : Prop :=
  Forall (fun q => exists z : Z, q = inject_Z z /\ (Z.abs z <= 2 ^ 25)%Z) l.

Definition calculate_mse (list1 list2 : list Q) : result Q :=
  let mse := fold_left (fun acc xy => acc + (fst xy - snd xy) * (fst xy - snd xy))%Q
                       (combine list1 list2) 0%Q in
  let n := Nat.min (List.length list1) (List.length list2) in
  if n =? 0 then Raise ZeroDivisionError
  else Ok (mse / inject_Z (Z.of_nat n))%Q.

(** The slice [l[a:b]]. *)
Definition slice {A : Type} (l : list A) (a b : nat) : list A :=
  firstn (b - a) (skipn a l).

(** [np.split(row, indices)] on a one-dimensional array: the slices between
    consecutive division points. *)
Fixpoint split_from {A : Type} (start : nat) (indices : list nat) (l : list A)
    : list (list A) :=
  match indices with
  | [] => [slice l start (List.length l)]
  | i :: rest => slice l start i :: split_from i rest l
  end.

Definition np_split {A : Type} (l : list A) (indices : list nat)
    : list (list A) :=
  split_from 0 indices l.

(** [counts[c] += 1]; the counts are whole numbers held in floats. *)
Definition bump (c : nat) (counts : list nat) : result (list nat) :=
  if c <? List.length counts then Ok (list_update c S counts)
  else Raise IndexError.

(** The loop of [count_clusters] over the seats of one block, and what
    follows it. *)
Fixpoint cluster_scan (block : list Q) (c : nat) (counts : list nat)
    : result (list nat) :=
  match block with
  | [] => bump c counts
  | seat :: rest =>
      if Qeq_bool seat 1 then cluster_scan rest (S c) counts
      else counts' <- bump c counts ;; cluster_scan rest 0 counts'
  end.

Definition count_clusters (model_state : ndarray) (aisles : list nat)
    : result (list nat) :=
  counts <-
    fold_left (fun r row =>
                 fold_left (fun r block => counts <- r ;;
                                           cluster_scan block 0 counts)
                           (np_split row aisles) r)
              (data model_state)
              (Ok (repeat 0 (shape1 model_state + 1))) ;;
  Ok (list_update 0 (fun _ => 0) counts).

(** The number of entries equal to 1. *)
Definition ones (l : list Q) : nat :=
  List.length (filter (fun q => Qeq_bool q 1) l).

(** The number of seats in clusters: each cluster counted with its
    length. *)
Definition weighted_from (k : nat) (counts : list nat) : nat :=
  list_sum (map (fun ic => fst ic * snd ic)
                (combine (seq k (List.length counts)) counts)).

Fixpoint nondecreasing_from (start : nat) (indices : list nat) : bool :=
  match indices with
  | [] => true
  | i :: rest => (start <=? i) && nondecreasing_from i rest
  end.

(** [np.insert(model_state, a, value, axis=1)] for [a < shape[1]], and
    [np.concatenate((model_state, value*np.ones((shape[0], 1))), axis=1)]. *)
Definition np_insert_value_axis1 (a : ndarray) (y : nat) (value : Q) : ndarray :=
  mk_ndarray (shape0 a) (S (shape1 a)) (map (insert_at y value) (data a)).

Definition np_append_value_axis1 (a : ndarray) (value : Q) : ndarray :=
  mk_ndarray (shape0 a) (S (shape1 a)) (map (fun r => r ++ [value]) (data a)).

Definition insert_aisles (model_state : ndarray) (aisles : list nat)
    (value : Q) : ndarray :=
  fold_left (fun ms a => if a <? shape1 ms
                         then np_insert_value_axis1 ms a value
                         else np_append_value_axis1 ms value)
            aisles model_state.

(** The aisles are given in strictly ascending order, and each one lies
    at most one column past the matrix it is inserted into. *)
Fixpoint aisles_fit (n : nat) (aisles : list nat) : bool :=
  match aisles with
  | [] => true
  | a :: rest =>
      (a <=? n) && forallb (fun b => a <? b) rest && aisles_fit (S n) rest
  end.

(** [count_lbp]: the relative coordinates of the eight neighbours. *)
Definition i_deltas : list Z := [-1; -1; -1; 0; 1; 1; 1; 0]%Z.
Definition j_deltas : list Z := [-1; 0; 1; 1; 1; 0; -1; -1]%Z.

(** The loop that builds [dec] for the cell [(i, j)]. *)
Definition lbp_code (model_state : ndarray) (i j : nat) : Q :=
  fold_left (fun dec kd =>
               let '(k, (i_d, j_d)) := kd in
               dec + np_get model_state
                            (Z.to_nat (Z.of_nat i + i_d))
                            (Z.to_nat (Z.of_nat j + j_d))
                     * inject_Z (2 ^ Z.of_nat k))%Q
            (combine (seq 0 8) (combine i_deltas j_deltas)) 0%Q.

(** [int(dec)] truncates towards zero. *)
Definition int_of_float (q : Q) : Z := Z.quot (Qnum q) (Zpos (Qden q)).

(** [counts[n] += 1] for an integer [n]: a negative index counts from the
    end, an index out of range raises. *)
Definition counts_bump (n : Z) (counts : list nat) : result (list nat) :=
  let len := Z.of_nat (List.length counts) in
  if ((0 <=? n) && (n <? len))%Z
  then Ok (list_update (Z.to_nat n) S counts)
  else if ((- len <=? n) && (n <? 0))%Z
       then Ok (list_update (Z.to_nat (len + n)) S counts)
       else Raise IndexError.

Definition count_lbp (model_state : ndarray) : result (list nat) :=
  fold_left (fun r i =>
               fold_left (fun r j =>
                            counts <- r ;;
                            counts_bump (int_of_float (lbp_code model_state i j))
                                        counts)
                         (seq 1 (shape1 model_state - 2)) r)
            (seq 1 (shape0 model_state - 2))
            (Ok (repeat 0 256)).

(** ** States reached by the concrete configurations *)

Module Runs.

Import Examples.

Definition model_crowded_value : ClassroomModel :=
  Eval vm_compute in the no_model model_crowded.

(** The 2-by-2 classroom after two and after three ticks. *)
Definition model_2_2_after_2 : ClassroomModel :=
  Eval vm_compute in the no_model (run in_order 0 2 model_2_2_value).
Definition model_2_2_after_3 : ClassroomModel :=
  Eval vm_compute in the no_model (run in_order 0 3 model_2_2_value).

(** The first student of the 2-by-2 classroom, standing at the entrance,
    and the state after it has chosen its seat. *)
Definition first_student : Student := new_student 0 (-1) (0, 0).
Definition model_2_2_first_seated : ClassroomModel :=
  Eval vm_compute in
    the no_model (choose_seat first_student None None model_2_2_arrival).

(** The classroom in random mode after the admission of its first
    student. *)
Definition model_zero_array_arrival : ClassroomModel :=
  Eval vm_compute in the no_model (admission model_zero_array_value).

(** Two rows of four seats with an aisle after the second seat. *)
Definition two_rows : ndarray :=
  mk_ndarray 2 4 [[1; 1; 1; 0]; [0; 1; 0; 1]]%Q.

(** A seating matrix with two interior cells. *)
Definition three_by_four : ndarray :=
  mk_ndarray 3 4 [[1; 0; 1; 0]; [0; 1; 1; 0]; [1; 1; 0; 0]]%Q.


(** The classroom with [max_pass = 0] after the admission of its first
    student. *)
Definition model_1_1_arrival : ClassroomModel :=
  Eval vm_compute in the no_model (admission model_1_1_value).

(** A tie matrix in which everybody is a friend of everybody else, and the
    2-by-2 classroom with these ties when the first student sits at
    [(0, 1)] and the second one has just come in. *)
Definition friends : nat -> nat -> Q := fun i j => if i =? j then 0%Q else 1%Q.
Definition everybody_friends (n : Z) (p : Q) : result (nat -> nat -> Q) :=
  Ok friends.
Definition second_student : Student := new_student 1 0 (0, 0).
Definition friends_second_arrival : ClassroomModel :=
  Eval vm_compute in
    the no_model
      (m <- ClassroomModel_init mt19937 everybody_friends walts_graph
              design_2_2_value (PyList [1 # 4; 1 # 4; 1 # 4; 1 # 4]%Q) None
              (Some (PyList [-1; 0; 1; 0]%Q)) 0%Z ;;
       m1 <- run in_order 0 1 m ;;
       admission m1).




End Runs.

(** * Properties *)

(** ** The roster *)

Lemma pos_eqb_eq (p q : nat * nat) : pos_eqb p q = true <-> p = q.
Proof.
  destruct p as [a b], q as [c d]; unfold pos_eqb; simpl.
  rewrite andb_true_iff, !Nat.eqb_eq. split.
  - intros [-> ->]; reflexivity.
  - intros H; inversion H; auto.
Qed.

Lemma pos_eqb_refl (p : nat * nat) : pos_eqb p p = true.
Proof. apply pos_eqb_eq; reflexivity. Qed.

Lemma pos_eqb_neq (p q : nat * nat) : pos_eqb p q = false <-> p <> q.
Proof.
  rewrite <- pos_eqb_eq. destruct (pos_eqb p q); split; congruence.
Qed.

Lemma get_agent_some (id : nat) (m : ClassroomModel) (a : Student) :
  get_agent id m = Some a -> In a (agents m) /\ unique_id a = id.
Proof.
  unfold get_agent; intros H; apply find_some in H.
  destruct H as [H1 H2]; apply Nat.eqb_eq in H2; auto.
Qed.

Lemma find_by_id (l : list Student) (a : Student) :
  NoDup (map unique_id l) -> In a l ->
  find (fun b => unique_id b =? unique_id a) l = Some a.
Proof.
  induction l as [|b l IH]; simpl; intros ND Hin; [contradiction|].
  inversion ND as [|x xs Hnot ND']; subst.
  destruct Hin as [->|Hin].
  - now rewrite Nat.eqb_refl.
  - destruct (unique_id b =? unique_id a) eqn:E.
    + apply Nat.eqb_eq in E. exfalso; apply Hnot.
      rewrite E; now apply in_map.
    + auto.
Qed.

Lemma roster_nodup (m : ClassroomModel) :
  roster_ok m -> NoDup (map unique_id (agents m)).
Proof. intros [H _]; rewrite H; apply seq_NoDup. Qed.

Lemma roster_get_agent (m : ClassroomModel) (a : Student) :
  roster_ok m -> In a (agents m) -> get_agent (unique_id a) m = Some a.
Proof.
  intros R Hin; unfold get_agent; apply find_by_id; auto using roster_nodup.
Qed.

Lemma roster_id_lt (m : ClassroomModel) (a : Student) :
  roster_ok m -> In a (agents m) -> unique_id a < List.length (agents m).
Proof.
  intros [H _] Hin. apply (in_map unique_id) in Hin.
  rewrite H in Hin; apply in_seq in Hin; lia.
Qed.

Lemma roster_no_reseating (m : ClassroomModel) (a : Student) :
  roster_ok m -> In a (agents m) -> will_to_change_seat a = false.
Proof.
  intros [_ H] Hin; rewrite Forall_forall in H; auto.
Qed.

Lemma filter_length_perm {A : Type} (f : A -> bool) (l1 l2 : list A) :
  Permutation l1 l2 ->
  List.length (filter f l1) = List.length (filter f l2).
Proof.
  induction 1; simpl; try congruence.
  - destruct (f x); simpl; congruence.
  - destruct (f x), (f y); reflexivity.
Qed.

Lemma unseated_ids (m : ClassroomModel) :
  roster_ok m ->
  List.length (filter (unseated m) (map unique_id (agents m))) = unseated_count m.
Proof.
  intros R; unfold unseated_count.
  assert (G : forall l, incl l (agents m) ->
            List.length (filter (unseated m) (map unique_id l))
            = List.length (filter (fun a => negb (seated a)) l)).
  { induction l as [|a l IH]; intros Hi; [reflexivity|]; simpl.
    unfold unseated at 1.
    rewrite (roster_get_agent m a R) by (apply Hi; now left).
    destruct (seated a); simpl; rewrite IH; auto;
      intros x Hx; apply Hi; now right. }
  apply G, incl_refl.
Qed.

(** ** One activation *)

Lemma Student_step_seated (id : nat) (m : ClassroomModel) (a : Student) :
  get_agent id m = Some a -> seated a = true ->
  will_to_change_seat a = false ->
  Student_step id m = Ok m.
Proof.
  intros H1 H2 H3; unfold Student_step; rewrite H1, H2, H3; reflexivity.
Qed.

Lemma Student_step_standing (id : nat) (m : ClassroomModel) (a : Student) :
  get_agent id m = Some a -> seated a = false ->
  will_to_change_seat a = false ->
  Student_step id m = choose_seat a None None m.
Proof.
  intros H1 H2 H3; unfold Student_step; rewrite H1, H2, H3.
  destruct (choose_seat a None None m); reflexivity.
Qed.

Lemma choose_seat_full (self : Student) (old : option (nat * nat))
    (m : ClassroomModel) :
  seat_options m = [] ->
  choose_seat self None old m = Ok (print no_empty_seats m).
Proof.
  intros H; unfold choose_seat, select_seat; rewrite H; reflexivity.
Qed.

Lemma prints_print (k : nat) (m : ClassroomModel) :
  prints k (print no_empty_seats m) = prints (S k) m.
Proof.
  unfold prints, print; simpl; f_equal. now rewrite <- app_assoc.
Qed.

Lemma prints_0 (m : ClassroomModel) : prints 0 m = m.
Proof.
  destruct m; unfold prints; simpl; now rewrite app_nil_r.
Qed.

Lemma schedule_step_full (order : list nat) :
  forall m, seat_options m = [] ->
    (forall a, In a (agents m) -> will_to_change_seat a = false) ->
    schedule_step order m
    = Ok (prints (List.length (filter (unseated m) order)) m).
Proof.
  induction order as [|id rest IH]; intros m Hfull Hw; simpl.
  - now rewrite prints_0.
  - unfold unseated at 1. destruct (get_agent id m) as [a|] eqn:E.
    + destruct (get_agent_some _ _ _ E) as [Hin _].
      destruct (seated a) eqn:Hs; simpl.
      * rewrite (Student_step_seated id m a); auto. simpl; auto.
      * rewrite (Student_step_standing id m a); auto.
        rewrite choose_seat_full by assumption. simpl.
        rewrite IH by assumption.
        change (unseated (print no_empty_seats m)) with (unseated m).
        now rewrite prints_print.
    + unfold Student_step; rewrite E; simpl; auto.
Qed.

Lemma schedule_step_idle (order : list nat) (m : ClassroomModel) :
  (forall id, In id order -> Student_step id m = Ok m) ->
  schedule_step order m = Ok m.
Proof.
  induction order as [|id rest IH]; intros H; simpl; [reflexivity|].
  rewrite H by now left. simpl. apply IH; intros; apply H; now right.
Qed.

(** A tick in which only [n] can act comes down to the activation of [n],
    wherever the shuffle put it. *)
Lemma schedule_step_single (n : nat) (order : list nat) (m : ClassroomModel) :
  NoDup order -> In n order ->
  (forall id, In id order -> id <> n -> Student_step id m = Ok m) ->
  (forall m', Student_step n m = Ok m' ->
     forall id, In id order -> id <> n -> Student_step id m' = Ok m') ->
  schedule_step order m = Student_step n m.
Proof.
  induction order as [|id rest IH]; intros ND Hin H1 H2; [contradiction|].
  inversion ND as [|x xs Hnot ND']; subst. simpl.
  destruct (Nat.eq_dec id n) as [->|Hne].
  - destruct (Student_step n m) as [m'|e] eqn:E; simpl; [|reflexivity].
    apply schedule_step_idle. intros id Hid.
    apply (H2 m' eq_refl); [now right|]. intros ->; contradiction.
  - rewrite H1; [|now left|assumption]. simpl.
    apply IH; auto.
    + destruct Hin; [contradiction|assumption].
    + intros; apply H1; auto; now right.
    + intros m' Hm' id' Hid' Hn'. apply (H2 m' Hm'); auto; now right.
Qed.

(** ** Admission *)

Lemma admission_cases (m m1 : ClassroomModel) :
  admission m = Ok m1 ->
  (m1 = m /\ (max_num_agents m <= Z.of_nat (List.length (agents m)))%Z)
  \/ exists s q r p,
       (Z.of_nat (List.length (agents m)) < max_num_agents m)%Z
       /\ fst p < width (classroom m) /\ snd p < num_rows (classroom m)
       /\ m1 = set_agents
                 (agents m ++ [new_student (List.length (agents m)) s p])
                 (set_sociability_sequence q (set_rand r m)).
Proof.
  unfold admission.
  destruct (Z.ltb_spec (Z.of_nat (List.length (agents m))) (max_num_agents m))
    as [Hlt|Hge].
  2:{ intros H; inversion H; subst; left; split; [reflexivity|assumption]. }
  destruct (nth_error (coefs m) 2) as [c2|]; simpl; [|discriminate].
  destruct (if Qeq_bool c2 0 then _ else _) as [sq|]; simpl; [|discriminate].
  destruct (randint _ _) as [ir|]; simpl; [|discriminate].
  destruct (out_of_bounds _ _ _) eqn:Hb; [discriminate|].
  intros H; inversion H; subst; clear H. right.
  unfold out_of_bounds in Hb. rewrite !orb_false_iff in Hb.
  destruct Hb as [[[Hx0 Hx] Hy0] Hy].
  apply Z.leb_gt in Hx, Hy. apply Z.ltb_ge in Hx0, Hy0.
  exists (fst sq), (snd sq), (snd ir),
    (Z.to_nat (fst (nth (fst ir) (entrances (classroom m)) (0, 0)%Z)),
     Z.to_nat (snd (nth (fst ir) (entrances (classroom m)) (0, 0)%Z))).
  cbn [fst snd]. repeat split; auto; lia.
Qed.

(** ** Seats *)

Lemma initial_seats_spec (d : ClassroomDesign) (s : Seat) :
  In s (initial_seats d) <->
  student s = None
  /\ fst (seat_pos s) < width d /\ snd (seat_pos s) < num_rows d
  /\ existsb (Nat.eqb (fst (seat_pos s))) (aisles_x d) = false
  /\ existsb (Nat.eqb (snd (seat_pos s))) (aisles_y d) = false.
Proof.
  unfold initial_seats. rewrite in_flat_map. split.
  - intros (x & Hx & H). apply in_seq in Hx.
    destruct (existsb (Nat.eqb x) (aisles_x d)) eqn:Ex; [contradiction|].
    apply in_flat_map in H. destruct H as (y & Hy & H). apply in_seq in Hy.
    destruct (existsb (Nat.eqb y) (aisles_y d)) eqn:Ey; [contradiction|].
    destruct H as [<-|[]]; simpl. repeat split; auto; lia.
  - intros (Hs & Hx & Hy & Ex & Ey). destruct s as [[x y] o]; simpl in *.
    subst o. exists x. split; [apply in_seq; lia|]. rewrite Ex.
    apply in_flat_map. exists y. split; [apply in_seq; lia|]. rewrite Ey.
    now left.
Qed.

Lemma set_student_pos (p : nat * nat) (o : option nat) (l : list Seat) :
  map seat_pos (set_student p o l) = map seat_pos l.
Proof.
  unfold set_student; rewrite map_map; apply map_ext.
  intros s; destruct (pos_eqb (seat_pos s) p); reflexivity.
Qed.

Lemma set_student_in (p : nat * nat) (o : option nat) (l : list Seat) (s' : Seat) :
  In s' (set_student p o l) <->
  exists s, In s l
            /\ s' = (if pos_eqb (seat_pos s) p then mk_seat (seat_pos s) o else s).
Proof.
  unfold set_student; rewrite in_map_iff; split;
    intros (s & H1 & H2); exists s; auto.
Qed.

Lemma set_student_cell (p : nat * nat) (o : option nat) (l : list Seat) :
  (forall s1 s2, In s1 l -> In s2 l -> seat_pos s1 = seat_pos s2 -> s1 = s2) ->
  forall s1 s2, In s1 (set_student p o l) -> In s2 (set_student p o l) ->
                seat_pos s1 = seat_pos s2 -> s1 = s2.
Proof.
  intros F s1 s2 H1 H2 E.
  apply set_student_in in H1, H2.
  destruct H1 as (t1 & I1 & ->), H2 as (t2 & I2 & ->).
  assert (Et : t1 = t2).
  { apply F; auto.
    destruct (pos_eqb (seat_pos t1) p), (pos_eqb (seat_pos t2) p); exact E. }
  subst t2; reflexivity.
Qed.

Lemma seat_options_in (m : ClassroomModel) (s : Seat) :
  In s (seat_options m) <-> In s (seats m) /\ student s = None.
Proof.
  unfold seat_options; rewrite filter_In; unfold is_free.
  destruct (student s); split; intros [H1 H2]; split; auto; discriminate.
Qed.

(** ** Selection *)

Lemma randint_lt (n i : nat) (r r' : RandomState) :
  randint n r = Ok (i, r') -> i < n.
Proof.
  unfold randint. destruct (Nat.eqb_spec n 0); [discriminate|].
  intros H; injection H as H1 H2. subst i.
  now apply Nat.mod_upper_bound.
Qed.

Lemma choice_in {A : Type} (l : list A) (r r' : RandomState) (x : A) :
  choice l r = Ok (x, r') -> In x l.
Proof.
  unfold choice. destruct l as [|a l]; [discriminate|].
  destruct (randint (List.length (a :: l)) r) as [[i r1]|] eqn:R;
    cbn [bind fst snd]; [|discriminate].
  intros H.
  assert (E : nth i (a :: l) a = x) by (inversion H; reflexivity).
  rewrite <- E. apply (nth_In (a :: l) a). eapply randint_lt; eauto.
Qed.

Lemma optimal_seats_incl (opts : list Seat) (us : list pyfloat) (mx : pyfloat)
    (s : Seat) :
  In s (optimal_seats opts us mx) -> In s opts.
Proof.
  unfold optimal_seats; rewrite in_map_iff.
  intros ([s' u] & <- & H). apply filter_In in H. destruct H as [H _].
  now apply in_combine_l in H.
Qed.

Lemma select_seat_some (self : Student) (m m' : ClassroomModel)
    (o : option Seat) :
  seat_options m <> [] ->
  select_seat self None None m = Ok (o, m') ->
  exists c r, o = Some c /\ In c (seat_options m) /\ m' = set_rand r m.
Proof.
  intros Hne. unfold select_seat.
  destruct (seat_options m) as [|first rest] eqn:E; [congruence|].
  destruct (random_seat_choice m).
  - destruct (choice (first :: rest) (rand m)) as [[c r]|] eqn:C;
      cbn [bind fst snd]; [|discriminate].
    intros H; inversion H; subst. exists c, r. repeat split; auto.
    exact (choice_in _ _ _ _ C).
  - destruct (mapM _ _) as [us|]; cbn [bind fst snd]; [|discriminate].
    destruct (np_max us) as [mx|]; cbn [bind fst snd]; [|discriminate].
    destruct (choice _ (rand m)) as [[c r]|] eqn:C; cbn [bind fst snd]; [|discriminate].
    intros H; inversion H; subst. exists c, r. repeat split; auto.
    apply choice_in in C. eapply optimal_seats_incl; eauto.
Qed.

Lemma occupy_fields (self : Student) (c : Seat) (m m' : ClassroomModel) :
  occupy self c None m = Ok m' ->
  exists h,
    seats m' = set_student (seat_pos c) (Some (unique_id self)) (seats m)
    /\ agents m' = update_agent (unique_id self) (sit_down h)
                     (update_agent (unique_id self) (move_to (seat_pos c))
                                   (agents m))
    /\ classroom m' = classroom m
    /\ stdout m' = stdout m.
Proof.
  unfold occupy.
  destruct (get_happiness _ _ _) as [h|]; simpl; [|discriminate].
  intros H; inversion H; subst; clear H. exists h. repeat split.
Qed.

Lemma choose_seat_some (self : Student) (m m' : ClassroomModel) :
  seat_options m <> [] ->
  choose_seat self None None m = Ok m' ->
  exists c r, In c (seat_options m)
              /\ occupy self c None (set_rand r m) = Ok m'.
Proof.
  intros Hne. unfold choose_seat.
  destruct (select_seat self None None m) as [[o m1]|] eqn:S;
    simpl; [|discriminate].
  destruct (select_seat_some _ _ _ _ Hne S) as (c & r & -> & Hc & ->).
  intros H; exists c, r; auto.
Qed.

Lemma update_agent_last (n : nat) (f : Student -> Student)
    (l : list Student) (a : Student) :
  (forall b, In b l -> unique_id b <> n) -> unique_id a = n ->
  update_agent n f (l ++ [a]) = l ++ [f a].
Proof.
  intros Hl Ha. unfold update_agent. rewrite map_app. simpl.
  rewrite Ha, Nat.eqb_refl. f_equal.
  rewrite <- (map_id l) at 2. apply map_ext_in.
  intros b Hb. destruct (Nat.eqb_spec (unique_id b) n); auto.
  exfalso; eapply Hl; eauto.
Qed.

(** ** The tick invariant *)

Lemma find_update_other (id n : nat) (f : Student -> Student)
    (l : list Student) :
  (forall a, unique_id (f a) = unique_id a) -> id <> n ->
  find (fun a => unique_id a =? id) (update_agent n f l)
  = find (fun a => unique_id a =? id) l.
Proof.
  intros Hf Hne. induction l as [|a l IH]; [reflexivity|]. simpl.
  destruct (Nat.eqb_spec (unique_id a) n) as [E|E].
  - rewrite Hf, E. destruct (Nat.eqb_spec n id); [congruence|]. exact IH.
  - destruct (unique_id a =? id); [reflexivity|exact IH].
Qed.

Lemma admission_roster (m m1 : ClassroomModel) :
  roster_ok m -> admission m = Ok m1 -> roster_ok m1.
Proof.
  intros R H. destruct (admission_cases _ _ H) as [[-> _]|(s & q & r & p & _ & _ & _ & ->)];
    [assumption|].
  destruct R as [R1 R2]. split; simpl.
  - rewrite map_app, length_app, R1, seq_app. reflexivity.
  - apply Forall_app; split; [assumption|]. constructor; [reflexivity|constructor].
Qed.

Lemma admission_keeps (m m1 : ClassroomModel) :
  admission m = Ok m1 ->
  seats m1 = seats m /\ classroom m1 = classroom m /\ stdout m1 = stdout m
  /\ incl (agents m) (agents m1).
Proof.
  intros H. destruct (admission_cases _ _ H) as [[-> _]|(s & q & r & p & _ & _ & _ & ->)];
    simpl; repeat split; auto using incl_refl, incl_appl.
Qed.

Lemma consistent_prints (k : nat) (m : ClassroomModel) :
  consistent m -> consistent (prints k m).
Proof.
  intros [H1 H2 H3 H4 H5 H6 H7]. constructor.
  - exact H1.
  - exact H2.
  - exact H3.
  - exact H4.
  - exact H5.
  - exact H6.
  - exact H7.
Qed.

Lemma admission_consistent_full (m m1 : ClassroomModel) :
  consistent m -> seat_options m = [] -> admission m = Ok m1 -> consistent m1.
Proof.
  intros C Hfull H. pose proof (admission_roster _ _ (cons_roster _ C) H) as R1.
  destruct (admission_cases _ _ H) as [[-> _]|(s & q & r & p & _ & Hx & Hy & ->)];
    [assumption|].
  destruct C as [C1 C2 C3 C4 C5 C6 C7]. constructor; simpl.
  - exact R1.
  - intros; exact Hfull.
  - intros s0 id Hs Hid. destruct (C3 s0 id Hs Hid) as (a & Ha & Hr).
    exists a; split; [apply in_or_app; now left|exact Hr].
  - intros a Ha Hseated. apply in_app_or in Ha. destruct Ha as [Ha|[<-|[]]].
    + now apply C4.
    + discriminate.
  - exact C5.
  - exact C6.
  - intros a Ha. apply in_app_or in Ha. destruct Ha as [Ha|[<-|[]]].
    + now apply C7.
    + simpl; auto.
Qed.

Lemma all_seated (m : ClassroomModel) :
  consistent m -> seat_options m <> [] ->
  forall a, In a (agents m) -> seated a = true.
Proof.
  intros C Hne a Ha. destruct (seated a) eqn:E; [reflexivity|].
  exfalso; apply Hne. eapply cons_full; eauto.
Qed.

(** The state in which a newly arrived student, placed at [p], has taken
    the empty seat [c]. *)
Lemma arrival_consistent (m m1 m' : ClassroomModel) (new : Student) (c : Seat) :
  consistent m ->
  (forall a, In a (agents m) -> seated a = true) ->
  unique_id new = List.length (agents m) ->
  will_to_change_seat new = false ->
  agents m1 = agents m ++ [new] ->
  seats m1 = seats m -> classroom m1 = classroom m ->
  In c (seat_options m) ->
  occupy new c None m1 = Ok m' ->
  consistent m'.
Proof.
  intros C Hall Hid Hw Ha1 Hs1 Hc1 Hc Hocc.
  destruct (occupy_fields _ _ _ _ Hocc) as (h & Hs & Ha & Hd & _).
  rewrite Hs1 in Hs. rewrite Hc1 in Hd. rewrite Ha1 in Ha.
  assert (Hfresh : forall b, In b (agents m) -> unique_id b <> unique_id new).
  { intros b Hb. pose proof (roster_id_lt m b (cons_roster _ C) Hb). lia. }
  rewrite (update_agent_last _ _ _ new Hfresh eq_refl) in Ha.
  rewrite (update_agent_last _ _ _ (move_to (seat_pos c) new) Hfresh eq_refl)
    in Ha.
  set (cp := seat_pos c) in *.
  set (new' := sit_down h (move_to cp new)) in *.
  apply seat_options_in in Hc. destruct Hc as [Hcin Hcfree].
  destruct C as [[C1a C1b] C2 C3 C4 C5 C6 C7].
  constructor.
  - split; rewrite Ha.
    + rewrite map_app, length_app, C1a, seq_app. simpl. now rewrite Hid.
    + apply Forall_app; split; [assumption|].
      constructor; [exact Hw|constructor].
  - intros a Hin Hst. rewrite Ha in Hin. apply in_app_or in Hin.
    destruct Hin as [Hin|[<-|[]]].
    + rewrite (Hall a Hin) in Hst; discriminate.
    + discriminate.
  - intros s id Hin Hst. rewrite Hs in Hin. apply set_student_in in Hin.
    destruct Hin as (s0 & Hin0 & ->). rewrite Ha.
    destruct (pos_eqb (seat_pos s0) cp) eqn:E.
    + simpl in Hst. inversion Hst; subst id. exists new'.
      apply pos_eqb_eq in E.
      repeat split; auto. apply in_or_app; right; now left.
    + destruct (C3 s0 id Hin0 Hst) as (a & Hin & Hr).
      exists a; split; [apply in_or_app; now left|exact Hr].
  - intros a Hin Hst. rewrite Ha in Hin. rewrite Hs.
    apply in_app_or in Hin. destruct Hin as [Hin|[<-|[]]].
    + apply set_student_in. exists (mk_seat (pos a) (Some (unique_id a))).
      split; [now apply C4|]. simpl.
      destruct (pos_eqb (pos a) cp) eqn:E; [|reflexivity].
      apply pos_eqb_eq in E. exfalso.
      assert (X : mk_seat (pos a) (Some (unique_id a)) = c).
      { apply C5; auto. }
      rewrite <- X in Hcfree. discriminate.
    + apply set_student_in. exists c. split; [assumption|].
      fold cp. rewrite pos_eqb_refl. reflexivity.
  - rewrite Hs. now apply set_student_cell.
  - rewrite Hs, Hd, set_student_pos. exact C6.
  - intros a Hin. rewrite Ha in Hin. rewrite Hd.
    apply in_app_or in Hin. destruct Hin as [Hin|[<-|[]]].
    + now apply C7.
    + assert (X : In cp (map seat_pos (initial_seats (classroom m)))).
      { rewrite <- C6. now apply in_map. }
      apply in_map_iff in X. destruct X as (s0 & E0 & Hs0).
      apply initial_seats_spec in Hs0. simpl. rewrite <- E0. tauto.
Qed.

Lemma choose_seat_others (self : Student) (m m' : ClassroomModel) (id : nat) :
  choose_seat self None None m = Ok m' -> id <> unique_id self ->
  get_agent id m' = get_agent id m.
Proof.
  intros H Hne. destruct (seat_options m) as [|s0 rest] eqn:E.
  - rewrite choose_seat_full in H by assumption. inversion H; reflexivity.
  - assert (Hn : seat_options m <> []) by (rewrite E; discriminate).
    destruct (choose_seat_some _ _ _ Hn H) as (c & r & _ & Hocc).
    destruct (occupy_fields _ _ _ _ Hocc) as (h & _ & Ha & _).
    unfold get_agent. rewrite Ha. simpl.
    rewrite !find_update_other; auto.
Qed.

Lemma tick_full (sh : list nat -> list nat) (m m1 : ClassroomModel) :
  roster_ok m -> seat_options m = [] -> admission m = Ok m1 ->
  (forall l, Permutation (sh l) l) ->
  ClassroomModel_step sh m = Ok (prints (unseated_count m1) m1).
Proof.
  intros R Hfull Ha Hsh. unfold ClassroomModel_step. rewrite Ha. simpl.
  pose proof (admission_roster _ _ R Ha) as R1.
  destruct (admission_keeps _ _ Ha) as (Hs & _).
  rewrite schedule_step_full.
  - rewrite (filter_length_perm _ _ _ (Hsh _)), unseated_ids; auto.
  - unfold seat_options; rewrite Hs; exact Hfull.
  - intros a Hin; eapply roster_no_reseating; eauto.
Qed.

Lemma tick_arrival (order : list nat) (m m1 : ClassroomModel) (new : Student) :
  roster_ok m ->
  (forall a, In a (agents m) -> seated a = true) ->
  unique_id new = List.length (agents m) ->
  seated new = false -> will_to_change_seat new = false ->
  agents m1 = agents m ++ [new] ->
  Permutation order (map unique_id (agents m1)) ->
  schedule_step order m1 = choose_seat new None None m1.
Proof.
  intros R Hall Hid Hst Hw Ha Hp.
  assert (R1 : roster_ok m1).
  { destruct R as [Ra Rb]. split; rewrite Ha.
    - rewrite map_app, length_app, Ra, seq_app. simpl. now rewrite Hid.
    - apply Forall_app; split; [assumption|]. constructor; [exact Hw|constructor]. }
  assert (Hnew : In new (agents m1)).
  { rewrite Ha; apply in_or_app; right; now left. }
  assert (Hold : forall id, In id order -> id <> unique_id new ->
            exists a, get_agent id m1 = Some a /\ seated a = true
                      /\ will_to_change_seat a = false).
  { intros id Hin Hne. apply (Permutation_in _ Hp) in Hin.
    apply in_map_iff in Hin. destruct Hin as (a & <- & Hin).
    exists a. split; [now apply roster_get_agent|].
    split; [|eapply roster_no_reseating; eauto].
    rewrite Ha in Hin. apply in_app_or in Hin.
    destruct Hin as [Hin|[<-|[]]]; [now apply Hall|congruence]. }
  rewrite <- (Student_step_standing (unique_id new) m1 new);
    auto using roster_get_agent.
  apply schedule_step_single.
  - apply (Permutation_NoDup (Permutation_sym Hp)). now apply roster_nodup.
  - apply (Permutation_in _ (Permutation_sym Hp)). now apply in_map.
  - intros id Hin Hne. destruct (Hold id Hin Hne) as (a & G & S1 & W1).
    eapply Student_step_seated; eauto.
  - intros m' Hm' id Hin Hne. destruct (Hold id Hin Hne) as (a & G & S1 & W1).
    rewrite (Student_step_standing (unique_id new) m1 new) in Hm';
      auto using roster_get_agent.
    apply (Student_step_seated id m' a); auto.
    rewrite (choose_seat_others _ _ _ _ Hm' Hne). exact G.
Qed.

(** What a tick does depends on the model only: the shuffle of the scheduler
    has no influence, and the invariant is kept. *)
Lemma tick_result (m : ClassroomModel) :
  consistent m ->
  exists R,
    (forall sh, (forall l, Permutation (sh l) l) -> ClassroomModel_step sh m = R)
    /\ (forall m', R = Ok m' ->
          consistent m' /\ classroom m' = classroom m).
Proof.
  intros C. pose proof (cons_roster _ C) as R.
  destruct (admission m) as [m1|e] eqn:Ha.
  2:{ exists (Raise e). split; [|discriminate].
      intros sh _. unfold ClassroomModel_step. now rewrite Ha. }
  destruct (seat_options m) as [|s0 rest] eqn:E.
  - exists (Ok (prints (unseated_count m1) m1)). split.
    + intros sh Hsh. now apply tick_full.
    + intros m' H; inversion H; subst. split.
      * apply consistent_prints. eapply admission_consistent_full; eauto.
      * apply (admission_keeps _ _ Ha).
  - assert (Hne : seat_options m <> []) by (rewrite E; discriminate).
    pose proof (all_seated m C Hne) as Hall.
    destruct (admission_cases _ _ Ha) as [[-> _]|(s & q & r & p & _ & Hx & Hy & ->)].
    + exists (Ok m). split; [|intros m' H; inversion H; subst; split; auto].
      intros sh Hsh. unfold ClassroomModel_step. rewrite Ha. simpl.
      apply schedule_step_idle. intros id Hin.
      apply (Permutation_in _ (Hsh _)) in Hin.
      apply in_map_iff in Hin. destruct Hin as (a & <- & Hin).
      apply (Student_step_seated _ _ a); auto using roster_get_agent.
      eapply roster_no_reseating; eauto.
    + set (new := new_student (List.length (agents m)) s p).
      set (m1 := set_agents (agents m ++ [new])
                   (set_sociability_sequence q (set_rand r m))) in *.
      exists (choose_seat new None None m1). split.
      * intros sh Hsh. unfold ClassroomModel_step. rewrite Ha. simpl.
        apply (tick_arrival _ m m1 new); auto.
      * intros m' Hm'.
        assert (Hn1 : seat_options m1 <> []) by exact Hne.
        destruct (choose_seat_some _ _ _ Hn1 Hm') as (c & r' & Hc & Hocc).
        split.
        -- apply (arrival_consistent m (set_rand r' m1) m' new c); auto.
        -- destruct (occupy_fields _ _ _ _ Hocc) as (h & _ & _ & Hd & _).
           exact Hd.
Qed.

Lemma step_consistent (sh : list nat -> list nat) (m m' : ClassroomModel) :
  consistent m -> (forall l, Permutation (sh l) l) ->
  ClassroomModel_step sh m = Ok m' -> consistent m'.
Proof.
  intros C Hsh H. destruct (tick_result m C) as (R & HR & HC).
  apply HC. rewrite <- H. symmetry; now apply HR.
Qed.

Lemma step_classroom (sh : list nat -> list nat) (m m' : ClassroomModel) :
  consistent m -> (forall l, Permutation (sh l) l) ->
  ClassroomModel_step sh m = Ok m' -> classroom m' = classroom m.
Proof.
  intros C Hsh H. destruct (tick_result m C) as (R & HR & HC).
  apply HC. rewrite <- H. symmetry; now apply HR.
Qed.

Lemma step_order_irrelevant (sh1 sh2 : list nat -> list nat)
    (m : ClassroomModel) :
  consistent m ->
  (forall l, Permutation (sh1 l) l) -> (forall l, Permutation (sh2 l) l) ->
  ClassroomModel_step sh1 m = ClassroomModel_step sh2 m.
Proof.
  intros C H1 H2. destruct (tick_result m C) as (R & HR & _).
  now rewrite (HR sh1 H1), (HR sh2 H2).
Qed.

Lemma run_consistent (sched : nat -> list nat -> list nat) (n : nat) :
  shuffles sched ->
  forall t m m', consistent m -> run sched t n m = Ok m' -> consistent m'.
Proof.
  intros Hs. induction n as [|n IH]; intros t m m' C H; simpl in H.
  - inversion H; subst; exact C.
  - destruct (ClassroomModel_step (sched t) m) as [m1|] eqn:E;
      simpl in H; [|discriminate].
    eapply IH; [|exact H].
    eapply step_consistent; [exact C|intros l; apply Hs|exact E].
Qed.

Lemma run_classroom (sched : nat -> list nat -> list nat) (n : nat) :
  shuffles sched ->
  forall t m m', consistent m -> run sched t n m = Ok m' ->
                 classroom m' = classroom m.
Proof.
  intros Hs. induction n as [|n IH]; intros t m m' C H; simpl in H.
  - inversion H; subst; reflexivity.
  - destruct (ClassroomModel_step (sched t) m) as [m1|] eqn:E;
      simpl in H; [|discriminate].
    rewrite (IH _ _ _ (step_consistent _ _ _ C (Hs t) E) H).
    exact (step_classroom _ _ _ C (Hs t) E).
Qed.

Lemma run_order_irrelevant (s1 s2 : nat -> list nat -> list nat) (n : nat) :
  shuffles s1 -> shuffles s2 ->
  forall t1 t2 m, consistent m -> run s1 t1 n m = run s2 t2 n m.
Proof.
  intros H1 H2. induction n as [|n IH]; intros t1 t2 m C; simpl; [reflexivity|].
  rewrite (step_order_irrelevant (s1 t1) (s2 t2) m C (H1 t1) (H2 t2)).
  destruct (ClassroomModel_step (s2 t2) m) as [m1|] eqn:E; simpl; [|reflexivity].
  apply IH. eapply step_consistent; [exact C|intros l; apply H2|exact E].
Qed.

Section Constructed.

Variable mt19937 : Z -> nat -> nat.
Variable erdos_renyi : Z -> Q -> result (nat -> nat -> Q).
Variable walts_graph : list nat -> result (nat -> nat -> Q).

Lemma init_fields (d : ClassroomDesign) (c : pyseq)
    (ds : option (list nat)) (ss : option pyseq) (seed : Z)
    (m : ClassroomModel) :
  ClassroomModel_init mt19937 erdos_renyi walts_graph d c ds ss seed = Ok m ->
  classroom m = d /\ seats m = initial_seats d /\ agents m = []
  /\ stdout m = [] /\ random_seat_choice m = np_all_eq_zero c
  /\ rand m = mk_rand (mt19937 seed) 0.
Proof.
  unfold ClassroomModel_init.
  destruct (match ds with None => _ | Some _ => _ end) as [mn|];
    cbn [bind]; [|discriminate].
  destruct (match ss with None => _ | Some _ => _ end) as [sr|];
    cbn [bind]; [|discriminate].
  intros H; inversion H; subst; simpl. repeat split.
Qed.

Lemma init_consistent (d : ClassroomDesign) (c : pyseq)
    (ds : option (list nat)) (ss : option pyseq) (seed : Z)
    (m : ClassroomModel) :
  ClassroomModel_init mt19937 erdos_renyi walts_graph d c ds ss seed = Ok m ->
  consistent m.
Proof.
  intros H. destruct (init_fields _ _ _ _ _ _ H) as (Hd & Hs & Ha & _).
  constructor.
  - split; rewrite Ha; [reflexivity|constructor].
  - intros a Hin; rewrite Ha in Hin; contradiction.
  - intros s id Hin Hst. rewrite Hs in Hin.
    apply initial_seats_spec in Hin. destruct Hin as [Hn _]. congruence.
  - intros a Hin; rewrite Ha in Hin; contradiction.
  - intros [p1 o1] [p2 o2] H1 H2 E. rewrite Hs in H1, H2.
    apply initial_seats_spec in H1, H2. simpl in *.
    destruct H1 as [-> _], H2 as [-> _]. now subst.
  - now rewrite Hs, Hd.
  - intros a Hin; rewrite Ha in Hin; contradiction.
Qed.

End Constructed.

(** ** The empty-seat condition *)

Lemma admission_unseated_count (m m1 : ClassroomModel) :
  admission m = Ok m1 -> unseated_count m <= unseated_count m1.
Proof.
  intros H. destruct (admission_cases _ _ H) as [[-> _]|(s & q & r & p & _ & _ & _ & ->)];
    [lia|].
  unfold unseated_count; simpl. rewrite filter_app, length_app. lia.
Qed.

Lemma admission_capped (m : ClassroomModel) :
  (max_num_agents m <= Z.of_nat (List.length (agents m)))%Z -> admission m = Ok m.
Proof.
  intros H. unfold admission.
  destruct (Z.ltb_spec (Z.of_nat (List.length (agents m))) (max_num_agents m));
    [lia|reflexivity].
Qed.

Lemma run_full (sched : nat -> list nat -> list nat) (n : nat) :
  shuffles sched ->
  forall t m m', roster_ok m -> seat_options m = [] ->
    run sched t n m = Ok m' ->
    seats m' = seats m /\ incl (agents m) (agents m')
    /\ exists k, stdout m' = stdout m ++ repeat no_empty_seats k
                 /\ n * unseated_count m <= k.
Proof.
  intros Hs. induction n as [|n IH]; intros t m m' R Hfull H; simpl in H.
  - inversion H; subst. repeat split; auto using incl_refl.
    exists 0; simpl; rewrite app_nil_r; auto.
  - destruct (admission m) as [m1|e] eqn:Ha.
    2:{ unfold ClassroomModel_step in H; rewrite Ha in H; discriminate. }
    rewrite (tick_full (sched t) m m1 R Hfull Ha (Hs t)) in H. simpl in H.
    destruct (admission_keeps _ _ Ha) as (Hse & _ & Hout & Hincl).
    pose proof (admission_unseated_count _ _ Ha) as Hle.
    apply IH in H.
    + destruct H as (H1 & H2 & k & H3 & H4). simpl in *.
      split; [congruence|]. split; [eapply incl_tran; eauto|].
      exists (unseated_count m1 + k). split.
      * rewrite H3, Hout, repeat_app, app_assoc. reflexivity.
      * change (unseated_count (prints (unseated_count m1) m1))
          with (unseated_count m1) in H4. nia.
    + exact (admission_roster _ _ R Ha).
    + unfold seat_options; simpl. rewrite Hse. exact Hfull.
Qed.

Lemma run_full_capped (sched : nat -> list nat -> list nat) (n : nat) :
  shuffles sched ->
  forall t m, roster_ok m -> seat_options m = [] ->
    (max_num_agents m <= Z.of_nat (List.length (agents m)))%Z ->
    run sched t n m = Ok (prints (n * unseated_count m) m).
Proof.
  intros Hs. induction n as [|n IH]; intros t m R Hfull Hcap; simpl.
  - now rewrite prints_0.
  - rewrite (tick_full (sched t) m m R Hfull (admission_capped m Hcap) (Hs t)).
    simpl. rewrite IH; auto.
    unfold prints; simpl. f_equal.
    rewrite <- app_assoc, <- repeat_app. reflexivity.
Qed.

(** C7 - When the decision procedure runs and no seat of the grid is empty,
    it returns normally, having only printed the report: the seats and the
    roster (hence every [seated] flag) are as before.  A tick in that state
    prints one report per standing student, and over any number of further
    ticks the seats stay as they are, the standing students stay in the
    roster as they are, and every tick adds at least one report per
    student that was standing; once the population cap is reached these
    ticks never raise. *)
Theorem no_empty_seat_is_only_reported (m : ClassroomModel) :
  roster_ok m -> seat_options m = [] ->
  (forall self old,
      choose_seat self None old m = Ok (print no_empty_seats m)
      /\ seats (print no_empty_seats m) = seats m
      /\ agents (print no_empty_seats m) = agents m)
  /\ (forall sh m1,
         (forall l, Permutation (sh l) l) -> admission m = Ok m1 ->
         ClassroomModel_step sh m = Ok (prints (unseated_count m1) m1))
  /\ (forall sched t n m',
         shuffles sched -> run sched t n m = Ok m' ->
         seats m' = seats m /\ incl (agents m) (agents m')
         /\ exists k, stdout m' = stdout m ++ repeat no_empty_seats k
                      /\ n * unseated_count m <= k)
  /\ (forall sched t n,
         shuffles sched ->
         (max_num_agents m <= Z.of_nat (List.length (agents m)))%Z ->
         run sched t n m = Ok (prints (n * unseated_count m) m)).
Proof.
  intros R Hfull. repeat split.
  - now apply choose_seat_full.
  - intros sh m1 Hsh Ha. now apply tick_full.
  - eapply run_full; eauto.
  - eapply run_full; eauto.
  - eapply run_full; eauto.
  - intros sched t n Hs Hcap. now apply run_full_capped.
Qed.

(** The crowded classroom after five ticks: four students sit, the fifth
    stands at the entrance. *)
Lemma no_empty_seat_is_only_reported_witness :
  unseated_count Examples.crowded_after_5 = 1
  /\ run Examples.reversed 5 3 Examples.crowded_after_5
     = Ok (prints (3 * unseated_count Examples.crowded_after_5) Examples.crowded_after_5).
Proof.
  split; [vm_compute; reflexivity|].
  assert (R : roster_ok Examples.crowded_after_5)
    by (split; [vm_compute; reflexivity|repeat constructor]).
  assert (F : seat_options Examples.crowded_after_5 = []) by (vm_compute; reflexivity).
  destruct (no_empty_seat_is_only_reported Examples.crowded_after_5 R F) as (_ & _ & _ & H).
  apply (H Examples.reversed 5 3).
  - intros t l. apply Permutation_sym, Permutation_rev.
  - vm_compute. discriminate.
Defined.

(** ** Reproducibility *)

(** C8 - Two simulations constructed from the same seed, layout,
    coefficients, tie source and sociability sequence export the same
    seating matrix after [n] ticks (or fail alike), whatever order the
    scheduler of each activates the students in. *)
Theorem snapshots_are_reproducible
    (mt19937 : Z -> nat -> nat)
    (erdos_renyi : Z -> Q -> result (nat -> nat -> Q))
    (walts_graph : list nat -> result (nat -> nat -> Q))
    (d : ClassroomDesign) (c : pyseq) (ds : option (list nat))
    (ss : option pyseq) (seed : Z) (m1 m2 : ClassroomModel)
    (s1 s2 : nat -> list nat -> list nat) (n : nat) :
  ClassroomModel_init mt19937 erdos_renyi walts_graph d c ds ss seed = Ok m1 ->
  ClassroomModel_init mt19937 erdos_renyi walts_graph d c ds ss seed = Ok m2 ->
  shuffles s1 -> shuffles s2 ->
  (m <- run s1 0 n m1 ;; get_binary_model_state m)
  = (m <- run s2 0 n m2 ;; get_binary_model_state m).
Proof.
  intros H1 H2 P1 P2.
  assert (E : m1 = m2) by congruence. subst m2.
  rewrite (run_order_irrelevant s1 s2 n P1 P2 0 0 m1); [reflexivity|].
  eapply init_consistent; eauto.
Qed.

Lemma snapshots_are_reproducible_witness :
  (m <- run Examples.in_order 0 3 Examples.model_2_2_value ;; get_binary_model_state m)
  = (m <- run Examples.reversed 0 3 Examples.model_2_2_value ;; get_binary_model_state m).
Proof.
  apply (snapshots_are_reproducible Examples.mt19937 Examples.erdos_renyi
           Examples.walts_graph Examples.design_2_2_value
           (PyList [1 # 4; 1 # 4; 1 # 4; 1 # 4]%Q) None
           (Some (PyList [-1; 0; 1; 0]%Q)) 0%Z).
  - vm_compute; reflexivity.
  - vm_compute; reflexivity.
  - intros t l. apply Permutation_refl.
  - intros t l. apply Permutation_sym, Permutation_rev.
Defined.

(** ** Coefficients that are all zero *)

Lemma list_coefs_never_random
    (mt19937 : Z -> nat -> nat)
    (erdos_renyi : Z -> Q -> result (nat -> nat -> Q))
    (walts_graph : list nat -> result (nat -> nat -> Q))
    (d : ClassroomDesign) (l : list Q) (ds : option (list nat))
    (ss : option pyseq) (seed : Z) (m : ClassroomModel) :
  ClassroomModel_init mt19937 erdos_renyi walts_graph d (PyList l) ds ss seed
  = Ok m ->
  random_seat_choice m = false.
Proof.
  intros H. destruct (init_fields _ _ _ _ _ _ _ _ _ H) as (_ & _ & _ & _ & E & _).
  exact E.
Qed.

(** C4 - [ClassroomModel(design, coefs=[0, 0, 0, 0], ...)] on the layout
    [blocks=[1,1]]: the coefficients are normalised to zeros but
    [random_seat_choice] is [False], and the first tick goes through
    [get_total_utility], whose accessibility term divides by
    [max_pass = 0].  With [coefs=np.array([0, 0, 0, 0])] the same tick picks
    a seat at random and returns. *)
Theorem zero_coefficient_list_is_not_random_mode :
  Examples.model_zero_list = Ok Examples.model_zero_list_value
  /\ coefs Examples.model_zero_list_value = [0; 0; 0; 0]%Q
  /\ random_seat_choice Examples.model_zero_list_value = false
  /\ ClassroomModel_step (Examples.in_order 0) Examples.model_zero_list_value
     = Raise ZeroDivisionError
  /\ Examples.model_zero_array = Ok Examples.model_zero_array_value
  /\ random_seat_choice Examples.model_zero_array_value = true
  /\ is_ok (ClassroomModel_step (Examples.in_order 0)
              Examples.model_zero_array_value) = true.
Proof.
  repeat split; vm_compute; reflexivity.
Qed.

(** ** Division by zero *)

Lemma get_accessibility_max_pass_0 (s : Seat) (m : ClassroomModel) :
  max_pass (classroom m) = 0%Z ->
  get_accessibility s m = Raise ZeroDivisionError.
Proof.
  intros H. unfold get_accessibility. rewrite H.
  destruct (count_float _); reflexivity.
Qed.

(** C5 - Neither normalisation has a guard.  On the layout [blocks=[1,1]]
    ([max_pass = 0]) [get_accessibility] raises [ZeroDivisionError]; with
    the sociability sequence [[0.3, 0.3, 0.3, 0.3]] (minimum equal to
    maximum) [get_social_utility] raises [ZeroDivisionError]; in both
    configurations the first tick raises. *)
Theorem zero_denominators_raise :
  Examples.model_1_1 = Ok Examples.model_1_1_value
  /\ max_pass (classroom Examples.model_1_1_value) = 0%Z
  /\ get_accessibility (mk_seat (0, 1) None) Examples.model_1_1_value
     = Raise ZeroDivisionError
  /\ ClassroomModel_step (Examples.in_order 0) Examples.model_1_1_value
     = Raise ZeroDivisionError
  /\ Examples.model_flat_sociability = Ok Examples.model_flat_sociability_value
  /\ sociability_range Examples.model_flat_sociability_value = (3 # 10, 3 # 10)%Q
  /\ get_social_utility (mk_seat (0, 1) None) (new_student 0 (3 # 10) (0, 0))
                        Examples.model_flat_sociability_value
     = Raise ZeroDivisionError
  /\ ClassroomModel_step (Examples.in_order 0)
                         Examples.model_flat_sociability_value
     = Raise ZeroDivisionError.
Proof.
  repeat split; vm_compute; reflexivity.
Qed.

(** ** The range of the utilities *)

(** C2 - [ClassroomModel(design, coefs=[0, 0, 1, 0],
    sociability_sequence=[0.5, 1, 0.5, 1])] on the layout [blocks=[2,2]]:
    the coefficients lie in [0,1] and sum to 1; for the first student, in the
    empty classroom, the rescaled sociability of a seat is
    [(0 - 0.5) / (1 - 0.5) = -1] and so is its total utility. *)
Theorem total_utility_below_zero :
  (m <- Examples.model_positive_sociability ;; admission m)
  = Ok Examples.positive_sociability_arrival
  /\ coefs Examples.positive_sociability_arrival = [0; 0; 1; 0]%Q
  /\ sociability_range Examples.positive_sociability_arrival = (1 # 2, 1)%Q
  /\ get_agent 0 Examples.positive_sociability_arrival
     = Some (new_student 0 (1 # 2) (0, 0))
  /\ get_social_utility (mk_seat (0, 1) None) (new_student 0 (1 # 2) (0, 0))
                        Examples.positive_sociability_arrival
     = Ok (0%Q, Fin (-2 # 2))
  /\ get_total_utility (mk_seat (0, 1) None) (new_student 0 (1 # 2) (0, 0))
                       Examples.positive_sociability_arrival
     = Ok (Fin (-2 # 2))
  /\ (-2 # 2 < 0)%Q.
Proof.
  repeat split; vm_compute; reflexivity.
Qed.

(** ** Accessibility *)

(** C3 - On the layout [blocks=[3,3]], one row, entered at [(1, 0)]: when
    the first student has come in and stands at the entrance, nobody
    is seated, yet the accessibility of the seat at [(0, 0)] is [1 - 1/2]:
    the standing student, on a cell between the seat and the aisle, is
    counted.  Counting seated students only gives 1. *)
Theorem accessibility_counts_standing_student :
  (m <- Examples.model_3_3 ;; admission m) = Ok Examples.model_3_3_arrival
  /\ map pos (agents Examples.model_3_3_arrival) = [(1, 0)]
  /\ filter seated (agents Examples.model_3_3_arrival) = []
  /\ aisles_x (classroom Examples.model_3_3_arrival) = [3]
  /\ max_pass (classroom Examples.model_3_3_arrival) = 2%Z
  /\ get_accessibility (mk_seat (0, 0) None) Examples.model_3_3_arrival
     = Ok (Fin (1 # 2))
  /\ accessibility_of_seated (mk_seat (0, 0) None) Examples.model_3_3_arrival
     = Ok (Fin (2 # 2)).
Proof.
  repeat split; vm_compute; reflexivity.
Qed.

(** Without any vertical aisle both counts are the sentinel and the
    accessibility is minus infinity. *)
Lemma accessibility_without_aisle :
  Examples.model_single_block = Ok Examples.model_single_block_value
  /\ aisles_x (classroom Examples.model_single_block_value) = []
  /\ get_accessibility (mk_seat (1, 1) None) Examples.model_single_block_value
     = Ok NInf.
Proof.
  repeat split; vm_compute; reflexivity.
Qed.

(** ** Construction of the layout *)

Lemma max_pass_per_block_cons (i len b : nat) (blocks : list nat) :
  exists z zs, max_pass_per_block i len (b :: blocks) = z :: zs.
Proof. simpl; eauto. Qed.

(** C6 (as the code has it) - For a non-empty list of blocks, a supplied
    position-utility matrix whose shape is neither that of the seat-only
    grid nor that of the full grid is accepted: construction succeeds and
    every position utility is 0. *)
Theorem mismatched_shape_defaults_to_zero
    (b : nat) (blocks : list nat) (rows : nat) (p : ndarray)
    (entrances : option (list (nat * nat))) (aisles_y : option (list nat)) :
  shape_is p (Z.of_nat (grid_width (b :: blocks))
              - Z.of_nat (List.length (vertical_aisles 0 (b :: blocks))))
             (Z.of_nat rows
              - Z.of_nat (List.length (horizontal_aisles aisles_y))) = false ->
  shape_is p (Z.of_nat (grid_width (b :: blocks))) (Z.of_nat rows) = false ->
  exists d,
    ClassroomDesign_init (b :: blocks) rows (Some p) entrances aisles_y = Ok d
    /\ pos_utilities d = np_zeros (grid_width (b :: blocks)) rows
    /\ width d = grid_width (b :: blocks)
    /\ num_rows d = rows.
Proof.
  intros H1 H2. unfold ClassroomDesign_init.
  unfold grid_width, horizontal_aisles in H1, H2.
  rewrite H1, H2. cbn [bind].
  destruct (max_pass_per_block_cons 0 (List.length (b :: blocks)) b blocks)
    as (z & zs & ->).
  cbn [Zmax_list]. eexists. repeat split.
Qed.

Lemma mismatched_shape_defaults_to_zero_witness :
  exists d,
    ClassroomDesign_init [2; 2] 2 (Some (np_zeros 1 1)) None None = Ok d
    /\ pos_utilities d = np_zeros 5 2
    /\ width d = 5
    /\ num_rows d = 2.
Proof.
  apply (mismatched_shape_defaults_to_zero 2 [2] 2 (np_zeros 1 1) None None).
  - vm_compute; reflexivity.
  - vm_compute; reflexivity.
Defined.

(** A matrix of shape (1, 1) for a grid of shape (5, 2), seat-only shape
    (4, 1): construction returns a design. *)
Lemma mismatched_shape_is_accepted :
  shape_is (np_zeros 1 1) 4 1 = false
  /\ shape_is (np_zeros 1 1) 5 2 = false
  /\ is_ok (ClassroomDesign_init [2; 2] 2 (Some (np_zeros 1 1)) None None) = true.
Proof.
  repeat split; vm_compute; reflexivity.
Qed.

(** ** Construction of the model *)

Section DefaultSociability.

Variable mt19937 : Z -> nat -> nat.
Variable erdos_renyi : Z -> Q -> result (nat -> nat -> Q).
Variable walts_graph : list nat -> result (nat -> nat -> Q).

Lemma init_population (d : ClassroomDesign) (c : pyseq)
    (ds : option (list nat)) (ss : option pyseq) (seed : Z) :
  ClassroomModel_init mt19937 erdos_renyi walts_graph d c ds ss seed
  = (net <- tie_source erdos_renyi walts_graph d ds ;;
     ClassroomModel_init mt19937 erdos_renyi walts_graph d c ds ss seed).
Proof.
  unfold ClassroomModel_init, tie_source.
  destruct ds as [l|].
  - destruct (walts_graph l); reflexivity.
  - destruct (erdos_renyi _ _); reflexivity.
Qed.

Lemma init_max_num_agents (d : ClassroomDesign) (c : pyseq)
    (ds : option (list nat)) (ss : option pyseq) (seed : Z)
    (m : ClassroomModel) :
  ClassroomModel_init mt19937 erdos_renyi walts_graph d c ds ss seed = Ok m -> max_num_agents m = population d ds.
Proof.
  unfold ClassroomModel_init, population.
  destruct ds as [l|].
  - destruct (walts_graph l); cbn [bind fst snd]; [|discriminate].
    destruct (match ss with None => _ | Some _ => _ end); cbn [bind];
      [|discriminate].
    intros H; inversion H; reflexivity.
  - destruct (erdos_renyi _ _); cbn [bind fst snd]; [|discriminate].
    destruct (match ss with None => _ | Some _ => _ end); cbn [bind];
      [|discriminate].
    intros H; inversion H; reflexivity.
Qed.

Lemma init_default (d : ClassroomDesign) (c : pyseq)
    (ds : option (list nat)) (seed : Z) (net : nat -> nat -> Q) :
  tie_source erdos_renyi walts_graph d ds = Ok net ->
  ClassroomModel_init mt19937 erdos_renyi walts_graph d c ds None seed
  = if (0 <? population d ds)%Z
    then Raise (NameError "SOCIABILITY_MIN")
    else Raise (ValueError "min() arg is an empty sequence").
Proof.
  unfold ClassroomModel_init, tie_source, population.
  destruct ds as [l|]; intros ->; cbn [bind fst snd];
    match goal with |- context [(0 <? ?x)%Z] => destruct (0 <? x)%Z end;
    reflexivity.
Qed.

Lemma init_supplied (d : ClassroomDesign) (c : pyseq)
    (ds : option (list nat)) (ss : option pyseq) (seed : Z)
    (m : ClassroomModel) :
  ClassroomModel_init mt19937 erdos_renyi walts_graph d c ds ss seed = Ok m ->
  exists s, ss = Some s
            /\ Z.of_nat (List.length (pyseq_items s)) = population d ds.
Proof.
  intros H. destruct ss as [s|].
  - exists s. split; [reflexivity|].
    revert H. unfold ClassroomModel_init, population.
    destruct ds as [l|].
    + destruct (walts_graph l); cbn [bind fst snd]; [|discriminate].
      destruct (Z.eqb_spec (Z.of_nat (List.length (pyseq_items s)))
                           (Z.of_nat (List.length l))); [auto|discriminate].
    + destruct (erdos_renyi _ _); cbn [bind fst snd]; [|discriminate].
      destruct (Z.eqb_spec (Z.of_nat (List.length (pyseq_items s)))
                           (seat_count d)); [auto|discriminate].
  - exfalso. rewrite init_population in H.
    destruct (tie_source erdos_renyi walts_graph d ds) as [net|] eqn:E;
      cbn [bind] in H; [|discriminate].
    rewrite (init_default d c ds seed net E) in H.
    destruct (0 <? population d ds)%Z; discriminate.
Qed.

End DefaultSociability.

(** C10 (as the code has it) - Constructing the model without a sociability
    sequence never completes.  When the tie matrix has been obtained, the
    failure is the undefined name [SOCIABILITY_MIN] if the population size
    is positive, and the [ValueError] of [min()] on an empty sequence if it
    is not.  A construction that completes was given a sociability sequence
    whose length is the population size. *)
Theorem default_sociability_cannot_construct
    (mt19937 : Z -> nat -> nat)
    (erdos_renyi : Z -> Q -> result (nat -> nat -> Q))
    (walts_graph : list nat -> result (nat -> nat -> Q))
    (d : ClassroomDesign) (c : pyseq) (ds : option (list nat)) (seed : Z) :
  is_ok (ClassroomModel_init mt19937 erdos_renyi walts_graph d c ds None seed)
  = false
  /\ (forall net,
        tie_source erdos_renyi walts_graph d ds = Ok net ->
        (0 < population d ds)%Z ->
        ClassroomModel_init mt19937 erdos_renyi walts_graph d c ds None seed
        = Raise (NameError "SOCIABILITY_MIN"))
  /\ (forall net,
        tie_source erdos_renyi walts_graph d ds = Ok net ->
        (population d ds <= 0)%Z ->
        ClassroomModel_init mt19937 erdos_renyi walts_graph d c ds None seed
        = Raise (ValueError "min() arg is an empty sequence"))
  /\ (forall ss m,
        ClassroomModel_init mt19937 erdos_renyi walts_graph d c ds ss seed = Ok m ->
        exists s, ss = Some s
                  /\ Z.of_nat (List.length (pyseq_items s)) = population d ds
                  /\ max_num_agents m = population d ds).
Proof.
  repeat split.
  - destruct (ClassroomModel_init mt19937 erdos_renyi walts_graph d c ds None seed)
      as [m|] eqn:E; [|reflexivity].
    destruct (init_supplied _ _ _ _ _ _ _ _ _ E) as (s & Hs & _). discriminate.
  - intros net Hn Hp. rewrite (init_default _ _ _ d c ds seed net Hn).
    apply Z.ltb_lt in Hp. now rewrite Hp.
  - intros net Hn Hp. rewrite (init_default _ _ _ d c ds seed net Hn).
    destruct (Z.ltb_spec 0 (population d ds)); [lia|reflexivity].
  - intros ss m H.
    destruct (init_supplied _ _ _ _ _ _ _ _ _ H) as (s & Hs & Hl).
    exists s. repeat split; auto.
    eapply init_max_num_agents; eauto.
Qed.

Lemma default_sociability_cannot_construct_witness :
  Examples.new_model Examples.design_2_2_value
    (PyList [1 # 4; 1 # 4; 1 # 4; 1 # 4]%Q) None None 0%Z
  = Raise (NameError "SOCIABILITY_MIN").
Proof.
  destruct (default_sociability_cannot_construct
              Examples.mt19937 Examples.erdos_renyi Examples.walts_graph
              Examples.design_2_2_value
              (PyList [1 # 4; 1 # 4; 1 # 4; 1 # 4]%Q) None 0%Z)
    as (_ & H & _).
  apply (H Examples.zero_net).
  - reflexivity.
  - vm_compute; reflexivity.
Defined.

(** On a layout without any seat the population size is 0 and the default
    construction fails in [min()], not on the undefined name. *)
Lemma default_sociability_without_seat :
  Examples.design_no_seat = Ok Examples.design_no_seat_value
  /\ seat_count Examples.design_no_seat_value = 0%Z
  /\ Examples.new_model Examples.design_no_seat_value
       (PyList [1 # 4; 1 # 4; 1 # 4; 1 # 4]%Q) None None 0%Z
     = Raise (ValueError "min() arg is an empty sequence")
  /\ is_name_error (Examples.new_model Examples.design_no_seat_value
                      (PyList [1 # 4; 1 # 4; 1 # 4; 1 # 4]%Q) None None 0%Z)
     = false.
Proof.
  repeat split; vm_compute; reflexivity.
Qed.

(** ** The exported seating matrix *)

Lemma repeat_map_seq {A : Type} (a : A) (n k : nat) :
  repeat a n = map (fun _ => a) (seq k n).
Proof.
  revert k; induction n as [|n IH]; intros k; simpl; [reflexivity|].
  now rewrite <- IH.
Qed.

Lemma tabulate_ext (f g : nat -> nat -> Q) (w h : nat) :
  (forall x y, x < w -> y < h -> f x y = g x y) ->
  tabulate f w h = tabulate g w h.
Proof.
  intros H. unfold tabulate. apply map_ext_in. intros x Hx.
  apply in_seq in Hx. apply map_ext_in. intros y Hy. apply in_seq in Hy.
  apply H; lia.
Qed.

Lemma np_zeros_tabulate (w h : nat) :
  data (np_zeros w h) = tabulate (fun _ _ => 0%Q) w h.
Proof.
  unfold np_zeros, tabulate; simpl.
  rewrite (repeat_map_seq _ w 0). apply map_ext. intros _.
  apply repeat_map_seq.
Qed.

Lemma list_update_map_seq {A : Type} (g : nat -> A) (upd : A -> A) (n : nat) :
  forall i k,
    list_update i upd (map g (seq k n))
    = map (fun j => if j =? k + i then upd (g j) else g j) (seq k n).
Proof.
  induction n as [|n IH]; intros i k; [destruct i; reflexivity|].
  destruct i as [|i]; simpl.
  - rewrite Nat.add_0_r, Nat.eqb_refl. f_equal.
    apply map_ext_in. intros j Hj. apply in_seq in Hj.
    destruct (Nat.eqb_spec j k); [lia|reflexivity].
  - destruct (Nat.eqb_spec k (k + S i)); [lia|]. f_equal.
    rewrite IH. apply map_ext. intros j.
    replace (S k + i) with (k + S i) by lia. reflexivity.
Qed.

Lemma np_set_tabulate (a : ndarray) (f : nat -> nat -> Q) (x y : nat) (v : Q) :
  data a = tabulate f (shape0 a) (shape1 a) ->
  x < shape0 a -> y < shape1 a ->
  exists a', np_set a x y v = Ok a'
             /\ shape0 a' = shape0 a /\ shape1 a' = shape1 a
             /\ data a' = tabulate (fun i j => if (x =? i) && (y =? j) then v
                                               else f i j)
                                   (shape0 a) (shape1 a).
Proof.
  intros Hd Hx Hy. unfold np_set.
  apply Nat.ltb_lt in Hx, Hy. rewrite Hx, Hy. simpl.
  eexists. repeat split. simpl. rewrite Hd. unfold tabulate.
  rewrite list_update_map_seq. apply map_ext. intros i. simpl.
  rewrite (Nat.eqb_sym x i).
  destruct (i =? x); simpl; [|reflexivity].
  rewrite list_update_map_seq. apply map_ext. intros j. simpl.
  rewrite (Nat.eqb_sym y j). reflexivity.
Qed.

(** The loop of [get_binary_model_state] over the roster. *)
Lemma paint_students (l : list Student) :
  forall (a : ndarray) (f : nat -> nat -> Q),
    data a = tabulate f (shape0 a) (shape1 a) ->
    (forall s, In s l -> fst (pos s) < shape0 a /\ snd (pos s) < shape1 a) ->
    exists a',
      fold_left (fun r s => ms <- r ;; np_set ms (fst (pos s)) (snd (pos s)) 1%Q)
                l (Ok a) = Ok a'
      /\ shape0 a' = shape0 a /\ shape1 a' = shape1 a
      /\ data a' = tabulate
                     (fun x y => if existsb (fun s => pos_eqb (pos s) (x, y)) l
                                 then 1%Q else f x y)
                     (shape0 a) (shape1 a).
Proof.
  induction l as [|s l IH]; intros a f Hd Hb.
  - exists a. simpl. repeat split; auto.
  - destruct (Hb s (or_introl eq_refl)) as [Hx Hy].
    destruct (np_set_tabulate a f _ _ 1%Q Hd Hx Hy) as (a1 & E1 & S0 & S1 & D1).
    simpl. rewrite E1.
    destruct (IH a1 _ ltac:(rewrite S0, S1; exact D1)) as (a' & E' & T0 & T1 & D').
    { intros s' Hs'. rewrite S0, S1. apply Hb. now right. }
    exists a'. split; [exact E'|]. split; [congruence|]. split; [congruence|].
    rewrite D', S0, S1. apply tabulate_ext. intros x y _ _.
    unfold pos_eqb at 2. simpl.
    destruct (existsb _ l); [now rewrite orb_true_r|].
    rewrite orb_false_r. reflexivity.
Qed.

Lemma drop_indices_map {A B : Type} (g : A -> B) (idxs : list nat) (l : list A) :
  forall i, drop_indices idxs i (map g l) = map g (drop_indices idxs i l).
Proof.
  induction l as [|a l IH]; intros i; simpl; [reflexivity|].
  destruct (existsb (Nat.eqb i) idxs); simpl; now rewrite IH.
Qed.

Lemma drop_indices_seq (idxs : list nat) (n : nat) :
  forall i x, In x (drop_indices idxs i (seq i n)) ->
              i <= x < i + n /\ existsb (Nat.eqb x) idxs = false.
Proof.
  induction n as [|n IH]; intros i x H; simpl in H; [contradiction|].
  destruct (existsb (Nat.eqb i) idxs) eqn:E.
  - apply IH in H. destruct H as [H1 H2]. split; [lia|exact H2].
  - destruct H as [<-|H]; [split; [lia|exact E]|].
    apply IH in H. destruct H as [H1 H2]. split; [lia|exact H2].
Qed.

Lemma delete_aisles (g : nat -> nat -> Q) (xs ys : list nat) (w h : nat) :
  map (drop_indices ys 0) (drop_indices xs 0 (tabulate g w h))
  = map (fun x => map (g x) (drop_indices ys 0 (seq 0 h)))
        (drop_indices xs 0 (seq 0 w)).
Proof.
  unfold tabulate. rewrite drop_indices_map, map_map.
  apply map_ext. intros x. apply drop_indices_map.
Qed.

(** On a seat cell, somebody stands there exactly when the seat is taken. *)
Lemma stands_on_occupied (m : ClassroomModel) (x y : nat) :
  consistent m ->
  x < width (classroom m) -> y < num_rows (classroom m) ->
  existsb (Nat.eqb x) (aisles_x (classroom m)) = false ->
  existsb (Nat.eqb y) (aisles_y (classroom m)) = false ->
  stands_on m x y = occupied m x y.
Proof.
  intros C Hx Hy Ax Ay. apply eq_true_iff_eq.
  unfold stands_on, occupied. rewrite !existsb_exists. split.
  - intros (a & Ha & Hp). apply pos_eqb_eq in Hp.
    destruct (seated a) eqn:Hs.
    + exists (mk_seat (pos a) (Some (unique_id a))). split.
      * now apply (cons_student m C).
      * simpl. rewrite Hp, pos_eqb_refl. reflexivity.
    + pose proof (cons_full m C a Ha Hs) as Hfull.
      assert (Hseat : In (x, y) (map seat_pos (seats m))).
      { rewrite (cons_layout m C). apply in_map_iff.
        exists (mk_seat (x, y) None). split; [reflexivity|].
        apply initial_seats_spec. simpl. auto. }
      apply in_map_iff in Hseat. destruct Hseat as (s & Es & Hs').
      exists s. split; [exact Hs'|]. rewrite Es, pos_eqb_refl. simpl.
      destruct (student s) eqn:Est; unfold is_free; rewrite Est; [reflexivity|].
      exfalso. assert (X : In s (seat_options m)).
      { apply seat_options_in. auto. }
      rewrite Hfull in X. contradiction.
  - intros (s & Hs & Hp). apply andb_true_iff in Hp. destruct Hp as [Hp Hf].
    apply pos_eqb_eq in Hp. unfold is_free in Hf.
    destruct (student s) as [id|] eqn:Est; [|discriminate].
    destruct (cons_seat m C s id Hs Est) as (a & Ha & _ & _ & Hpa).
    exists a. split; [exact Ha|]. rewrite Hpa, Hp. apply pos_eqb_refl.
Qed.

Lemma forallb_ltb (l : list nat) (n : nat) :
  Forall (fun i => i < n) l -> forallb (fun i => i <? n) l = true.
Proof.
  intros H. apply forallb_forall. rewrite Forall_forall in H.
  intros i Hi. apply Nat.ltb_lt. auto.
Qed.

(** The exported matrix of a consistent model. *)
Lemma binary_state_of_consistent (m : ClassroomModel) :
  consistent m ->
  (forall a, get_binary_model_state m = Ok a ->
             data a = seating_table m
             /\ shape0 a = List.length (seat_columns (classroom m))
             /\ shape1 a = List.length (seat_rows (classroom m)))
  /\ (Forall (fun x => x < width (classroom m)) (aisles_x (classroom m)) ->
      Forall (fun y => y < num_rows (classroom m)) (aisles_y (classroom m)) ->
      exists a, get_binary_model_state m = Ok a).
Proof.
  intros C. unfold get_binary_model_state.
  set (w := width (classroom m)). set (h := num_rows (classroom m)).
  destruct (paint_students (agents m) (np_zeros w h) (fun _ _ => 0%Q))
    as (a1 & E1 & S0 & S1 & D1).
  { apply np_zeros_tabulate. }
  { intros s Hs. simpl. apply (cons_bounds m C s Hs). }
  simpl in S0, S1, D1. rewrite E1. cbn [bind]. split.
  - intros a. unfold np_delete_axis0.
    destruct (forallb _ (aisles_x (classroom m))); cbn [bind]; [|discriminate].
    unfold np_delete_axis1. cbn [shape1 shape0 data].
    destruct (forallb _ (aisles_y (classroom m))); [|discriminate].
    intros H; inversion H; subst a; clear H. cbn [shape1 shape0 data].
    rewrite S0, S1. split; [|split; reflexivity].
    rewrite D1, delete_aisles. unfold seating_table, seat_columns, seat_rows.
    fold w h. apply map_ext_in. intros x Hx. apply map_ext_in. intros y Hy.
    apply drop_indices_seq in Hx, Hy.
    change (existsb (fun s => pos_eqb (pos s) (x, y)) (agents m))
      with (stands_on m x y).
    rewrite (stands_on_occupied m x y C); try tauto; unfold w, h in *; lia.
  - intros Fx Fy. unfold np_delete_axis0. rewrite S0.
    rewrite (forallb_ltb _ _ Fx). cbn [bind].
    unfold np_delete_axis1. cbn [shape1 shape0 data]. rewrite S1.
    rewrite (forallb_ltb _ _ Fy). eauto.
Qed.

Lemma vertical_aisles_lt (blocks : list nat) :
  forall k x, In x (vertical_aisles k blocks) ->
              x < k + list_sum blocks + List.length blocks - 1.
Proof.
  induction blocks as [|b rest IH]; intros k x H; [contradiction|].
  destruct rest as [|b' rest']; [contradiction|].
  change (vertical_aisles k (b :: b' :: rest'))
    with ((k + b) :: vertical_aisles (k + b + 1) (b' :: rest')) in H.
  destruct H as [<-|H].
  - simpl. lia.
  - apply IH in H. simpl in *. lia.
Qed.

Lemma design_aisles_x (blocks : list nat) (num_rows : nat)
    (pu : option ndarray) (entrances : option (list (nat * nat)))
    (aisles_y : option (list nat)) (d : ClassroomDesign) :
  ClassroomDesign_init blocks num_rows pu entrances aisles_y = Ok d ->
  Forall (fun x => x < width d) (aisles_x d).
Proof.
  unfold ClassroomDesign_init.
  destruct blocks as [|b rest]; [destruct pu; discriminate|].
  destruct pu as [p|]; [|discriminate].
  destruct (if shape_is _ _ _ then _ else _) as [pu'|]; cbn [bind];
    [|discriminate].
  destruct (Zmax_list _); [|discriminate].
  intros H; inversion H; subst; clear H. cbn [width aisles_x].
  apply Forall_forall. intros x Hx.
  change (In x (vertical_aisles 0 (b :: rest))) in Hx.
  apply vertical_aisles_lt in Hx. simpl in *. lia.
Qed.

(** C9 - In every state that a constructed simulation reaches by ticks, the
    exported matrix has one entry per non-aisle cell (aisle columns and rows
    stripped, in grid order); the entry is 1 where the seat of the cell has
    an occupant and 0 where the seat is empty, so a student who stands on
    the grid without a seat adds no 1.  The export returns whenever the
    horizontal aisles given to the layout lie inside the grid. *)
Theorem binary_model_state_is_seat_occupancy
    (mt19937 : Z -> nat -> nat)
    (erdos_renyi : Z -> Q -> result (nat -> nat -> Q))
    (walts_graph : list nat -> result (nat -> nat -> Q))
    (blocks : list nat) (rows : nat) (pu : option ndarray)
    (entrances : option (list (nat * nat))) (aisles : option (list nat))
    (d : ClassroomDesign) (c : pyseq) (ds : option (list nat))
    (ss : option pyseq) (seed : Z) (m0 m : ClassroomModel)
    (sched : nat -> list nat -> list nat) (n : nat) :
  ClassroomDesign_init blocks rows pu entrances aisles = Ok d ->
  ClassroomModel_init mt19937 erdos_renyi walts_graph d c ds ss seed = Ok m0 ->
  shuffles sched ->
  run sched 0 n m0 = Ok m ->
  classroom m = d
  /\ (forall a, get_binary_model_state m = Ok a ->
                data a = seating_table m
                /\ shape0 a = List.length (seat_columns d)
                /\ shape1 a = List.length (seat_rows d))
  /\ (Forall (fun y => y < num_rows d) (aisles_y d) ->
      exists a, get_binary_model_state m = Ok a).
Proof.
  intros Hd Hm Hs Hr.
  pose proof (init_consistent _ _ _ _ _ _ _ _ _ Hm) as C0.
  pose proof (run_consistent sched n Hs 0 m0 m C0 Hr) as C.
  assert (Ec : classroom m = d).
  { rewrite (run_classroom sched n Hs 0 m0 m C0 Hr).
    apply (init_fields _ _ _ _ _ _ _ _ _ Hm). }
  destruct (binary_state_of_consistent m C) as [H1 H2].
  rewrite Ec in H1, H2. repeat split; auto.
  - apply H1; auto.
  - apply H1; auto.
  - apply H1; auto.
  - intros Hy. apply H2; auto. eapply design_aisles_x; eauto.
Qed.

(** The crowded classroom after five ticks: every seat is taken and the
    fifth student stands at the entrance. *)
Lemma binary_model_state_is_seat_occupancy_witness :
  exists a, get_binary_model_state Examples.crowded_after_5 = Ok a
            /\ data a = seating_table Examples.crowded_after_5
            /\ data a = [[1]; [1]; [1]; [1]]%Q.
Proof.
  destruct (binary_model_state_is_seat_occupancy
              Examples.mt19937 Examples.erdos_renyi Examples.walts_graph
              [2; 2] 2 (Some (np_zeros 5 2)) None None
              Examples.design_2_2_value
              (PyList [1 # 4; 1 # 4; 1 # 4; 1 # 4]%Q) (Some [1; 1; 1; 1; 1])
              (Some (PyList [-1; 0; 1; 0; 1]%Q)) 0%Z
              (Examples.the Examples.no_model Examples.model_crowded)
              Examples.crowded_after_5 Examples.in_order 5)
    as (_ & H1 & H2).
  - vm_compute; reflexivity.
  - vm_compute; reflexivity.
  - intros t l. apply Permutation_refl.
  - vm_compute; reflexivity.
  - exists (mk_ndarray 4 1 [[1]; [1]; [1]; [1]]%Q).
    assert (E : get_binary_model_state Examples.crowded_after_5
                = Ok (mk_ndarray 4 1 [[1]; [1]; [1]; [1]]%Q))
      by (vm_compute; reflexivity).
    split; [exact E|]. split; [|reflexivity].
    apply (H1 _ E).
Defined.

(** ** The order of floats *)










(** ** The utilities of the empty seats *)



(** ** Sitting down *)

Lemma neighbours_of_moved (id : nat) (p cell : nat * nat) (l : list Student) :
  (forall a, In a l -> unique_id a = id -> seated a = false) ->
  forall acc,
    fold_left (fun acc a => if seated a then Some (unique_id a) else acc)
              (filter (fun a => pos_eqb (pos a) cell)
                      (update_agent id (move_to p) l)) acc
    = fold_left (fun acc a => if seated a then Some (unique_id a) else acc)
                (filter (fun a => pos_eqb (pos a) cell) l) acc.
Proof.
  induction l as [|a l IH]; intros H acc; [reflexivity|].
  assert (IH' := IH (fun b Hb => H b (or_intror Hb))).
  simpl. destruct (Nat.eqb_spec (unique_id a) id) as [E|E].
  - pose proof (H a (or_introl eq_refl) E) as Hs.
    destruct (pos_eqb (pos (move_to p a)) cell), (pos_eqb (pos a) cell);
      simpl; rewrite ?Hs; apply IH'.
  - destruct (pos_eqb (pos a) cell); simpl; rewrite IH'; reflexivity.
Qed.

Lemma get_social_utility_moved (c : Seat) (self : Student) (m : ClassroomModel)
    (ss : list Seat) (p : nat * nat) :
  (forall a, In a (agents m) -> unique_id a = unique_id self ->
             seated a = false) ->
  get_social_utility c (move_to p self)
    (set_agents (update_agent (unique_id self) (move_to p) (agents m))
                (set_seats ss m))
  = get_social_utility c self m.
Proof.
  intros H. unfold get_social_utility.
  assert (E : get_neighborhood c 3 3
                (set_agents (update_agent (unique_id self) (move_to p) (agents m))
                            (set_seats ss m))
              = get_neighborhood c 3 3 m).
  { unfold get_neighborhood. cbn [Nat.eqb orb Nat.even]. f_equal.
    unfold neighborhood_matrix. apply map_ext. intros i. apply map_ext. intros j.
    cbn [classroom set_agents set_seats].
    destruct (out_of_bounds _ _ _); [reflexivity|].
    unfold last_seated_id, students_at. cbn [agents set_agents].
    now apply neighbours_of_moved. }
  rewrite E. reflexivity.
Qed.

Lemma update_agent_compose (id : nat) (f g : Student -> Student)
    (l : list Student) :
  (forall a, unique_id (f a) = unique_id a) ->
  update_agent id g (update_agent id f l)
  = update_agent id (fun a => g (f a)) l.
Proof.
  intros Hf. unfold update_agent. rewrite map_map. apply map_ext.
  intros a. destruct (Nat.eqb_spec (unique_id a) id) as [E|E].
  - rewrite Hf, E, Nat.eqb_refl. reflexivity.
  - destruct (Nat.eqb_spec (unique_id a) id); [contradiction|reflexivity].
Qed.

Lemma find_update_self (id : nat) (f : Student -> Student) (l : list Student) :
  (forall a, unique_id (f a) = unique_id a) ->
  (exists a, In a l /\ unique_id a = id) ->
  exists a0, In a0 l /\ unique_id a0 = id
             /\ find (fun a => unique_id a =? id) (update_agent id f l)
                = Some (f a0).
Proof.
  intros Hf. induction l as [|a l IH]; intros (b & Hb & Eb); [contradiction|].
  simpl. destruct (Nat.eqb_spec (unique_id a) id) as [E|E].
  - exists a. rewrite Hf, E, Nat.eqb_refl. repeat split; auto.
  - destruct (Nat.eqb_spec (unique_id a) id); [contradiction|].
    destruct Hb as [->|Hb]; [contradiction|].
    destruct (IH (ex_intro _ b (conj Hb Eb))) as (a0 & H1 & H2 & H3).
    exists a0. repeat split; auto.
Qed.



(** When the utilities are numbers: the layout has a positive [max_pass],
    the sociability values are not all equal, and every seat has a vertical
    aisle on some side. *)

Lemma at_argmin_some (key : nat -> nat) (l : list nat) :
  l <> [] -> exists i, at_argmin key l = Some i.
Proof.
  assert (G : forall l b, exists i,
             fold_left (fun best i =>
                          match best with
                          | None => Some i
                          | Some b => if key i <? key b then Some i else Some b
                          end) l (Some b) = Some i).
  { induction l0 as [|a l0 IH]; intros b; simpl; [eauto|].
    destruct (key a <? key b); apply IH. }
  destruct l as [|a l]; [congruence|]. intros _. unfold at_argmin. simpl.
  apply G.
Qed.

Lemma get_social_utility_finite (c : Seat) (st : Student) (m : ClassroomModel) :
  Qeq_bool (snd (sociability_range m) - fst (sociability_range m)) 0 = false ->
  exists uf q, get_social_utility c st m = Ok (uf, Fin q).
Proof.
  intros H. unfold get_social_utility.
  change (get_neighborhood c 3 3 m) with (Ok (neighborhood_matrix c 3 3 m)).
  cbn [bind].
  destruct (fold_left _ _ _) as [[uf us] np].
  destruct (np || sociability_np m); unfold np_div, py_div; rewrite H;
    cbn [bind]; eauto.
Qed.

Lemma get_accessibility_finite (s : Seat) (m : ClassroomModel) :
  max_pass (classroom m) <> 0%Z ->
  (exists i, In i (aisles_x (classroom m)) /\ i <> fst (seat_pos s)) ->
  exists q, get_accessibility s m = Ok (Fin q).
Proof.
  intros Hmp (i & Hi & Hne). unfold get_accessibility.
  assert (Hc : exists n, count_min (count_right s m) (count_left s m) = Cnt n).
  { destruct (Nat.lt_total i (fst (seat_pos s))) as [Hlt|[E|Hgt]];
      [|contradiction|].
    - assert (L : exists n, count_left s m = Cnt n).
      { unfold count_left.
        destruct (at_argmin_some (fun j => fst (seat_pos s) - j)
                    (filter (fun j => j <? fst (seat_pos s))
                            (aisles_x (classroom m)))) as (j & ->); eauto.
        intros E. assert (X : In i []); [|contradiction].
        rewrite <- E. apply filter_In. split; auto. now apply Nat.ltb_lt. }
      destruct L as (n & ->). destruct (count_right s m); simpl; eauto.
    - assert (R : exists n, count_right s m = Cnt n).
      { unfold count_right.
        destruct (at_argmin_some (fun j => j - fst (seat_pos s))
                    (filter (fun j => fst (seat_pos s) <? j)
                            (aisles_x (classroom m)))) as (j & ->); eauto.
        intros E. assert (X : In i []); [|contradiction].
        rewrite <- E. apply filter_In. split; auto. now apply Nat.ltb_lt. }
      destruct R as (n & ->). destruct (count_left s m); simpl; eauto. }
  destruct Hc as (n & ->). unfold count_float, py_div.
  assert (Z0 : Qeq_bool (inject_Z (max_pass (classroom m))) 0 = false).
  { destruct (max_pass (classroom m)); [congruence|reflexivity|reflexivity]. }
  rewrite Z0. cbn [bind]. unfold fsub, fneg, fadd. eauto.
Qed.

Lemma seat_utilities_are_numbers (self : Student) (m : ClassroomModel) :
  List.length (coefs m) = 4 ->
  max_pass (classroom m) <> 0%Z ->
  Qeq_bool (snd (sociability_range m) - fst (sociability_range m)) 0 = false ->
  (forall s, In s (seat_options m) ->
             exists i, In i (aisles_x (classroom m)) /\ i <> fst (seat_pos s)) ->
  exists us, seat_utilities self m = Ok us
             /\ Forall (fun u => is_nan u = false) us.
Proof.
  intros Hc Hmp Hr Ha. unfold seat_utilities.
  induction (seat_options m) as [|s l IH].
  - exists []. split; [reflexivity|constructor].
  - destruct IH as (us & E & F); [intros; apply Ha; now right|].
    destruct (get_social_utility_finite s self m Hr) as (uf & q & Es).
    destruct (get_accessibility_finite s m Hmp (Ha s (or_introl eq_refl)))
      as (qa & Ea).
    assert (Eu : exists q', get_total_utility s self m = Ok (Fin q')).
    { unfold get_total_utility, unpack_coefs. rewrite Es. cbn [bind].
      destruct (coefs m) as [|c1 [|c2 [|c3 [|c4 [|c5 t]]]]]; try discriminate.
      cbn [bind]. rewrite Ea. cbn [bind fst snd fmul fadd]. eauto. }
    destruct Eu as (q' & Eu).
    exists (Fin q' :: us). split.
    + cbn [mapM]. rewrite Eu. cbn [bind]. rewrite E. reflexivity.
    + constructor; [reflexivity|exact F].
Qed.



(** ** What the constructor settles *)

Lemma init_sequence
    (mt19937 : Z -> nat -> nat)
    (erdos_renyi : Z -> Q -> result (nat -> nat -> Q))
    (walts_graph : list nat -> result (nat -> nat -> Q))
    (d : ClassroomDesign) (c : pyseq) (ds : option (list nat))
    (ss : option pyseq) (seed : Z) (m : ClassroomModel) (s : pyseq) :
  ClassroomModel_init mt19937 erdos_renyi walts_graph d c ds ss seed = Ok m ->
  ss = Some s ->
  sociability_sequence m = pyseq_items s.
Proof.
  intros H ->. revert H. unfold ClassroomModel_init.
  destruct (match ds with None => _ | Some _ => _ end) as [mn|];
    cbn [bind]; [|discriminate].
  destruct (Z.of_nat (List.length (pyseq_items s)) =? fst mn)%Z;
    [|discriminate].
  destruct (min_max (pyseq_items s)) as [r|]; cbn [bind]; [|discriminate].
  intros H; inversion H; subst; reflexivity.
Qed.

(** ** What a tick changes *)

Lemma admission_spec (m m1 : ClassroomModel) :
  admission m = Ok m1 ->
  (m1 = m /\ (max_num_agents m <= Z.of_nat (List.length (agents m)))%Z)
  \/ exists c2 s q r p,
       (Z.of_nat (List.length (agents m)) < max_num_agents m)%Z
       /\ nth_error (coefs m) 2 = Some c2
       /\ ((Qeq_bool c2 0 = true /\ s = 0%Q /\ q = sociability_sequence m)
           \/ (Qeq_bool c2 0 = false /\ sociability_sequence m = s :: q))
       /\ In (of_cell p) (entrances (classroom m))
       /\ m1 = set_agents
                 (agents m ++ [new_student (List.length (agents m)) s p])
                 (set_sociability_sequence q (set_rand r m)).
Proof.
  assert (P : forall (i : nat) (l : list (Z * Z)) (d : ClassroomDesign),
             i < List.length l ->
             out_of_bounds d (fst (nth i l (0, 0)%Z)) (snd (nth i l (0, 0)%Z))
             = false ->
             In (of_cell (Z.to_nat (fst (nth i l (0, 0)%Z)),
                          Z.to_nat (snd (nth i l (0, 0)%Z)))) l).
  { intros i l d Hi Hb. unfold out_of_bounds in Hb.
    rewrite !orb_false_iff in Hb. destruct Hb as [[[Hx0 _] Hy0] _].
    apply Z.ltb_ge in Hx0, Hy0. unfold of_cell. cbn [fst snd].
    rewrite !Z2Nat.id by assumption. rewrite <- surjective_pairing.
    now apply nth_In. }
  unfold admission.
  destruct (Z.ltb_spec (Z.of_nat (List.length (agents m))) (max_num_agents m))
    as [Hlt|Hge].
  2:{ intros H; inversion H; subst; left; split; [reflexivity|assumption]. }
  destruct (nth_error (coefs m) 2) as [c2|] eqn:Ec; cbn [bind]; [|discriminate].
  destruct (Qeq_bool c2 0) eqn:Eq; cbn [bind fst snd].
  - destruct (randint _ _) as [[i r]|] eqn:Er; cbn [bind fst snd]; [|discriminate].
    destruct (out_of_bounds _ _ _) eqn:Hb; [discriminate|].
    intros H; inversion H; subst; clear H. right.
    exists c2, 0%Q, (sociability_sequence m), r,
      (Z.to_nat (fst (nth i (entrances (classroom m)) (0, 0)%Z)),
       Z.to_nat (snd (nth i (entrances (classroom m)) (0, 0)%Z))).
    repeat split; auto. eapply P; [|exact Hb]. eapply randint_lt; eauto.
  - destruct (sociability_sequence m) as [|s q] eqn:Es; cbn [bind fst snd];
      [discriminate|].
    destruct (randint _ _) as [[i r]|] eqn:Er; cbn [bind fst snd]; [|discriminate].
    destruct (out_of_bounds _ _ _) eqn:Hb; [discriminate|].
    intros H; inversion H; subst; clear H. right.
    exists c2, s, q, r,
      (Z.to_nat (fst (nth i (entrances (classroom m)) (0, 0)%Z)),
       Z.to_nat (snd (nth i (entrances (classroom m)) (0, 0)%Z))).
    repeat split; auto. eapply P; [|exact Hb]. eapply randint_lt; eauto.
Qed.

Lemma occupy_setting (self : Student) (c : Seat) (m m' : ClassroomModel) :
  occupy self c None m = Ok m' ->
  same_setting m m' /\ sociability_sequence m' = sociability_sequence m
  /\ rand m' = rand m.
Proof.
  unfold occupy.
  destruct (get_happiness _ _ _) as [h|]; cbn [bind]; [|discriminate].
  intros H; inversion H; subst; clear H. repeat split.
Qed.

(** The three kinds of tick of a consistent model: the classroom is full
    and every standing student reports it; nobody arrives and nothing
    happens; or the student who arrives takes an empty seat. *)
Lemma tick_shape (sh : list nat -> list nat) (m m' : ClassroomModel) :
  consistent m -> (forall l, Permutation (sh l) l) ->
  ClassroomModel_step sh m = Ok m' ->
  exists m1,
    admission m = Ok m1
    /\ ((seat_options m = [] /\ m' = prints (unseated_count m1) m1)
        \/ (seat_options m <> [] /\ m1 = m /\ m' = m)
        \/ (seat_options m <> []
            /\ exists new c h,
                 agents m1 = agents m ++ [new]
                 /\ In c (seat_options m)
                 /\ seats m' = set_student (seat_pos c) (Some (unique_id new))
                                           (seats m)
                 /\ agents m' = agents m
                                ++ [sit_down h (move_to (seat_pos c) new)]
                 /\ same_setting m1 m'
                 /\ sociability_sequence m' = sociability_sequence m1
                 /\ stdout m' = stdout m)).
Proof.
  intros C Hsh Hstep. pose proof (cons_roster _ C) as R.
  destruct (admission m) as [m1|e] eqn:Ha.
  2:{ unfold ClassroomModel_step in Hstep. rewrite Ha in Hstep. discriminate. }
  exists m1. split; [reflexivity|].
  destruct (seat_options m) as [|s0 rest] eqn:E.
  - left. split; [reflexivity|].
    rewrite (tick_full sh m m1 R E Ha Hsh) in Hstep. congruence.
  - right.
    assert (Hne : seat_options m <> []) by (rewrite E; discriminate).
    rewrite <- E in *. clear E s0 rest.
    pose proof (all_seated m C Hne) as Hall.
    destruct (admission_cases _ _ Ha)
      as [[-> _]|(s & q & r & p & _ & Hx & Hy & ->)].
    + left. split; [exact Hne|]. split; [reflexivity|].
      unfold ClassroomModel_step in Hstep. rewrite Ha in Hstep.
      cbn [bind] in Hstep. rewrite schedule_step_idle in Hstep; [congruence|].
      intros id Hin. apply (Permutation_in _ (Hsh _)) in Hin.
      apply in_map_iff in Hin. destruct Hin as (a & <- & Hin).
      apply (Student_step_seated _ _ a); auto using roster_get_agent.
      eapply roster_no_reseating; eauto.
    + right. split; [exact Hne|].
      set (new := new_student (List.length (agents m)) s p) in *.
      set (m1 := set_agents (agents m ++ [new])
                   (set_sociability_sequence q (set_rand r m))) in *.
      unfold ClassroomModel_step in Hstep. rewrite Ha in Hstep.
      cbn [bind] in Hstep.
      rewrite (tick_arrival _ m m1 new) in Hstep; auto.
      assert (Hn1 : seat_options m1 <> []) by exact Hne.
      destruct (choose_seat_some _ _ _ Hn1 Hstep) as (c & r' & Hc & Hocc).
      destruct (occupy_fields _ _ _ _ Hocc) as (h & Hs & Hag & _ & Hout).
      destruct (occupy_setting _ _ _ _ Hocc) as (Hset & Hq & _).
      exists new, c, h. split; [reflexivity|]. split; [exact Hc|].
      split; [exact Hs|]. split; [|split; [exact Hset|split; [exact Hq|exact Hout]]].
      rewrite Hag. cbn [agents set_rand m1 set_agents].
      assert (Hfresh : forall b, In b (agents m) -> unique_id b <> unique_id new).
      { intros b Hb. pose proof (roster_id_lt m b R Hb). simpl. lia. }
      rewrite (update_agent_last _ _ _ new Hfresh eq_refl).
      rewrite (update_agent_last _ _ _ (move_to (seat_pos c) new) Hfresh eq_refl).
      reflexivity.
Qed.

Lemma admission_setting (m m1 : ClassroomModel) :
  admission m = Ok m1 -> same_setting m m1.
Proof.
  intros H.
  destruct (admission_cases _ _ H) as [[-> _]|(s & q & r & p & _ & _ & _ & ->)];
    repeat split.
Qed.

Lemma same_setting_trans (a b c : ClassroomModel) :
  same_setting a b -> same_setting b c -> same_setting a c.
Proof.
  unfold same_setting. intros (A1 & A2 & A3 & A4 & A5 & A6 & A7)
                              (B1 & B2 & B3 & B4 & B5 & B6 & B7).
  repeat split; congruence.
Qed.

Lemma taken_seat_kept (c s : Seat) (o : option nat) (l : list Seat) :
  (forall s1 s2, In s1 l -> In s2 l -> seat_pos s1 = seat_pos s2 -> s1 = s2) ->
  In c l -> is_free c = true -> In s l -> taken s = true ->
  In s (set_student (seat_pos c) o l).
Proof.
  intros F Hc Hfree Hs Ht. apply set_student_in. exists s. split; [exact Hs|].
  destruct (pos_eqb (seat_pos s) (seat_pos c)) eqn:E; [|reflexivity].
  apply pos_eqb_eq in E. rewrite (F s c Hs Hc E) in Ht.
  unfold taken in Ht. rewrite Hfree in Ht. discriminate.
Qed.

(** What one tick of a consistent model does to the roster and the seats. *)
Lemma tick_roster (sh : list nat -> list nat) (m m' : ClassroomModel) :
  consistent m -> (forall l, Permutation (sh l) l) ->
  ClassroomModel_step sh m = Ok m' ->
  exists m1,
    admission m = Ok m1
    /\ same_setting m1 m'
    /\ sociability_sequence m' = sociability_sequence m1
    /\ map unique_id (agents m') = map unique_id (agents m1)
    /\ map sociability (agents m') = map sociability (agents m1)
    /\ (exists l, agents m' = agents m ++ l /\ List.length l <= 1
                  /\ forall a, In a l -> seated a = false ->
                               In (of_cell (pos a)) (entrances (classroom m)))
    /\ (forall s, In s (seats m) -> taken s = true -> In s (seats m'))
    /\ map seat_pos (seats m') = map seat_pos (seats m).
Proof.
  intros C Hsh Hstep.
  destruct (tick_shape sh m m' C Hsh Hstep) as (m1 & Ha & Hcase).
  exists m1. split; [exact Ha|].
  destruct Hcase as [[Hfull ->]|[(Hne & -> & ->)|(Hne & new & c & h & H1 & Hc & Hs & Hag & Hset & Hq & _)]].
  - split; [repeat split|]. split; [reflexivity|]. split; [reflexivity|].
    split; [reflexivity|].
    destruct (admission_keeps _ _ Ha) as (Hse & _ & _ & _).
    cbn [agents seats prints]. rewrite Hse.
    split; [|split; [auto|reflexivity]].
    destruct (admission_spec _ _ Ha)
      as [[-> _]|(c2 & s & q & r & p & _ & _ & _ & Hp & ->)].
    + exists []. rewrite app_nil_r. repeat split; auto. intros a [].
    + eexists. split; [reflexivity|]. split; [simpl; lia|].
      intros a [<-|[]] _. exact Hp.
  - split; [repeat split|]. split; [reflexivity|]. split; [reflexivity|].
    split; [reflexivity|]. split; [|split; [auto|reflexivity]].
    exists []. rewrite app_nil_r. repeat split; auto. intros a [].
  - split; [exact Hset|]. split; [exact Hq|].
    rewrite Hag, H1, !map_app. cbn [map unique_id sociability sit_down move_to].
    split; [reflexivity|]. split; [reflexivity|]. split.
    + eexists. split; [reflexivity|]. split; [simpl; lia|].
      intros a [<-|[]]. discriminate.
    + rewrite Hs. split; [|apply set_student_pos].
      apply seat_options_in in Hc. destruct Hc as [Hcin Hcfree].
      intros s Hin Ht. apply taken_seat_kept; auto.
      * apply (cons_cell m C).
      * unfold is_free. now rewrite Hcfree.
Qed.

Lemma run_snoc (sched : nat -> list nat -> list nat) (n : nat) :
  forall t m m',
    run sched t (S n) m = Ok m' <->
    exists m1, run sched t n m = Ok m1
               /\ ClassroomModel_step (sched (t + n)) m1 = Ok m'.
Proof.
  induction n as [|n IH]; intros t m m'.
  - cbn [run]. rewrite Nat.add_0_r. split.
    + destruct (ClassroomModel_step (sched t) m) as [m1|] eqn:E; cbn [bind];
        [|discriminate].
      intros H; inversion H; subst. exists m. auto.
    + intros (m1 & H1 & H2). inversion H1; subst. rewrite H2. reflexivity.
  - change (run sched t (S (S n)) m)
      with (m1 <- ClassroomModel_step (sched t) m ;; run sched (S t) (S n) m1).
    change (run sched t (S n) m)
      with (m1 <- ClassroomModel_step (sched t) m ;; run sched (S t) n m1).
    destruct (ClassroomModel_step (sched t) m) as [m1|] eqn:E; cbn [bind].
    + rewrite IH. replace (S t + n) with (t + S n) by lia. reflexivity.
    + split; [discriminate|]. intros (m1 & H1 & _). discriminate.
Qed.

Lemma run_invariant (P : ClassroomModel -> Prop)
    (sched : nat -> list nat -> list nat) :
  (forall sh m m', consistent m -> (forall l, Permutation (sh l) l) ->
                   P m -> ClassroomModel_step sh m = Ok m' -> P m') ->
  shuffles sched ->
  forall n t m m', consistent m -> P m -> run sched t n m = Ok m' -> P m'.
Proof.
  intros Hstep Hs. induction n as [|n IH]; intros t m m' C HP H; simpl in H.
  - inversion H; subst; exact HP.
  - destruct (ClassroomModel_step (sched t) m) as [m1|] eqn:E;
      cbn [bind] in H; [|discriminate].
    apply (IH (S t) m1 m'); auto.
    + eapply step_consistent; [exact C|apply Hs|exact E].
    + eapply Hstep; [exact C|apply Hs|exact HP|exact E].
Qed.

Lemma run_roster_grows (sched : nat -> list nat -> list nat) (n t : nat)
    (m m' : ClassroomModel) :
  shuffles sched -> consistent m -> run sched t n m = Ok m' ->
  (exists l, agents m' = agents m ++ l)
  /\ (forall s, In s (seats m) -> taken s = true -> In s (seats m'))
  /\ map seat_pos (seats m') = map seat_pos (seats m).
Proof.
  intros Hs C H.
  apply (run_invariant
           (fun x => (exists l, agents x = agents m ++ l)
                     /\ (forall s, In s (seats m) -> taken s = true ->
                                   In s (seats x))
                     /\ map seat_pos (seats x) = map seat_pos (seats m))
           sched) with (n := n) (t := t) (m := m); auto.
  - intros sh x x' Cx Hsh ((l & Hl) & Hseat & Hpos) Hstep.
    destruct (tick_roster sh x x' Cx Hsh Hstep)
      as (x1 & _ & _ & _ & _ & _ & (l' & Hl' & _) & Hk & Hp).
    split; [|split].
    + exists (l ++ l'). rewrite Hl', Hl, app_assoc. reflexivity.
    + intros s Hin Ht. apply Hk; auto.
    + congruence.
  - split; [exists []; now rewrite app_nil_r|]. split; auto.
Qed.

Lemma run_roster_length (sched : nat -> list nat -> list nat) :
  shuffles sched ->
  forall n t m m', consistent m -> run sched t n m = Ok m' ->
    max_num_agents m' = max_num_agents m
    /\ Z.of_nat (List.length (agents m'))
       = Z.max (Z.of_nat (List.length (agents m)))
               (Z.min (Z.of_nat (List.length (agents m)) + Z.of_nat n)
                      (max_num_agents m)).
Proof.
  intros Hs. induction n as [|n IH]; intros t m m' C H; simpl in H.
  - inversion H; subst. split; [reflexivity|lia].
  - destruct (ClassroomModel_step (sched t) m) as [x|] eqn:E;
      cbn [bind] in H; [|discriminate].
    destruct (tick_roster _ _ _ C (Hs t) E)
      as (m1 & Ha & Hset & _ & Hid & _).
    assert (Hlen : List.length (agents x) = List.length (agents m1)).
    { rewrite <- (length_map unique_id (agents x)), Hid. apply length_map. }
    destruct Hset as (_ & _ & _ & Hmax & _).
    pose proof (admission_setting _ _ Ha) as (_ & _ & _ & Hmax1 & _).
    destruct (IH (S t) x m' (step_consistent _ _ _ C (Hs t) E) H) as (I1 & I2).
    split; [congruence|]. rewrite I2, Hmax, Hmax1, Hlen.
    destruct (admission_cases _ _ Ha)
      as [[-> Hcap]|(s & q & r & p & Hlt & _ & _ & ->)].
    + lia.
    + cbn [agents set_agents]. rewrite length_app. simpl. lia.
Qed.

Lemma skipn_cons_nth {A : Type} (l : list A) :
  forall n s q (d : A), skipn n l = s :: q ->
    firstn (S n) l = firstn n l ++ [s] /\ skipn (S n) l = q.
Proof.
  induction l as [|a l IH]; intros n s q d H.
  - destruct n; discriminate.
  - destruct n as [|n].
    + simpl in H. inversion H; subst. split; reflexivity.
    + simpl in H. destruct (IH n s q d H) as [I1 I2].
      split; [|exact I2].
      change (firstn (S (S n)) (a :: l)) with (a :: firstn (S n) l).
      rewrite I1. reflexivity.
Qed.

(** How the sociability values of a supplied sequence [l] have been handed
    out, given the sociability coefficient [c2]. *)
Lemma step_sociability (l : list Q) (c2 : Q) (sh : list nat -> list nat)
    (m m' : ClassroomModel) :
  consistent m -> (forall k, Permutation (sh k) k) ->
  sociability_given l c2 m ->
  ClassroomModel_step sh m = Ok m' ->
  sociability_given l c2 m'.
Proof.
  intros C Hsh (Hc & Hcase) Hstep.
  destruct (tick_roster _ _ _ C Hsh Hstep)
    as (m1 & Ha & Hset & Hq & _ & Hsoc & _).
  destruct Hset as (_ & Hco & _).
  pose proof (admission_setting _ _ Ha) as (_ & Hco1 & _).
  assert (Hlen : List.length (agents m') = List.length (agents m1)).
  { rewrite <- (length_map sociability (agents m')), Hsoc. apply length_map. }
  split; [congruence|]. rewrite Hsoc, Hq, Hlen.
  destruct (admission_spec _ _ Ha)
    as [[-> _]|(c2' & s & q & r & p & _ & Hn & Hsq & _ & ->)]; [exact Hcase|].
  assert (c2' = c2) by congruence. subst c2'.
  cbn [agents set_agents sociability_sequence set_sociability_sequence set_rand].
  rewrite map_app, length_app. cbn [map sociability new_student List.length].
  rewrite Nat.add_1_r.
  destruct Hsq as [(E & -> & ->)|(E & Hseq)]; rewrite E in *.
  - destruct Hcase as [H1 H2]. split; [|exact H2].
    rewrite H1, <- repeat_cons. reflexivity.
  - destruct Hcase as [H1 H2]. rewrite H2 in Hseq.
    destruct (skipn_cons_nth l _ _ _ 0%Q Hseq) as [F1 F2].
    rewrite F1, F2, H1. split; reflexivity.
Qed.

Section Reached.

Variable mt19937 : Z -> nat -> nat.
Variable erdos_renyi : Z -> Q -> result (nat -> nat -> Q).
Variable walts_graph : list nat -> result (nat -> nat -> Q).
Variable d : ClassroomDesign.
Variable c : pyseq.
Variable ds : option (list nat).
Variable ss : option pyseq.
Variable seed : Z.
Variable m0 : ClassroomModel.
Variable sched : nat -> list nat -> list nat.

Hypothesis constructed :
  ClassroomModel_init mt19937 erdos_renyi walts_graph d c ds ss seed = Ok m0.
Hypothesis shuffled : shuffles sched.

Lemma reached_consistent (n : nat) (m : ClassroomModel) :
  run sched 0 n m0 = Ok m -> consistent m.
Proof.
  intros H. eapply run_consistent; [exact shuffled| |exact H].
  eapply init_consistent; eauto.
Qed.

(** X1 - Between two states of a run, the roster only grows at its end and
    taken seats stay taken: the record of a student (seated or not, position,
    initial happiness) is never changed by a later tick, a seat that has an
    occupant keeps it, and no seat is created, moved or removed. *)
Theorem roster_only_grows (k n : nat) (m m' : ClassroomModel) :
  run sched 0 k m0 = Ok m -> run sched k n m = Ok m' ->
  (exists l, agents m' = agents m ++ l)
  /\ (forall s, In s (seats m) -> taken s = true -> In s (seats m'))
  /\ map seat_pos (seats m') = map seat_pos (seats m).
Proof.
  intros H1 H2. eapply run_roster_grows; eauto using reached_consistent.
Qed.

(** X2 - After [n] completed ticks the roster holds [min(n, max_num_agents)]
    students, numbered 0, 1, 2, ... in order of arrival: one student comes
    in per tick until the population cap is reached, none afterwards. *)
Theorem roster_after_ticks (n : nat) (m : ClassroomModel) :
  run sched 0 n m0 = Ok m ->
  max_num_agents m = max_num_agents m0
  /\ Z.of_nat (List.length (agents m))
     = Z.max 0 (Z.min (Z.of_nat n) (max_num_agents m0))
  /\ map unique_id (agents m) = seq 0 (List.length (agents m)).
Proof.
  intros H.
  destruct (run_roster_length sched shuffled n 0 m0 m
              (init_consistent _ _ _ _ _ _ _ _ _ constructed) H) as (H1 & H2).
  destruct (init_fields _ _ _ _ _ _ _ _ _ constructed) as (_ & _ & Ha & _).
  rewrite Ha in H2. simpl in H2.
  split; [exact H1|]. split; [exact H2|].
  apply (cons_roster m (reached_consistent n m H)).
Qed.

(** X3 - The sociability values are handed out in order of arrival.  When
    the (normalised) sociability coefficient is not zero, the student with
    identifier [i] holds the [i]-th value of the supplied sequence and the
    queue holds the values not yet handed out; when it is zero, every
    student holds 0 and the queue is left untouched. *)
Theorem sociability_in_arrival_order (s : pyseq) (c2 : Q) (n : nat)
    (m : ClassroomModel) :
  ss = Some s ->
  nth_error (coefs m0) 2 = Some c2 ->
  run sched 0 n m0 = Ok m ->
  if Qeq_bool c2 0
  then map sociability (agents m) = repeat 0%Q (List.length (agents m))
       /\ sociability_sequence m = pyseq_items s
  else map sociability (agents m)
       = firstn (List.length (agents m)) (pyseq_items s)
       /\ sociability_sequence m
          = skipn (List.length (agents m)) (pyseq_items s).
Proof.
  intros Hss Hc H.
  assert (G : sociability_given (pyseq_items s) c2 m).
  { apply (run_invariant (sociability_given (pyseq_items s) c2) sched)
      with (n := n) (t := 0) (m := m0); auto.
    - intros sh x x' Cx Hsh Hx Hstep. eapply step_sociability; eauto.
    - eapply init_consistent; eauto.
    - split; [exact Hc|].
      destruct (init_fields _ _ _ _ _ _ _ _ _ constructed) as (_ & _ & Ha & _).
      pose proof (init_sequence _ _ _ _ _ _ _ _ _ _ constructed Hss) as Hq.
      rewrite Ha. simpl. destruct (Qeq_bool c2 0); split; auto. }
  exact (proj2 G).
Qed.

(** X4 - In every state of a run, a student who is still standing stands on
    one of the entrances of the layout, and stands only because no seat is
    empty; a seated student is the recorded occupant of the seat on its own
    cell. *)
Theorem standing_students_wait_at_entrances (n : nat) (m : ClassroomModel)
    (a : Student) :
  run sched 0 n m0 = Ok m -> In a (agents m) ->
  if seated a
  then In (mk_seat (pos a) (Some (unique_id a))) (seats m)
  else In (of_cell (pos a)) (entrances d) /\ seat_options m = [].
Proof.
  intros H Hin. pose proof (reached_consistent n m H) as C.
  destruct (seated a) eqn:Es.
  - now apply (cons_student m C).
  - split; [|eapply (cons_full m C); eauto].
    assert (G : classroom m = d
                /\ forall b, In b (agents m) -> seated b = false ->
                             In (of_cell (pos b)) (entrances d)).
    { apply (run_invariant
               (fun x => classroom x = d
                         /\ forall b, In b (agents x) -> seated b = false ->
                                      In (of_cell (pos b)) (entrances d))
               sched)
        with (n := n) (t := 0) (m := m0); auto.
      - intros sh x x' Cx Hsh (Hd & Hx) Hstep.
        destruct (tick_roster _ _ _ Cx Hsh Hstep)
          as (x1 & _ & _ & _ & _ & _ & (l & Hl & _ & Hp) & _).
        split; [rewrite <- Hd; eapply step_classroom; eauto|].
        intros b Hb Hsb. rewrite Hl in Hb. apply in_app_or in Hb.
        destruct Hb as [Hb|Hb]; [auto|]. rewrite <- Hd. auto.
      - eapply init_consistent; eauto.
      - destruct (init_fields _ _ _ _ _ _ _ _ _ constructed) as (Hd & _ & Ha & _).
        split; [exact Hd|]. rewrite Ha. intros b []. }
    apply G; auto.
Qed.

End Reached.

Lemma roster_only_grows_witness :
  (exists l, agents Runs.model_2_2_after_3 = agents Runs.model_2_2_after_2 ++ l)
  /\ (forall s, In s (seats Runs.model_2_2_after_2) -> taken s = true ->
                In s (seats Runs.model_2_2_after_3))
  /\ map seat_pos (seats Runs.model_2_2_after_3)
     = map seat_pos (seats Runs.model_2_2_after_2).
Proof.
  apply (roster_only_grows Examples.mt19937 Examples.erdos_renyi
           Examples.walts_graph Examples.design_2_2_value
           (PyList [1 # 4; 1 # 4; 1 # 4; 1 # 4]%Q) None
           (Some (PyList [-1; 0; 1; 0]%Q)) 0%Z Examples.model_2_2_value
           Examples.in_order) with (k := 2) (n := 1).
  - vm_compute; reflexivity.
  - intros t l. apply Permutation_refl.
  - vm_compute; reflexivity.
  - vm_compute; reflexivity.
Defined.

Lemma roster_after_ticks_witness :
  max_num_agents Runs.model_2_2_after_3 = max_num_agents Examples.model_2_2_value
  /\ Z.of_nat (List.length (agents Runs.model_2_2_after_3))
     = Z.max 0 (Z.min (Z.of_nat 3) (max_num_agents Examples.model_2_2_value))
  /\ map unique_id (agents Runs.model_2_2_after_3)
     = seq 0 (List.length (agents Runs.model_2_2_after_3)).
Proof.
  apply (roster_after_ticks Examples.mt19937 Examples.erdos_renyi
           Examples.walts_graph Examples.design_2_2_value
           (PyList [1 # 4; 1 # 4; 1 # 4; 1 # 4]%Q) None
           (Some (PyList [-1; 0; 1; 0]%Q)) 0%Z Examples.model_2_2_value
           Examples.in_order).
  - vm_compute; reflexivity.
  - intros t l. apply Permutation_refl.
  - vm_compute; reflexivity.
Defined.

Lemma sociability_in_arrival_order_witness :
  map sociability (agents Runs.model_2_2_after_3)
  = firstn (List.length (agents Runs.model_2_2_after_3)) [-1; 0; 1; 0]%Q
  /\ sociability_sequence Runs.model_2_2_after_3
     = skipn (List.length (agents Runs.model_2_2_after_3)) [-1; 0; 1; 0]%Q.
Proof.
  apply (sociability_in_arrival_order Examples.mt19937 Examples.erdos_renyi
           Examples.walts_graph Examples.design_2_2_value
           (PyList [1 # 4; 1 # 4; 1 # 4; 1 # 4]%Q) None
           (Some (PyList [-1; 0; 1; 0]%Q)) 0%Z Examples.model_2_2_value
           Examples.in_order ltac:(vm_compute; reflexivity)
           ltac:(intros t l; apply Permutation_refl)
           (PyList [-1; 0; 1; 0]%Q) (256 # 1024)%Q 3 Runs.model_2_2_after_3
           eq_refl ltac:(vm_compute; reflexivity)
           ltac:(vm_compute; reflexivity)).
Defined.

(** The fifth student of the crowded classroom stands at an entrance. *)
Lemma standing_students_wait_at_entrances_witness :
  In (0, 0)%Z (entrances Examples.design_2_2_value)
  /\ seat_options Examples.crowded_after_5 = [].
Proof.
  apply (standing_students_wait_at_entrances Examples.mt19937
           Examples.erdos_renyi Examples.walts_graph Examples.design_2_2_value
           (PyList [1 # 4; 1 # 4; 1 # 4; 1 # 4]%Q) (Some [1; 1; 1; 1; 1])
           (Some (PyList [-1; 0; 1; 0; 1]%Q)) 0%Z Runs.model_crowded_value
           Examples.in_order ltac:(vm_compute; reflexivity)
           ltac:(intros t l; apply Permutation_refl)
           5 Examples.crowded_after_5
           (mk_student 4 1 false (Fin 0) false 1 (1 # 5) (0, 0))
           ltac:(vm_compute; reflexivity)).
  vm_compute. do 4 right. left. reflexivity.
Defined.

(** ** Counting seats and students *)

Lemma drop_indices_filter (idxs : list nat) (n : nat) :
  forall i, drop_indices idxs i (seq i n)
            = filter (fun k => negb (existsb (Nat.eqb k) idxs)) (seq i n).
Proof.
  induction n as [|n IH]; intros i; [reflexivity|]. simpl.
  destruct (existsb (Nat.eqb i) idxs); simpl; now rewrite IH.
Qed.

Lemma flat_map_unless {A B : Type} (f : A -> bool) (g : A -> list B)
    (l : list A) :
  flat_map (fun x => if f x then [] else g x) l
  = flat_map g (filter (fun x => negb (f x)) l).
Proof.
  induction l as [|a l IH]; [reflexivity|]. simpl.
  destruct (f a); simpl; now rewrite IH.
Qed.

Lemma flat_map_singleton {A B : Type} (h : A -> B) (l : list A) :
  flat_map (fun x => [h x]) l = map h l.
Proof. induction l as [|a l IH]; simpl; congruence. Qed.

(** The seats of a layout, column by column. *)
Lemma initial_seats_grid (d : ClassroomDesign) :
  initial_seats d
  = flat_map (fun x => map (fun y => mk_seat (x, y) None) (seat_rows d))
             (seat_columns d).
Proof.
  unfold initial_seats, seat_columns, seat_rows.
  rewrite !drop_indices_filter.
  rewrite (flat_map_unless (fun x => existsb (Nat.eqb x) (aisles_x d))).
  apply flat_map_ext. intros x.
  rewrite (flat_map_unless (fun y => existsb (Nat.eqb y) (aisles_y d))).
  apply flat_map_singleton.
Qed.

Lemma length_flat_map_const {A B : Type} (g : A -> list B) (k : nat)
    (l : list A) :
  (forall x, List.length (g x) = k) ->
  List.length (flat_map g l) = List.length l * k.
Proof.
  intros H. induction l as [|a l IH]; [reflexivity|].
  simpl. rewrite length_app, H, IH. reflexivity.
Qed.

Lemma initial_seats_length (d : ClassroomDesign) :
  List.length (initial_seats d)
  = List.length (seat_columns d) * List.length (seat_rows d).
Proof.
  rewrite initial_seats_grid. apply length_flat_map_const.
  intros x. apply length_map.
Qed.

Lemma NoDup_map_injective {A B : Type} (f : A -> B) (l : list A) :
  (forall a b, f a = f b -> a = b) -> NoDup l -> NoDup (map f l).
Proof.
  intros Hf. induction 1 as [|a l Hn ND IH]; simpl; constructor; auto.
  intros Hin. apply in_map_iff in Hin. destruct Hin as (b & E & Hb).
  apply Hf in E. subst b. contradiction.
Qed.

Lemma NoDup_grid (cols rows : list nat) :
  NoDup cols -> NoDup rows ->
  NoDup (flat_map (fun x => map (fun y => (x, y)) rows) cols).
Proof.
  intros Hc Hr. induction Hc as [|x cols Hn ND IH]; simpl; [constructor|].
  apply NoDup_app; auto.
  - apply NoDup_map_injective; auto. intros a b E. now inversion E.
  - intros [x' y'] H1 H2. apply in_map_iff in H1. destruct H1 as (y & E & _).
    inversion E; subst. apply in_flat_map in H2.
    destruct H2 as (x2 & Hx2 & H2). apply in_map_iff in H2.
    destruct H2 as (y2 & E2 & _). inversion E2; subst. contradiction.
Qed.

Lemma initial_seats_NoDup (d : ClassroomDesign) :
  NoDup (map seat_pos (initial_seats d)).
Proof.
  rewrite initial_seats_grid.
  assert (E : map seat_pos
                (flat_map (fun x => map (fun y => mk_seat (x, y) None) (seat_rows d))
                          (seat_columns d))
              = flat_map (fun x => map (fun y => (x, y)) (seat_rows d))
                         (seat_columns d)).
  { induction (seat_columns d) as [|x l IH]; [reflexivity|].
    simpl. rewrite map_app, IH, map_map. reflexivity. }
  rewrite E. apply NoDup_grid; unfold seat_columns, seat_rows;
    rewrite drop_indices_filter; apply NoDup_filter, seq_NoDup.
Qed.

Lemma NoDup_map_filter {A B : Type} (g : A -> B) (f : A -> bool) (l : list A) :
  NoDup (map g l) -> NoDup (map g (filter f l)).
Proof.
  induction l as [|a l IH]; simpl; intros H; [constructor|].
  inversion H as [|x xs Hn ND]; subst.
  destruct (f a); simpl; auto. constructor; auto.
  intros Hin. apply Hn. apply in_map_iff in Hin.
  destruct Hin as (b & E & Hb). apply filter_In in Hb.
  rewrite <- E. apply in_map. tauto.
Qed.

Lemma filter_all {A : Type} (f : A -> bool) (l : list A) :
  (forall a, In a l -> f a = true) -> filter f l = l.
Proof.
  induction l as [|a l IH]; intros H; [reflexivity|]. simpl.
  rewrite (H a (or_introl eq_refl)), IH; auto. intros; apply H; now right.
Qed.

Lemma filter_none {A : Type} (f : A -> bool) (l : list A) :
  filter f l = [] -> forall a, In a l -> f a = false.
Proof.
  intros H a Ha. destruct (f a) eqn:E; [|reflexivity].
  assert (X : In a (filter f l)) by (apply filter_In; auto).
  rewrite H in X. contradiction.
Qed.

(** In a consistent model the seated students and the taken seats are in
    one-to-one correspondence. *)
Lemma seated_taken (m : ClassroomModel) :
  consistent m -> seated_count m = taken_count m.
Proof.
  intros C. unfold seated_count, taken_count.
  set (f := fun a => mk_seat (pos a) (Some (unique_id a))).
  rewrite <- (length_map f (filter seated (agents m))).
  apply Permutation_length, NoDup_Permutation.
  - apply (NoDup_map_inv (fun s => match student s with
                                   | Some i => i | None => 0 end)).
    rewrite map_map. cbn [f student].
    apply NoDup_map_filter, roster_nodup, (cons_roster m C).
  - apply NoDup_filter. apply (NoDup_map_inv seat_pos).
    rewrite (cons_layout m C). apply initial_seats_NoDup.
  - intros s. rewrite in_map_iff, filter_In. split.
    + intros (a & <- & Ha). apply filter_In in Ha. destruct Ha as [Ha Hs].
      split; [now apply (cons_student m C)|reflexivity].
    + intros [Hs Ht]. unfold taken, is_free in Ht.
      destruct (student s) as [id|] eqn:E; [|discriminate].
      destruct (cons_seat m C s id Hs E) as (a & Ha & Hid & Hse & Hp).
      exists a. split; [|apply filter_In; auto].
      unfold f. destruct s as [p o]. simpl in *. congruence.
Qed.

Lemma seated_count_min (m : ClassroomModel) :
  consistent m ->
  seated_count m = Nat.min (List.length (agents m)) (List.length (seats m)).
Proof.
  intros C. pose proof (seated_taken m C) as E.
  assert (H1 : seated_count m <= List.length (agents m))
    by apply filter_length_le.
  assert (H2 : taken_count m <= List.length (seats m))
    by apply filter_length_le.
  destruct (seat_options m) as [|s0 rest] eqn:Ef.
  - assert (Hall : taken_count m = List.length (seats m)).
    { unfold taken_count. rewrite filter_all; [reflexivity|].
      intros s Hs. unfold taken.
      now rewrite (filter_none _ _ Ef s Hs). }
    lia.
  - assert (Hne : seat_options m <> []) by (rewrite Ef; discriminate).
    assert (Hall : seated_count m = List.length (agents m)).
    { unfold seated_count. rewrite filter_all; [reflexivity|].
      apply (all_seated m C Hne). }
    lia.
Qed.

(** X5 - In every state of a run the seated students and the taken seats
    correspond one to one, the number of seated students is the smaller of
    the roster size and the number of seats, and the seats are the non-aisle
    cells of the layout. *)
Theorem seated_students_count
    (mt19937 : Z -> nat -> nat)
    (erdos_renyi : Z -> Q -> result (nat -> nat -> Q))
    (walts_graph : list nat -> result (nat -> nat -> Q))
    (d : ClassroomDesign) (c : pyseq) (ds : option (list nat))
    (ss : option pyseq) (seed : Z) (m0 m : ClassroomModel)
    (sched : nat -> list nat -> list nat) (n : nat) :
  ClassroomModel_init mt19937 erdos_renyi walts_graph d c ds ss seed = Ok m0 ->
  shuffles sched ->
  run sched 0 n m0 = Ok m ->
  seated_count m = taken_count m
  /\ seated_count m = Nat.min (List.length (agents m)) (List.length (seats m))
  /\ List.length (seats m)
     = List.length (seat_columns d) * List.length (seat_rows d).
Proof.
  intros Hi Hs Hr.
  pose proof (init_consistent _ _ _ _ _ _ _ _ _ Hi) as C0.
  pose proof (run_consistent sched n Hs 0 m0 m C0 Hr) as C.
  split; [now apply seated_taken|]. split; [now apply seated_count_min|].
  rewrite <- (length_map seat_pos (seats m)), (cons_layout m C), length_map.
  rewrite (run_classroom sched n Hs 0 m0 m C0 Hr).
  destruct (init_fields _ _ _ _ _ _ _ _ _ Hi) as (-> & _).
  apply initial_seats_length.
Qed.

Lemma seated_students_count_witness :
  seated_count Runs.model_2_2_after_3 = taken_count Runs.model_2_2_after_3
  /\ seated_count Runs.model_2_2_after_3
     = Nat.min (List.length (agents Runs.model_2_2_after_3))
               (List.length (seats Runs.model_2_2_after_3))
  /\ List.length (seats Runs.model_2_2_after_3)
     = List.length (seat_columns Examples.design_2_2_value)
       * List.length (seat_rows Examples.design_2_2_value).
Proof.
  apply (seated_students_count Examples.mt19937 Examples.erdos_renyi
           Examples.walts_graph Examples.design_2_2_value
           (PyList [1 # 4; 1 # 4; 1 # 4; 1 # 4]%Q) None
           (Some (PyList [-1; 0; 1; 0]%Q)) 0%Z Examples.model_2_2_value
           Runs.model_2_2_after_3 Examples.in_order 3).
  - vm_compute; reflexivity.
  - intros t l. apply Permutation_refl.
  - vm_compute; reflexivity.
Defined.

(** ** The geometry of the layout *)

Lemma vertical_aisles_length (blocks : list nat) :
  forall k, List.length (vertical_aisles k blocks) = List.length blocks - 1.
Proof.
  induction blocks as [|b rest IH]; intros k; [reflexivity|].
  destruct rest as [|b' rest']; [reflexivity|].
  change (vertical_aisles k (b :: b' :: rest'))
    with ((k + b) :: vertical_aisles (k + b + 1) (b' :: rest')).
  cbn [List.length]. rewrite IH. simpl. lia.
Qed.

Lemma vertical_aisles_nth (blocks : list nat) :
  forall k i, i < List.length blocks - 1 ->
    nth i (vertical_aisles k blocks) 0
    = k + list_sum (firstn (S i) blocks) + i.
Proof.
  induction blocks as [|b rest IH]; intros k i Hi; [simpl in Hi; lia|].
  destruct rest as [|b' rest']; [simpl in Hi; lia|].
  change (vertical_aisles k (b :: b' :: rest'))
    with ((k + b) :: vertical_aisles (k + b + 1) (b' :: rest')).
  destruct i as [|i].
  - simpl. lia.
  - cbn [nth]. rewrite IH by (simpl in *; lia).
    change (firstn (S (S i)) (b :: b' :: rest'))
      with (b :: firstn (S i) (b' :: rest')).
    cbn [list_sum fold_right]. unfold list_sum. lia.
Qed.

Lemma vertical_aisles_ge (blocks : list nat) :
  forall k x, In x (vertical_aisles k blocks) -> k <= x.
Proof.
  induction blocks as [|b rest IH]; intros k x H; [contradiction|].
  destruct rest as [|b' rest']; [contradiction|].
  change (vertical_aisles k (b :: b' :: rest'))
    with ((k + b) :: vertical_aisles (k + b + 1) (b' :: rest')) in H.
  destruct H as [<-|H]; [lia|]. apply IH in H. lia.
Qed.

Lemma vertical_aisles_NoDup (blocks : list nat) :
  forall k, NoDup (vertical_aisles k blocks).
Proof.
  induction blocks as [|b rest IH]; intros k; [constructor|].
  destruct rest as [|b' rest']; [constructor|].
  change (vertical_aisles k (b :: b' :: rest'))
    with ((k + b) :: vertical_aisles (k + b + 1) (b' :: rest')).
  constructor; [|apply IH].
  intros H. apply vertical_aisles_ge in H. lia.
Qed.

Lemma filter_split_length {A : Type} (f : A -> bool) (l : list A) :
  List.length (filter f l) + List.length (filter (fun a => negb (f a)) l)
  = List.length l.
Proof.
  induction l as [|a l IH]; [reflexivity|]. simpl.
  destruct (f a); simpl; lia.
Qed.

(** Deleting distinct indices that lie in range shortens by their number. *)
Lemma kept_length (idxs : list nat) (n : nat) :
  NoDup idxs -> Forall (fun i => i < n) idxs ->
  List.length (drop_indices idxs 0 (seq 0 n)) = n - List.length idxs.
Proof.
  intros ND Hr. rewrite drop_indices_filter.
  pose proof (filter_split_length (fun k => existsb (Nat.eqb k) idxs) (seq 0 n))
    as E. rewrite length_seq in E.
  assert (P : List.length (filter (fun k => existsb (Nat.eqb k) idxs) (seq 0 n))
              = List.length idxs).
  { apply Permutation_length, NoDup_Permutation; auto.
    - apply NoDup_filter, seq_NoDup.
    - intros x. rewrite filter_In, in_seq, existsb_exists.
      rewrite Forall_forall in Hr. split.
      + intros (_ & y & Hy & Exy). apply Nat.eqb_eq in Exy. now subst.
      + intros Hx. split; [specialize (Hr x Hx); lia|].
        exists x. split; [exact Hx|apply Nat.eqb_refl]. }
  lia.
Qed.

Lemma design_fields (blocks : list nat) (rows : nat) (pu : option ndarray)
    (ent : option (list (nat * nat))) (ay : option (list nat))
    (d : ClassroomDesign) :
  ClassroomDesign_init blocks rows pu ent ay = Ok d ->
  blocks <> []
  /\ width d = grid_width blocks /\ num_rows d = rows
  /\ aisles_x d = vertical_aisles 0 blocks
  /\ aisles_y d = horizontal_aisles ay
  /\ entrances d = match ent with
                   | None => [(0, 0); (Z.of_nat (grid_width blocks) - 1, 0)]%Z
                   | Some es => map of_cell es
                   end
  /\ seat_count d
     = ((Z.of_nat (grid_width blocks)
         - Z.of_nat (List.length (vertical_aisles 0 blocks)))
        * (Z.of_nat rows - Z.of_nat (List.length (horizontal_aisles ay))))%Z
  /\ Zmax_list (max_pass_per_block 0 (List.length blocks) blocks)
     = Some (max_pass d).
Proof.
  unfold ClassroomDesign_init.
  destruct blocks as [|b rest]; [destruct pu; discriminate|].
  destruct pu as [p|]; [|discriminate].
  destruct (if shape_is _ _ _ then _ else _) as [pu'|]; cbn [bind];
    [|discriminate].
  destruct (Zmax_list _) as [mp|] eqn:Emp; [|discriminate].
  intros H; inversion H; subst; clear H.
  repeat split; auto. discriminate.
Qed.

(** X6 - A layout with [k] blocks has [k - 1] vertical aisles; the [i]-th one
    stands right after the first [i + 1] blocks and the [i] aisles before
    it, and all of them lie inside the grid, whose width is the number of
    seats per row plus the number of aisles. *)
Theorem vertical_aisles_of_design (blocks : list nat) (rows : nat)
    (pu : option ndarray) (ent : option (list (nat * nat)))
    (ay : option (list nat)) (d : ClassroomDesign) :
  ClassroomDesign_init blocks rows pu ent ay = Ok d ->
  List.length (aisles_x d) = List.length blocks - 1
  /\ width d = list_sum blocks + List.length (aisles_x d)
  /\ (forall i, i < List.length blocks - 1 ->
                nth i (aisles_x d) 0 = list_sum (firstn (S i) blocks) + i)
  /\ Forall (fun x => x < width d) (aisles_x d)
  /\ NoDup (aisles_x d).
Proof.
  intros H. pose proof (design_aisles_x _ _ _ _ _ _ H) as Hlt.
  destruct (design_fields _ _ _ _ _ _ H) as (Hne & Hw & _ & Hx & _).
  rewrite Hx in *. rewrite vertical_aisles_length.
  split; [reflexivity|]. split; [|split; [|split]].
  - rewrite Hw. unfold grid_width. destruct blocks; [congruence|]. simpl. lia.
  - intros i Hi. rewrite vertical_aisles_nth by exact Hi. reflexivity.
  - exact Hlt.
  - apply vertical_aisles_NoDup.
Qed.

Lemma vertical_aisles_of_design_witness :
  List.length (aisles_x Examples.design_2_2_value) = List.length [2; 2] - 1
  /\ width Examples.design_2_2_value
     = list_sum [2; 2] + List.length (aisles_x Examples.design_2_2_value)
  /\ (forall i, i < List.length [2; 2] - 1 ->
                nth i (aisles_x Examples.design_2_2_value) 0
                = list_sum (firstn (S i) [2; 2]) + i)
  /\ Forall (fun x => x < width Examples.design_2_2_value)
            (aisles_x Examples.design_2_2_value)
  /\ NoDup (aisles_x Examples.design_2_2_value).
Proof.
  apply (vertical_aisles_of_design [2; 2] 2 (Some (np_zeros 5 2)) None None).
  vm_compute; reflexivity.
Defined.

Lemma seat_grid_size (blocks : list nat) (rows : nat)
    (pu : option ndarray) (ent : option (list (nat * nat)))
    (ay : option (list nat)) (d : ClassroomDesign) :
  ClassroomDesign_init blocks rows pu ent ay = Ok d ->
  NoDup (aisles_y d) -> Forall (fun y => y < num_rows d) (aisles_y d) ->
  List.length (seat_columns d) = list_sum blocks
  /\ List.length (seat_rows d) = rows - List.length (aisles_y d)
  /\ List.length (aisles_y d) <= rows.
Proof.
  intros H NDy Hy. pose proof (design_aisles_x _ _ _ _ _ _ H) as Hlt.
  destruct (design_fields _ _ _ _ _ _ H)
    as (Hne & Hw & Hr & Hx & Hay & _ & Hsc & _).
  split; [|split].
  - unfold seat_columns. rewrite kept_length; auto.
    + rewrite Hx, vertical_aisles_length, Hw. unfold grid_width.
      destruct blocks; [congruence|]. simpl. lia.
    + rewrite Hx. apply vertical_aisles_NoDup.
  - unfold seat_rows. rewrite kept_length; auto.
  - rewrite <- Hr. rewrite <- (length_seq (num_rows d) 0).
    apply NoDup_incl_length; auto.
    intros y Hin. apply in_seq. rewrite Forall_forall in Hy.
    specialize (Hy y Hin). lia.
Qed.

Lemma seat_count_formula (blocks : list nat) (rows : nat)
    (pu : option ndarray) (ent : option (list (nat * nat)))
    (ay : option (list nat)) (d : ClassroomDesign) :
  ClassroomDesign_init blocks rows pu ent ay = Ok d ->
  seat_count d
  = (Z.of_nat (list_sum blocks)
     * (Z.of_nat rows - Z.of_nat (List.length (aisles_y d))))%Z.
Proof.
  intros H.
  destruct (design_fields _ _ _ _ _ _ H)
    as (Hne & Hw & Hr & Hx & Hay & _ & Hsc & _).
  rewrite Hsc, <- Hay, vertical_aisles_length.
  unfold grid_width. destruct blocks as [|b rest]; [congruence|].
  cbn [List.length]. f_equal. lia.
Qed.

(** X7 - When the horizontal aisles are distinct rows of the grid,
    [seat_count] is the number of seats that a model creates on the layout:
    the seats per row times the rows that are not aisles. *)
Theorem seat_count_is_number_of_seats (blocks : list nat) (rows : nat)
    (pu : option ndarray) (ent : option (list (nat * nat)))
    (ay : option (list nat)) (d : ClassroomDesign) :
  ClassroomDesign_init blocks rows pu ent ay = Ok d ->
  NoDup (aisles_y d) -> Forall (fun y => y < num_rows d) (aisles_y d) ->
  seat_count d = Z.of_nat (List.length (initial_seats d))
  /\ List.length (initial_seats d)
     = list_sum blocks * (rows - List.length (aisles_y d)).
Proof.
  intros H NDy Hy.
  destruct (seat_grid_size _ _ _ _ _ _ H NDy Hy) as (Hc & Hr & Hle).
  rewrite initial_seats_length, Hc, Hr. split; [|reflexivity].
  rewrite (seat_count_formula _ _ _ _ _ _ H). nia.
Qed.

Lemma seat_count_is_number_of_seats_witness :
  seat_count Examples.design_2_2_value
  = Z.of_nat (List.length (initial_seats Examples.design_2_2_value))
  /\ List.length (initial_seats Examples.design_2_2_value)
     = list_sum [2; 2]
       * (2 - List.length (aisles_y Examples.design_2_2_value)).
Proof.
  apply (seat_count_is_number_of_seats [2; 2] 2 (Some (np_zeros 5 2)) None None).
  - vm_compute; reflexivity.
  - apply NoDup_cons; [intros []|apply NoDup_nil].
  - repeat constructor.
Defined.

(** X8 - With the default population (no degree sequence: one student per
    seat of the layout) on a layout whose horizontal aisles are distinct
    rows of the grid, nobody is left standing after a completed tick: after
    [n] ticks exactly [min(n, number of seats)] students are in the room and
    all of them are seated. *)
Theorem default_population_is_seated
    (mt19937 : Z -> nat -> nat)
    (erdos_renyi : Z -> Q -> result (nat -> nat -> Q))
    (walts_graph : list nat -> result (nat -> nat -> Q))
    (blocks : list nat) (rows : nat) (pu : option ndarray)
    (ent : option (list (nat * nat))) (ay : option (list nat))
    (d : ClassroomDesign) (c : pyseq) (ss : option pyseq) (seed : Z)
    (m0 m : ClassroomModel) (sched : nat -> list nat -> list nat) (n : nat) :
  ClassroomDesign_init blocks rows pu ent ay = Ok d ->
  NoDup (aisles_y d) -> Forall (fun y => y < num_rows d) (aisles_y d) ->
  ClassroomModel_init mt19937 erdos_renyi walts_graph d c None ss seed = Ok m0 ->
  shuffles sched ->
  run sched 0 n m0 = Ok m ->
  List.length (agents m) = Nat.min n (List.length (seats m))
  /\ seated_count m = List.length (agents m)
  /\ unseated_count m = 0.
Proof.
  intros Hd NDy Hy Hi Hs Hr.
  pose proof (init_consistent _ _ _ _ _ _ _ _ _ Hi) as C0.
  pose proof (run_consistent sched n Hs 0 m0 m C0 Hr) as C.
  destruct (seat_grid_size _ _ _ _ _ _ Hd NDy Hy) as (Hgc & Hgr & Hle).
  pose proof (seat_count_formula _ _ _ _ _ _ Hd) as Hsc.
  pose proof (initial_seats_length d) as Hil. rewrite Hgc, Hgr in Hil.
  pose proof (init_max_num_agents _ _ _ _ _ _ _ _ _ Hi) as Hmax.
  cbn [population] in Hmax.
  destruct (run_roster_length sched Hs n 0 m0 m C0 Hr) as (_ & Hlen).
  destruct (init_fields _ _ _ _ _ _ _ _ _ Hi) as (Hcl & _ & Ha & _).
  rewrite Ha in Hlen. simpl in Hlen.
  assert (Hseats : List.length (seats m) = List.length (initial_seats d)).
  { rewrite <- (length_map seat_pos (seats m)), (cons_layout m C), length_map.
    now rewrite (run_classroom sched n Hs 0 m0 m C0 Hr), Hcl. }
  assert (L : List.length (agents m) = Nat.min n (List.length (seats m))) by nia.
  pose proof (seated_count_min m C) as Hmin.
  pose proof (filter_split_length seated (agents m)) as Hsplit.
  unfold seated_count in *. unfold unseated_count. lia.
Qed.

Lemma default_population_is_seated_witness :
  List.length (agents Runs.model_2_2_after_3)
  = Nat.min 3 (List.length (seats Runs.model_2_2_after_3))
  /\ seated_count Runs.model_2_2_after_3
     = List.length (agents Runs.model_2_2_after_3)
  /\ unseated_count Runs.model_2_2_after_3 = 0.
Proof.
  apply (default_population_is_seated Examples.mt19937 Examples.erdos_renyi
           Examples.walts_graph [2; 2] 2 (Some (np_zeros 5 2)) None None
           Examples.design_2_2_value (PyList [1 # 4; 1 # 4; 1 # 4; 1 # 4]%Q)
           (Some (PyList [-1; 0; 1; 0]%Q)) 0%Z Examples.model_2_2_value
           Runs.model_2_2_after_3 Examples.in_order 3).
  - vm_compute; reflexivity.
  - apply NoDup_cons; [intros []|apply NoDup_nil].
  - repeat constructor.
  - vm_compute; reflexivity.
  - intros t l. apply Permutation_refl.
  - vm_compute; reflexivity.
Defined.

(** ** Random seat choice *)

Lemma get_happiness_moved (c : Seat) (self : Student) (m : ClassroomModel)
    (ss : list Seat) (p : nat * nat) :
  (forall a, In a (agents m) -> unique_id a = unique_id self ->
             seated a = false) ->
  get_happiness c (move_to p self)
    (set_agents (update_agent (unique_id self) (move_to p) (agents m))
                (set_seats ss m))
  = get_happiness c self m.
Proof.
  intros H. unfold get_happiness.
  rewrite (get_social_utility_moved c self m ss p H). reflexivity.
Qed.

Lemma occupy_commits_happy (self : Student) (c : Seat) (m : ClassroomModel)
    (r : RandomState) (h : pyfloat) :
  NoDup (map unique_id (agents m)) -> In self (agents m) ->
  seated self = false ->
  In c (seats m) ->
  get_happiness c self m = Ok h ->
  exists m', occupy self c None (set_rand r m) = Ok m'
             /\ committed m' (seat_pos c) (unique_id self)
             /\ exists a, get_agent (unique_id self) m' = Some a
                          /\ initial_happiness a = h.
Proof.
  intros ND Hin Hst Hc Hh.
  assert (Hun : forall a, In a (agents m) -> unique_id a = unique_id self ->
                          seated a = false).
  { intros a Ha E. pose proof (find_by_id _ _ ND Ha) as F1.
    pose proof (find_by_id _ _ ND Hin) as F2. rewrite E in F1.
    congruence. }
  unfold occupy.
  rewrite (get_happiness_moved c self (set_rand r m) _ _ Hun).
  change (get_happiness c self (set_rand r m)) with (get_happiness c self m).
  rewrite Hh. cbn [bind]. eexists. split; [reflexivity|].
  cbn [seats agents set_agents set_seats set_rand].
  rewrite update_agent_compose by reflexivity.
  destruct (find_update_self (unique_id self)
              (fun a => sit_down h (move_to (seat_pos c) a)) (agents m))
    as (a0 & _ & _ & F); [reflexivity|eauto|].
  split; [split|].
  - apply set_student_in. exists c. split; [exact Hc|].
    now rewrite pos_eqb_refl.
  - eexists. split; [exact F|]. split; reflexivity.
  - eexists. split; [exact F|]. reflexivity.
Qed.

Lemma get_happiness_finite (c : Seat) (st : Student) (m : ClassroomModel) :
  List.length (coefs m) = 4 ->
  Qeq_bool (snd (sociability_range m) - fst (sociability_range m)) 0 = false ->
  exists q, get_happiness c st m = Ok (Fin q).
Proof.
  intros Hc Hr. unfold get_happiness, unpack_coefs.
  destruct (get_social_utility_finite c st m Hr) as (uf & q & ->).
  cbn [bind].
  destruct (coefs m) as [|c1 [|c2 [|c3 [|c4 [|c5 t]]]]]; try discriminate.
  cbn [bind fst snd fmul fadd]. eauto.
Qed.

(** X9 - In random mode ([random_seat_choice] set), a standing student who
    runs the decision procedure while a seat is empty sits down on the empty
    seat whose index, in grid order, is the generator's draw modulo the
    number of empty seats; every empty seat is reached by some generator
    state.  Only the happiness is computed, so this holds whatever
    [max_pass] is, as soon as there are four coefficients and the
    sociability values are not all equal. *)
Theorem random_choice_takes_any_empty_seat (m : ClassroomModel)
    (self : Student) :
  random_seat_choice m = true ->
  NoDup (map unique_id (agents m)) -> In self (agents m) ->
  seated self = false ->
  seat_options m <> [] ->
  List.length (coefs m) = 4 ->
  Qeq_bool (snd (sociability_range m) - fst (sociability_range m)) 0 = false ->
  (forall r, exists c m',
        nth_error (seat_options m)
                  (stream r (cursor r) mod List.length (seat_options m))
        = Some c
        /\ choose_seat self None None (set_rand r m) = Ok m'
        /\ committed m' (seat_pos c) (unique_id self)
        /\ rand m' = mk_rand (stream r) (S (cursor r)))
  /\ (forall c, In c (seat_options m) ->
        exists r m',
          choose_seat self None None (set_rand r m) = Ok m'
          /\ committed m' (seat_pos c) (unique_id self)).
Proof.
  intros Hr ND Hin Hst Hne Hc Hs.
  assert (Hsel : forall r,
             select_seat self None None (set_rand r m)
             = (sr <- choice (seat_options m) r ;;
                Ok (Some (fst sr), set_rand (snd sr) m))).
  { intros r. unfold select_seat.
    change (seat_options (set_rand r m)) with (seat_options m).
    destruct (seat_options m) as [|first rest] eqn:E; [congruence|].
    change (random_seat_choice (set_rand r m)) with (random_seat_choice m).
    rewrite Hr. reflexivity. }
  assert (Hdraw : forall r i,
             stream r (cursor r) mod List.length (seat_options m) = i ->
             forall c, nth_error (seat_options m) i = Some c ->
             exists m', choose_seat self None None (set_rand r m) = Ok m'
                        /\ committed m' (seat_pos c) (unique_id self)
                        /\ rand m' = mk_rand (stream r) (S (cursor r))).
  { intros r i Hi c Hnth.
    assert (Ec : choice (seat_options m) r
                 = Ok (c, mk_rand (stream r) (S (cursor r)))).
    { unfold choice. destruct (seat_options m) as [|o os] eqn:Eo; [congruence|].
      unfold randint.
      destruct (Nat.eqb_spec (List.length (o :: os)) 0) as [Z|_]; [discriminate|].
      cbn [bind fst snd]. rewrite Hi.
      rewrite (nth_error_nth _ _ o Hnth). reflexivity. }
    destruct (get_happiness_finite c self m Hc Hs) as (q & Hq).
    destruct (occupy_commits_happy self c m (mk_rand (stream r) (S (cursor r)))
                (Fin q) ND Hin Hst) as (m' & Ho & Hcm & _); auto.
    { apply nth_error_In in Hnth. now apply seat_options_in in Hnth. }
    exists m'. split; [|split; [exact Hcm|]].
    - unfold choose_seat. rewrite Hsel, Ec. cbn [bind fst snd]. exact Ho.
    - destruct (occupy_setting _ _ _ _ Ho) as (_ & _ & E). exact E. }
  split.
  - intros r.
    assert (Hlt : stream r (cursor r) mod List.length (seat_options m)
                  < List.length (seat_options m)).
    { apply Nat.mod_upper_bound. destruct (seat_options m); [congruence|].
      discriminate. }
    destruct (nth_error (seat_options m)
                (stream r (cursor r) mod List.length (seat_options m)))
      as [c|] eqn:En; [|apply nth_error_None in En; lia].
    destruct (Hdraw r _ eq_refl c En) as (m' & H1 & H2 & H3).
    exists c, m'. auto.
  - intros c Hcin. destruct (In_nth_error _ _ Hcin) as (i & Hi).
    assert (Hlt : i < List.length (seat_options m)).
    { apply nth_error_Some. congruence. }
    destruct (Hdraw (mk_rand (fun _ => i) 0) i) with (c := c)
      as (m' & H1 & H2 & _); auto.
    { cbn [stream cursor]. now apply Nat.mod_small. }
    exists (mk_rand (fun _ => i) 0), m'. auto.
Qed.

(** The first student of the classroom in random mode: whatever the
    generator draws, it sits down, and it can reach the second seat. *)
Lemma random_choice_takes_any_empty_seat_witness :
  exists r m',
    choose_seat (new_student 0 0 (0, 0)) None None
                (set_rand r Runs.model_zero_array_arrival) = Ok m'
    /\ committed m' (2, 1) 0.
Proof.
  destruct (random_choice_takes_any_empty_seat Runs.model_zero_array_arrival
              (new_student 0 0 (0, 0))) as (_ & H).
  - reflexivity.
  - vm_compute. apply NoDup_cons; [intros []|apply NoDup_nil].
  - vm_compute. now left.
  - reflexivity.
  - vm_compute; discriminate.
  - reflexivity.
  - vm_compute; reflexivity.
  - apply (H (mk_seat (2, 1) None)). vm_compute. right. now left.
Defined.

(** ** Happiness and the utility components *)

(** X10 - The initial happiness of a student is the happiness of the seat
    it takes, evaluated when it sits down (with the neighbours of that
    moment): a standing student for whom the decision procedure returns
    while a seat is empty is seated on an empty seat [c] and its
    [initial_happiness] is [get_happiness] of [c] in the state before. *)
Theorem happiness_recorded_on_sitting (m m' : ClassroomModel) (self : Student) :
  NoDup (map unique_id (agents m)) -> In self (agents m) ->
  seated self = false ->
  seat_options m <> [] ->
  choose_seat self None None m = Ok m' ->
  exists c h a,
    In c (seat_options m)
    /\ get_happiness c self m = Ok h
    /\ get_agent (unique_id self) m' = Some a
    /\ initial_happiness a = h /\ seated a = true /\ pos a = seat_pos c
    /\ In (mk_seat (seat_pos c) (Some (unique_id self))) (seats m').
Proof.
  intros ND Hin Hst Hne H.
  destruct (choose_seat_some _ _ _ Hne H) as (c & r & Hc & Hocc).
  assert (Hun : forall a, In a (agents m) -> unique_id a = unique_id self ->
                          seated a = false).
  { intros a Ha E. pose proof (find_by_id _ _ ND Ha) as F1.
    pose proof (find_by_id _ _ ND Hin) as F2. rewrite E in F1.
    congruence. }
  destruct (get_happiness c self m) as [h|e] eqn:Eh.
  - destruct (occupy_commits_happy self c m r h ND Hin Hst) as
      (m2 & Ho & (Hseat & a & Ha & Hsa & Hpa) & a2 & Ha2 & Hh); auto.
    { now apply seat_options_in in Hc. }
    assert (m2 = m') by congruence. subst m2.
    assert (a2 = a) by congruence. subst a2.
    exists c, h, a. repeat split; auto.
  - exfalso. revert Hocc. unfold occupy.
    rewrite (get_happiness_moved c self (set_rand r m) _ _ Hun).
    change (get_happiness c self (set_rand r m)) with (get_happiness c self m).
    rewrite Eh. discriminate.
Qed.

Lemma happiness_recorded_on_sitting_witness :
  exists c h a,
    In c (seat_options Examples.model_2_2_arrival)
    /\ get_happiness c Runs.first_student Examples.model_2_2_arrival = Ok h
    /\ get_agent (unique_id Runs.first_student) Runs.model_2_2_first_seated
       = Some a
    /\ initial_happiness a = h /\ seated a = true /\ pos a = seat_pos c
    /\ In (mk_seat (seat_pos c) (Some (unique_id Runs.first_student)))
          (seats Runs.model_2_2_first_seated).
Proof.
  apply (happiness_recorded_on_sitting Examples.model_2_2_arrival
           Runs.model_2_2_first_seated Runs.first_student).
  - vm_compute. apply NoDup_cons; [intros []|apply NoDup_nil].
  - vm_compute. now left.
  - reflexivity.
  - vm_compute; discriminate.
  - vm_compute; reflexivity.
Defined.

(** ** Bounds of the utilities *)

Lemma inject_Z_pos_ne (z : Z) : (0 < z)%Z -> Qeq_bool (inject_Z z) 0 = false.
Proof. destruct z; intros H; try lia. reflexivity. Qed.

Lemma count_students_clear (m : ClassroomModel) (lo hi y : nat) :
  (forall b, In b (agents m) -> snd (pos b) <> y) ->
  count_students m lo hi y = 0.
Proof.
  intros H. unfold count_students.
  induction (seq lo (hi - lo)) as [|i l IH]; [reflexivity|].
  simpl. rewrite IH, Nat.add_0_r. unfold students_at.
  rewrite (proj2 (length_zero_iff_nil _)); [reflexivity|].
  induction (agents m) as [|b bs IHb]; [reflexivity|]. simpl.
  destruct (pos_eqb (pos b) (i, y)) eqn:E.
  - apply pos_eqb_eq in E. exfalso. apply (H b (or_introl eq_refl)).
    now rewrite E.
  - apply IHb. intros b' Hb'. apply H. now right.
Qed.

(** X11 - On a layout with a positive [max_pass] the accessibility of a seat
    is always computed and never exceeds 1; it equals 1 when nobody stands
    or sits in the row of the seat and the layout has a vertical aisle on
    some side of it. *)
Theorem accessibility_at_most_one (s : Seat) (m : ClassroomModel) :
  (0 < max_pass (classroom m))%Z ->
  exists a,
    get_accessibility s m = Ok a
    /\ fleb a (Fin 1) = true
    /\ ((forall b, In b (agents m) -> snd (pos b) <> snd (seat_pos s)) ->
        (exists i, In i (aisles_x (classroom m)) /\ i <> fst (seat_pos s)) ->
        feqb a (Fin 1) = true).
Proof.
  intros Hmp. unfold get_accessibility.
  pose proof (inject_Z_pos_ne _ Hmp) as Hz.
  assert (Hq : (0 < inject_Z (max_pass (classroom m)))%Q).
  { unfold Qlt. simpl. lia. }
  destruct (count_min (count_right s m) (count_left s m)) as [n|] eqn:Ec.
  - unfold count_float, py_div. rewrite Hz. cbn [bind].
    eexists. split; [reflexivity|].
    assert (Hn : (0 <= inject_Z (Z.of_nat n) / inject_Z (max_pass (classroom m)))%Q).
    { apply Qle_shift_div_l; [exact Hq|]. rewrite Qmult_0_l.
      unfold Qle. simpl. lia. }
    split.
    + cbn [fsub fneg fadd fleb]. apply Qle_bool_iff. lra.
    + intros Hrow Hais. cbn [fsub fneg fadd feqb]. apply Qeq_bool_iff.
      assert (E0 : n = 0).
      { revert Ec. unfold count_left, count_right.
        destruct (at_argmin _ (filter (fun i => fst (seat_pos s) <? i) _));
          destruct (at_argmin _ (filter (fun i => i <? fst (seat_pos s)) _));
          rewrite ?count_students_clear by assumption;
          simpl; intros E; inversion E; reflexivity. }
      subst n. simpl. unfold Qdiv. rewrite Qmult_0_l. ring.
  - unfold count_float, py_div. rewrite Hz. cbn [bind].
    assert (Es : finf_signed (Qsgn (inject_Z (max_pass (classroom m)))) = PInf).
    { destruct (max_pass (classroom m)); try lia. reflexivity. }
    rewrite Es. eexists. split; [reflexivity|]. split; [reflexivity|].
    intros Hrow (i & Hi & Hne). exfalso.
    destruct (get_accessibility_finite s m) as (q & Hq').
    + lia.
    + eauto.
    + revert Hq'. unfold get_accessibility. rewrite Ec.
      unfold count_float, py_div. rewrite Hz, Es. discriminate.
Qed.

Lemma accessibility_at_most_one_witness :
  exists a,
    get_accessibility (mk_seat (1, 1) None) Examples.model_2_2_arrival = Ok a
    /\ fleb a (Fin 1) = true
    /\ ((forall b, In b (agents Examples.model_2_2_arrival) ->
                   snd (pos b) <> snd (seat_pos (mk_seat (1, 1) None))) ->
        (exists i, In i (aisles_x (classroom Examples.model_2_2_arrival))
                   /\ i <> fst (seat_pos (mk_seat (1, 1) None))) ->
        feqb a (Fin 1) = true).
Proof.
  apply (accessibility_at_most_one (mk_seat (1, 1) None)
           Examples.model_2_2_arrival).
  vm_compute; reflexivity.
Defined.

Lemma nth_Forall {A : Type} (P : A -> Prop) (l : list A) (d : A) (n : nat) :
  Forall P l -> P d -> P (nth n l d).
Proof.
  intros H Hd. revert n. induction H as [|a l Ha Hl IH]; intros [|n]; simpl; auto.
Qed.

Lemma interaction_nonneg (x y : nat) :
  (0 <= friendship_interaction_matrix x y)%Q.
Proof.
  unfold friendship_interaction_matrix.
  apply (nth_Forall (fun q => 0 <= q)%Q); [|apply Qle_refl].
  apply (nth_Forall (Forall (fun q => 0 <= q)%Q)); [|constructor].
  unfold interaction_matrix.
  repeat constructor; unfold Qle; simpl; lia.
Qed.

Lemma weighted_tie_bounds (uf w t : Q) :
  (0 <= w -> 0 <= t <= 1 -> uf <= uf + w * t /\ uf + w * t <= uf + w)%Q.
Proof. intros Hw [T0 T1]. split; nra. Qed.

Lemma bounds_chain (a b c w W : Q) :
  (a <= b -> b <= a + w -> b <= c -> c <= b + W ->
   a <= c /\ c <= a + (w + W))%Q.
Proof. intros. split; lra. Qed.

Lemma friendship_accumulates (st : Student) (m : ClassroomModel)
    (nb : list (list (option nat))) (cells : list (nat * nat)) :
  (forall i j, 0 <= social_network m i j <= 1)%Q ->
  forall acc,
    (fst (fst acc) <= fst (fst (fold_left (social_cell st m nb) cells acc))
     /\ fst (fst (fold_left (social_cell st m nb) cells acc))
        <= fst (fst acc) + interaction_weight cells)%Q.
Proof.
  intros Ht. induction cells as [|xy cells IH]; intros acc.
  - simpl. split; [apply Qle_refl|]. rewrite Qplus_0_r. apply Qle_refl.
  - cbn [fold_left interaction_weight fold_right].
    destruct (IH (social_cell st m nb acc xy)) as [I1 I2].
    pose proof (interaction_nonneg (fst xy) (snd xy)) as Hw.
    assert (Hs : (fst (fst acc) <= fst (fst (social_cell st m nb acc xy))
                  /\ fst (fst (social_cell st m nb acc xy))
                     <= fst (fst acc)
                        + friendship_interaction_matrix (fst xy) (snd xy))%Q).
    { unfold social_cell. destruct acc as [[uf us] np]. cbn [fst snd].
      destruct (nth (snd xy) (nth (fst xy) nb []) None) as [nid|].
      - pose proof (weighted_tie_bounds uf _ _ Hw (Ht (unique_id st) nid)) as B.
        destruct (Qeq_bool _ 0); cbn [fst]; exact B.
      - cbn [fst]. split; [apply Qle_refl|].
        rewrite <- (Qplus_0_r uf) at 1. apply Qplus_le_r. exact Hw. }
    destruct Hs as [S1 S2]. apply bounds_chain with (b := fst (fst (social_cell st m nb acc xy))); assumption.
Qed.

(** X12 - For a tie matrix with entries between 0 and 1 the friendship
    component of the social utility of a seat lies between 0 and 1. *)
Theorem friendship_utility_in_unit_interval (c : Seat) (st : Student)
    (m : ClassroomModel) (uf : Q) (us : pyfloat) :
  (forall i j, 0 <= social_network m i j <= 1)%Q ->
  get_social_utility c st m = Ok (uf, us) ->
  (0 <= uf <= 1)%Q.
Proof.
  intros Ht. unfold get_social_utility.
  change (get_neighborhood c 3 3 m) with (Ok (neighborhood_matrix c 3 3 m)).
  cbn [bind].
  pose proof (friendship_accumulates st m (neighborhood_matrix c 3 3 m)
                (list_prod (seq 0 3) (seq 0 3)) Ht (0%Q, 0%Q, false)) as [B1 B2].
  destruct (fold_left _ _ _) as [[uf' us'] np].
  cbn [fst] in B1, B2.
  destruct (if np || sociability_np m then _ else _) as [u|]; cbn [bind];
    [|discriminate].
  intros H; inversion H; subst.
  assert (W : (interaction_weight (list_prod (seq 0 3) (seq 0 3)) == 1)%Q)
    by (vm_compute; reflexivity).
  rewrite W in B2. split; [exact B1|]. rewrite Qplus_0_l in B2. exact B2.
Qed.

(** The second student looks at the seat next to the first one, who is a
    friend: the friendship component is 1/2. *)
Lemma friendship_utility_in_unit_interval_witness :
  exists uf us,
    get_social_utility (mk_seat (1, 1) None) Runs.second_student
                       Runs.friends_second_arrival = Ok (uf, us)
    /\ (uf == 1 # 2)%Q /\ (0 <= uf <= 1)%Q.
Proof.
  eexists. eexists. split; [vm_compute; reflexivity|].
  split; [vm_compute; reflexivity|].
  eapply (friendship_utility_in_unit_interval (mk_seat (1, 1) None)
            Runs.second_student Runs.friends_second_arrival).
  - intros i j.
    change (social_network Runs.friends_second_arrival) with Runs.friends.
    unfold Runs.friends. destruct (i =? j); split; vm_compute; discriminate.
  - vm_compute; reflexivity.
Defined.

(** ** Comparison of seating matrices *)

Lemma sumsq_shift (l : list (Q * Q)) :
  forall acc : Q,
    (fold_left (fun acc xy => acc + (fst xy - snd xy) * (fst xy - snd xy)) l acc
     == acc
        + fold_left (fun acc xy => acc + (fst xy - snd xy) * (fst xy - snd xy))
                    l 0)%Q.
Proof.
  induction l as [|xy l IH]; intros acc; simpl.
  - ring.
  - rewrite (IH (acc + _)%Q), (IH (0 + _)%Q). ring.
Qed.

Lemma sumsq_cons (xy : Q * Q) (l : list (Q * Q)) :
  (fold_left (fun acc xy => acc + (fst xy - snd xy) * (fst xy - snd xy))
             (xy :: l) 0
   == (fst xy - snd xy) * (fst xy - snd xy)
      + fold_left (fun acc xy => acc + (fst xy - snd xy) * (fst xy - snd xy))
                  l 0)%Q.
Proof. simpl. rewrite sumsq_shift. ring. Qed.

Lemma square_nonneg (d : Q) : (0 <= d * d)%Q.
Proof. nra. Qed.

Lemma sumsq_nonneg (l : list (Q * Q)) :
  (0 <= fold_left (fun acc xy => acc + (fst xy - snd xy) * (fst xy - snd xy))
                  l 0)%Q.
Proof.
  induction l as [|xy l IH]; [apply Qle_refl|].
  rewrite sumsq_cons. pose proof (square_nonneg (fst xy - snd xy)). lra.
Qed.

Lemma sum_zero_parts (a b : Q) :
  (0 <= a -> 0 <= b -> a + b == 0 -> a == 0 /\ b == 0)%Q.
Proof. intros. split; lra. Qed.

Lemma sumsq_zero (l : list (Q * Q)) :
  (fold_left (fun acc xy => acc + (fst xy - snd xy) * (fst xy - snd xy)) l 0
   == 0)%Q
  <-> Forall (fun xy => fst xy == snd xy)%Q l.
Proof.
  induction l as [|xy l IH].
  - split; [constructor|reflexivity].
  - rewrite sumsq_cons. split.
    + intros H.
      destruct (sum_zero_parts _ _ (square_nonneg _) (sumsq_nonneg l) H)
        as [H1 H2].
      constructor; [|now apply IH].
      apply Qmult_integral in H1. destruct H1; lra.
    + intros H. inversion H as [|x xs H1 H2]; subst.
      apply IH in H2. rewrite H2, H1. ring.
Qed.

Lemma min_zero_iff {A : Type} (l1 l2 : list A) :
  Nat.min (List.length l1) (List.length l2) = 0 <-> l1 = [] \/ l2 = [].
Proof.
  destruct l1, l2; simpl; split; intros H; auto; try discriminate;
    destruct H; discriminate.
Qed.

Lemma div_by_count (s : Q) (n : nat) :
  n <> 0 -> (0 <= s)%Q ->
  (0 <= s / inject_Z (Z.of_nat n))%Q
  /\ ((s / inject_Z (Z.of_nat n) == 0)%Q <-> (s == 0)%Q).
Proof.
  intros Hn Hs.
  assert (Hp : (0 < inject_Z (Z.of_nat n))%Q).
  { unfold Qlt. simpl. lia. }
  split.
  - apply Qle_shift_div_l; [exact Hp|]. now rewrite Qmult_0_l.
  - split; intros H.
    + assert (E : (s == s / inject_Z (Z.of_nat n) * inject_Z (Z.of_nat n))%Q).
      { field. lra. }
      rewrite E, H. ring.
    + rewrite H. unfold Qdiv. ring.
Qed.

(** X13 - On two profiles of counts (whole numbers of absolute value at
    most 2^25, as [count_lbp] and [count_clusters] return them on a seating
    matrix), [calculate_mse] raises [ZeroDivisionError] exactly when one of
    the two is empty; otherwise it returns a value that is not negative, and
    that is 0 exactly when the two profiles agree on every position of the
    shorter one.  The bound keeps every difference and every square exact in
    floating point, where the rationals of the embedding and the floats of
    the code agree on the sign of the result. *)
Theorem calculate_mse_zero_iff_equal (list1 list2 : list Q) :
  whole_numbers list1 -> whole_numbers list2 ->
  (calculate_mse list1 list2 = Raise ZeroDivisionError
   <-> list1 = [] \/ list2 = [])
  /\ (forall q, calculate_mse list1 list2 = Ok q ->
        (0 <= q)%Q
        /\ ((q == 0)%Q
            <-> Forall (fun xy => fst xy == snd xy)%Q (combine list1 list2))).
Proof.
  intros _ _. unfold calculate_mse. split.
  - rewrite <- min_zero_iff.
    destruct (Nat.eqb_spec (Nat.min (List.length list1) (List.length list2)) 0);
      split; intros H; auto; try discriminate; contradiction.
  - intros q.
    destruct (Nat.eqb_spec (Nat.min (List.length list1) (List.length list2)) 0)
      as [E|E]; [discriminate|].
    intros H; inversion H; subst q; clear H.
    destruct (div_by_count _ _ E (sumsq_nonneg (combine list1 list2)))
      as [D1 D2].
    split; [exact D1|]. rewrite D2. apply sumsq_zero.
Qed.

(** Two profiles that agree on the two entries of the shorter one, and two
    that do not. *)
Lemma calculate_mse_zero_iff_equal_witness :
  (exists q, calculate_mse [1; 2]%Q [1; 2; 5]%Q = Ok q /\ (q == 0)%Q)
  /\ (exists q, calculate_mse [1; 2]%Q [1; 3; 5]%Q = Ok q /\ ~ (q == 0)%Q).
Proof.
  assert (W : forall l : list Z,
             forallb (fun z => Z.abs z <=? 2 ^ 25)%Z l = true ->
             whole_numbers (map inject_Z l)).
  { intros l H. apply Forall_forall. intros q Hq. apply in_map_iff in Hq.
    destruct Hq as (z & <- & Hz). exists z. split; [reflexivity|].
    rewrite forallb_forall in H. apply Z.leb_le. now apply H. }
  split.
  - destruct (calculate_mse_zero_iff_equal [1; 2]%Q [1; 2; 5]%Q
                (W [1; 2]%Z eq_refl) (W [1; 2; 5]%Z eq_refl)) as (_ & G).
    eexists. split; [vm_compute; reflexivity|].
    apply G; [vm_compute; reflexivity|]. repeat constructor.
  - destruct (calculate_mse_zero_iff_equal [1; 2]%Q [1; 3; 5]%Q
                (W [1; 2]%Z eq_refl) (W [1; 3; 5]%Z eq_refl)) as (_ & G).
    eexists. split; [vm_compute; reflexivity|].
    intros Z0. apply G in Z0; [|vm_compute; reflexivity].
    inversion Z0 as [|x l H1 H2]; subst. inversion H2 as [|y l' H3 H4]; subst.
    vm_compute in H3. discriminate H3.
Defined.

Lemma sumsq_swap (l1 : list Q) :
  forall (l2 : list Q) (acc : Q),
    (fold_left (fun acc xy => acc + (fst xy - snd xy) * (fst xy - snd xy))
               (combine l1 l2) acc
     == fold_left (fun acc xy => acc + (fst xy - snd xy) * (fst xy - snd xy))
                  (combine l2 l1) acc)%Q.
Proof.
  induction l1 as [|x l1 IH]; intros [|y l2] acc; simpl; try reflexivity.
  rewrite sumsq_shift, (sumsq_shift (combine l2 l1)), IH. ring.
Qed.

(** X14 - [calculate_mse] does not depend on the order of its arguments,
    and only the first [min(len(list1), len(list2))] entries of each list
    matter. *)
Theorem calculate_mse_symmetric (list1 list2 : list Q) :
  (match calculate_mse list1 list2, calculate_mse list2 list1 with
   | Ok q, Ok q' => (q == q')%Q
   | Raise e, Raise e' => e = e'
   | _, _ => False
   end)
  /\ calculate_mse list1 list2
     = calculate_mse
         (firstn (Nat.min (List.length list1) (List.length list2)) list1)
         (firstn (Nat.min (List.length list1) (List.length list2)) list2).
Proof.
  split.
  - unfold calculate_mse.
    rewrite (Nat.min_comm (List.length list2)).
    destruct (Nat.min (List.length list1) (List.length list2) =? 0);
      [reflexivity|].
    rewrite (sumsq_swap list1 list2 0). reflexivity.
  - unfold calculate_mse.
    rewrite !length_firstn.
    replace (Nat.min (Nat.min (Nat.min (List.length list1) (List.length list2))
                              (List.length list1))
                     (Nat.min (Nat.min (List.length list1) (List.length list2))
                              (List.length list2)))
      with (Nat.min (List.length list1) (List.length list2)) by lia.
    rewrite <- combine_firstn.
    rewrite firstn_all2; [reflexivity|].
    rewrite length_combine. lia.
Qed.

(** ** Clusters of seated students *)

Lemma list_update_length {A : Type} (f : A -> A) (l : list A) :
  forall i, List.length (list_update i f l) = List.length l.
Proof.
  induction l as [|a l IH]; intros i; destruct i; simpl; auto.
Qed.

Lemma weighted_bump (counts : list nat) :
  forall k c, c < List.length counts ->
    weighted_from k (list_update c S counts) = weighted_from k counts + (k + c).
Proof.
  unfold weighted_from.
  induction counts as [|a counts IH]; intros k c H; [simpl in H; lia|].
  destruct c as [|c]; simpl in *.
  - lia.
  - rewrite (IH (S k) c) by lia. lia.
Qed.

Lemma weighted_clear (counts : list nat) :
  weighted_from 0 (list_update 0 (fun _ => 0) counts) = weighted_from 0 counts.
Proof. destruct counts; reflexivity. Qed.

Lemma bump_ok (c : nat) (counts : list nat) :
  c < List.length counts -> bump c counts = Ok (list_update c S counts).
Proof.
  intros H. unfold bump.
  destruct (Nat.ltb_spec c (List.length counts)); [reflexivity|lia].
Qed.

Lemma cluster_scan_spec (block : list Q) :
  forall c counts,
    c + List.length block < List.length counts ->
    exists counts',
      cluster_scan block c counts = Ok counts'
      /\ List.length counts' = List.length counts
      /\ weighted_from 0 counts' = weighted_from 0 counts + c + ones block.
Proof.
  induction block as [|seat rest IH]; intros c counts H; simpl in *.
  - rewrite bump_ok by lia. eexists; split; [reflexivity|].
    rewrite list_update_length, weighted_bump by lia.
    unfold ones; simpl. split; lia.
  - unfold ones; simpl. destruct (Qeq_bool seat 1).
    + destruct (IH (S c) counts) as (counts' & E & L & W); [lia|].
      exists counts'. unfold ones in W. simpl. repeat split; auto; lia.
    + rewrite bump_ok by lia. cbn [bind].
      destruct (IH 0 (list_update c S counts)) as (counts' & E & L & W).
      { rewrite list_update_length. lia. }
      exists counts'. rewrite list_update_length in L.
      rewrite weighted_bump in W by lia. unfold ones in W.
      repeat split; auto; lia.
Qed.

Lemma slice_length {A : Type} (l : list A) (a b : nat) :
  List.length (slice l a b) <= List.length l.
Proof.
  unfold slice. rewrite length_firstn, length_skipn. lia.
Qed.

Lemma split_from_short {A : Type} (l : list A) (indices : list nat) :
  forall start,
    Forall (fun block => List.length block <= List.length l)
           (split_from start indices l).
Proof.
  induction indices as [|i rest IH]; intros start; simpl;
    constructor; auto using slice_length.
Qed.

Lemma split_from_concat {A : Type} (l : list A) (indices : list nat) :
  forall start,
    nondecreasing_from start indices = true ->
    List.concat (split_from start indices l) = skipn start l.
Proof.
  induction indices as [|i rest IH]; intros start H; simpl in *.
  - rewrite app_nil_r. unfold slice. apply firstn_all2.
    rewrite length_skipn. lia.
  - apply andb_true_iff in H. destruct H as [H1 H2].
    apply Nat.leb_le in H1.
    rewrite (IH i H2). unfold slice.
    replace (skipn i l) with (skipn (i - start) (skipn start l)).
    + apply firstn_skipn.
    + rewrite skipn_skipn. f_equal. lia.
Qed.

Lemma ones_app (l1 l2 : list Q) : ones (l1 ++ l2) = ones l1 + ones l2.
Proof. unfold ones. now rewrite filter_app, length_app. Qed.

Lemma blocks_spec (blocks : list (list Q)) :
  forall counts,
    Forall (fun block => List.length block < List.length counts) blocks ->
    exists counts',
      fold_left (fun r block => counts <- r ;; cluster_scan block 0 counts)
                blocks (Ok counts) = Ok counts'
      /\ List.length counts' = List.length counts
      /\ weighted_from 0 counts'
         = weighted_from 0 counts + ones (List.concat blocks).
Proof.
  induction blocks as [|block blocks IH]; intros counts H; simpl.
  - exists counts. unfold ones; simpl. repeat split; lia.
  - inversion H as [|b bs Hb Hbs]; subst.
    destruct (cluster_scan_spec block 0 counts) as (c1 & E1 & L1 & W1);
      [simpl; lia|].
    rewrite E1.
    destruct (IH c1) as (c2 & E2 & L2 & W2).
    { rewrite L1. exact Hbs. }
    exists c2. rewrite ones_app. repeat split; auto; lia.
Qed.

Lemma rows_spec (aisles : list nat) (n : nat) (rows : list (list Q)) :
  forall counts,
    Forall (fun row => List.length row = n) rows ->
    List.length counts = n + 1 ->
    exists counts',
      fold_left (fun r row =>
                   fold_left (fun r block => counts <- r ;;
                                             cluster_scan block 0 counts)
                             (np_split row aisles) r)
                rows (Ok counts) = Ok counts'
      /\ List.length counts' = n + 1
      /\ weighted_from 0 counts'
         = weighted_from 0 counts
           + list_sum (map (fun row => ones (List.concat (np_split row aisles)))
                           rows).
Proof.
  induction rows as [|row rows IH]; intros counts H L; simpl.
  - exists counts. repeat split; auto.
  - inversion H as [|r rs Hr Hrs]; subst.
    destruct (blocks_spec (np_split row aisles) counts) as (c1 & E1 & L1 & W1).
    { eapply Forall_impl; [|apply split_from_short].
      simpl; intros block Hb. lia. }
    rewrite E1.
    destruct (IH c1 Hrs) as (c2 & E2 & L2 & W2); [lia|].
    exists c2. repeat split; auto; lia.
Qed.

Lemma weighted_zeros (n : nat) : forall k, weighted_from k (repeat 0 n) = 0.
Proof.
  unfold weighted_from. induction n as [|n IH]; intros k; simpl; [reflexivity|].
  rewrite IH. lia.
Qed.

(** X15 - on a matrix whose rows all have [shape[1]] entries,
    [count_clusters] never fails, returns [shape[1] + 1] counts with
    [counts[0] = 0], and, when the aisles are given in ascending order, the
    cluster lengths weighted by their counts add up to the number of
    entries equal to 1: every seated student is counted in exactly one
    cluster. *)
Theorem count_clusters_conserves_students (model_state : ndarray)
    (aisles : list nat) :
  Forall (fun row => List.length row = shape1 model_state) (data model_state) ->
  exists counts,
    count_clusters model_state aisles = Ok counts
    /\ List.length counts = shape1 model_state + 1
    /\ nth 0 counts 0 = 0
    /\ (nondecreasing_from 0 aisles = true ->
        weighted_from 0 counts = list_sum (map ones (data model_state))).
Proof.
  intros H. unfold count_clusters.
  destruct (rows_spec aisles (shape1 model_state) (data model_state)
                      (repeat 0 (shape1 model_state + 1)) H)
    as (c & E & L & W); [apply repeat_length|].
  rewrite E. cbn [bind]. eexists; split; [reflexivity|].
  rewrite list_update_length, weighted_clear, W, weighted_zeros.
  split; [exact L|]. split.
  - destruct c; [simpl in L; lia|reflexivity].
  - intros S. simpl. f_equal. apply map_ext. intros row.
    unfold np_split. now rewrite split_from_concat.
Qed.

(** A cluster of two and a single student in the first row, two single
    students in the second: five students in three singles and one pair. *)
Lemma count_clusters_conserves_students_witness :
  exists counts,
    count_clusters Runs.two_rows [2] = Ok counts
    /\ List.length counts = shape1 Runs.two_rows + 1
    /\ nth 0 counts 0 = 0
    /\ (nondecreasing_from 0 [2] = true ->
        weighted_from 0 counts = list_sum (map ones (data Runs.two_rows))).
Proof.
  apply (count_clusters_conserves_students Runs.two_rows [2]).
  repeat constructor.
Defined.

(** ** The position utilities of a layout *)






Lemma np_get_Forall (P : Q -> Prop) (a : ndarray) (x y : nat) :
  P 0%Q -> Forall (Forall P) (data a) -> P (np_get a x y).
Proof.
  intros H0 H. unfold np_get.
  assert (R : Forall P (nth x (data a) [])).
  { clear y. revert x. induction H as [|r rs Hr Hrs IH]; intros [|x]; simpl;
      auto. }
  clear H. revert y. induction R as [|q qs Hq Hqs IH]; intros [|y]; simpl; auto.
Qed.



(** ** Aisles put back into a seating matrix *)

Lemma drop_indices_past {A : Type} (a : nat) (rest : list nat) (l : list A) :
  forall i, a < i -> drop_indices (a :: rest) i l = drop_indices rest i l.
Proof.
  induction l as [|x l IH]; intros i H; [reflexivity|].
  cbn [drop_indices existsb].
  destruct (Nat.eqb_spec i a) as [E|_]; [lia|].
  cbn [orb]. rewrite !IH by lia. reflexivity.
Qed.

Lemma drop_indices_none {A : Type} (l : list A) :
  forall i, drop_indices [] i l = l.
Proof. induction l as [|x l IH]; intros i; simpl; congruence. Qed.

Lemma existsb_above (i a : nat) (rest : list nat) :
  forallb (fun b => a <? b) rest = true -> i <= a ->
  existsb (Nat.eqb i) rest = false.
Proof.
  intros H Hi. induction rest as [|b rest IH]; [reflexivity|].
  simpl in *. apply andb_true_iff in H. destruct H as [H1 H2].
  apply Nat.ltb_lt in H1. rewrite IH by assumption.
  destruct (Nat.eqb_spec i b); [lia|reflexivity].
Qed.

Lemma drop_indices_first {A : Type} (a : nat) (rest : list nat) (l : list A) :
  forallb (fun b => a <? b) rest = true ->
  forall i, i <= a ->
    drop_indices (a :: rest) i l = drop_indices [a] i (drop_indices rest i l).
Proof.
  intros H. induction l as [|x l IH]; intros i Hi; [reflexivity|].
  cbn [drop_indices existsb]. rewrite (existsb_above i a rest H Hi).
  cbn [drop_indices existsb].
  destruct (Nat.eqb_spec i a) as [E|N]; cbn [orb].
  - subst i. rewrite drop_indices_past by lia.
    rewrite (drop_indices_past a [] _ (S a)) by lia.
    now rewrite drop_indices_none.
  - rewrite IH by lia. reflexivity.
Qed.

Lemma insert_at_cons {A : Type} (a : nat) (v x : A) (l : list A) :
  insert_at (S a) v (x :: l) = x :: insert_at a v l.
Proof. reflexivity. Qed.

Lemma drop_inserted {A : Type} (v : A) (a : nat) :
  forall (l : list A) (i : nat),
    a <= List.length l -> drop_indices [a + i] i (insert_at a v l) = l.
Proof.
  induction a as [|a IH]; intros l i H.
  - unfold insert_at. cbn [firstn skipn app drop_indices existsb plus].
    rewrite Nat.eqb_refl. cbn [orb].
    rewrite drop_indices_past by lia. apply drop_indices_none.
  - destruct l as [|x l]; [simpl in H; lia|].
    rewrite insert_at_cons. cbn [drop_indices existsb].
    destruct (Nat.eqb_spec i (S a + i)) as [E|_]; [lia|]. cbn [orb].
    replace (S a + i) with (a + S i) by lia.
    rewrite IH by (simpl in H; lia). reflexivity.
Qed.

Lemma insert_at_length {A : Type} (a : nat) (v : A) (l : list A) :
  List.length (insert_at a v l) = S (List.length l).
Proof.
  unfold insert_at. rewrite length_app, length_firstn. cbn [List.length].
  rewrite length_skipn. lia.
Qed.

Lemma insert_at_end {A : Type} (v : A) (l : list A) :
  insert_at (List.length l) v l = l ++ [v].
Proof.
  unfold insert_at. now rewrite firstn_all, skipn_all.
Qed.

(** One row: the columns inserted one after the other are the ones that
    the deletion takes out. *)
Lemma row_round_trip {A : Type} (v : A) (aisles : list nat) :
  forall l : list A,
    aisles_fit (List.length l) aisles = true ->
    drop_indices aisles 0 (fold_left (fun r a => insert_at a v r) aisles l) = l
    /\ List.length (fold_left (fun r a => insert_at a v r) aisles l)
       = List.length l + List.length aisles.
Proof.
  induction aisles as [|a rest IH]; intros l H.
  - cbn [fold_left]. rewrite drop_indices_none. split; [reflexivity|simpl; lia].
  - cbn [aisles_fit] in H. apply andb_true_iff in H. destruct H as [H H3].
    apply andb_true_iff in H. destruct H as [H1 H2]. apply Nat.leb_le in H1.
    cbn [fold_left].
    destruct (IH (insert_at a v l)) as [R L].
    { now rewrite insert_at_length. }
    split.
    + rewrite (drop_indices_first a rest _ H2 0) by lia. rewrite R.
      replace a with (a + 0) at 1 by lia. now apply drop_inserted.
    + rewrite L, insert_at_length. simpl. lia.
Qed.

Lemma aisles_fit_lt (aisles : list nat) :
  forall n, aisles_fit n aisles = true ->
            forallb (fun a => a <? n + List.length aisles) aisles = true.
Proof.
  induction aisles as [|a rest IH]; intros n H; [reflexivity|].
  cbn [aisles_fit] in H. apply andb_true_iff in H. destruct H as [H H3].
  apply andb_true_iff in H. destruct H as [H1 H2]. apply Nat.leb_le in H1.
  cbn [forallb List.length]. apply andb_true_iff. split.
  - apply Nat.ltb_lt. lia.
  - replace (n + S (List.length rest)) with (S n + List.length rest) by lia.
    now apply IH.
Qed.

Lemma drop_indices_length {A : Type} (idxs : list nat) (l : list A) :
  forall i, List.length (drop_indices idxs i l)
            = List.length (drop_indices idxs i (seq i (List.length l))).
Proof.
  induction l as [|x l IH]; intros i; [reflexivity|].
  cbn [List.length seq drop_indices].
  destruct (existsb (Nat.eqb i) idxs); cbn [List.length]; now rewrite IH.
Qed.

Lemma count_kept_fit (n : nat) (aisles : list nat) :
  aisles_fit n aisles = true ->
  count_kept aisles (n + List.length aisles) = n.
Proof.
  intros H. unfold count_kept.
  destruct (row_round_trip 0 aisles (seq 0 n)) as [R L].
  { now rewrite length_seq. }
  rewrite length_seq in L. rewrite <- L, <- drop_indices_length, R.
  apply length_seq.
Qed.

Lemma insert_aisles_rows (value : Q) (aisles : list nat) :
  forall ms : ndarray,
    Forall (fun row => List.length row = shape1 ms) (data ms) ->
    aisles_fit (shape1 ms) aisles = true ->
    insert_aisles ms aisles value
    = mk_ndarray (shape0 ms) (shape1 ms + List.length aisles)
        (map (fun row => fold_left (fun r a => insert_at a value r) aisles row)
             (data ms)).
Proof.
  induction aisles as [|a rest IH]; intros ms W H.
  - destruct ms as [s0 s1 rows]. unfold insert_aisles. cbn.
    rewrite Nat.add_0_r, map_id. reflexivity.
  - cbn [aisles_fit] in H. apply andb_true_iff in H. destruct H as [H H3].
    apply andb_true_iff in H. destruct H as [H1 H2]. apply Nat.leb_le in H1.
    unfold insert_aisles. cbn [fold_left].
    assert (E : (if a <? shape1 ms then np_insert_value_axis1 ms a value
                 else np_append_value_axis1 ms value)
                = np_insert_value_axis1 ms a value).
    { destruct (Nat.ltb_spec a (shape1 ms)); [reflexivity|].
      unfold np_insert_value_axis1, np_append_value_axis1. f_equal.
      apply map_ext_Forall. eapply Forall_impl; [|exact W].
      cbn beta. intros row Hrow.
      replace a with (List.length row) by lia. symmetry. apply insert_at_end. }
    rewrite E. fold (insert_aisles (np_insert_value_axis1 ms a value) rest value).
    rewrite IH.
    + cbn [np_insert_value_axis1 shape0 shape1 data List.length].
      rewrite map_map. f_equal. lia.
    + cbn [np_insert_value_axis1 shape1 data]. apply Forall_map.
      eapply Forall_impl; [|exact W]. cbn beta. intros row Hrow.
      now rewrite insert_at_length, Hrow.
    + exact H3.
Qed.

(** X17 - [insert_aisles] followed by the deletion of the same columns
    gives the matrix back.  This holds when the aisles are listed in
    strictly ascending order and each lies at most one column past the
    matrix it is inserted into; the matrix grows by one column per
    aisle. *)
Theorem insert_aisles_then_delete (model_state : ndarray) (aisles : list nat)
    (value : Q) :
  Forall (fun row => List.length row = shape1 model_state) (data model_state) ->
  aisles_fit (shape1 model_state) aisles = true ->
  shape1 (insert_aisles model_state aisles value)
  = shape1 model_state + List.length aisles
  /\ np_delete_axis1 (insert_aisles model_state aisles value) aisles
     = Ok model_state.
Proof.
  intros W H. rewrite (insert_aisles_rows value aisles model_state W H).
  split; [reflexivity|].
  unfold np_delete_axis1. cbn [shape0 shape1 data].
  rewrite (aisles_fit_lt aisles _ H), (count_kept_fit _ _ H), map_map.
  destruct model_state as [s0 s1 rows]. cbn [shape0 shape1 data] in *.
  do 2 f_equal. rewrite <- (map_id rows) at 2.
  apply map_ext_Forall. eapply Forall_impl; [|exact W]. cbn beta.
  intros row Hrow. apply row_round_trip. now rewrite Hrow.
Qed.

Lemma insert_aisles_then_delete_witness :
  shape1 (insert_aisles Runs.two_rows [2] (-1))
  = shape1 Runs.two_rows + List.length [2]
  /\ np_delete_axis1 (insert_aisles Runs.two_rows [2] (-1)) [2]
     = Ok Runs.two_rows.
Proof.
  apply (insert_aisles_then_delete Runs.two_rows [2] (-1)).
  - repeat constructor.
  - reflexivity.
Defined.

(** ** Local binary patterns *)

Lemma weights_shift (l : list (nat * (Z * Z))) :
  forall z : Q,
    (fold_left (fun s kd => s + inject_Z (2 ^ Z.of_nat (fst kd))) l z
     == z + fold_left (fun s kd => s + inject_Z (2 ^ Z.of_nat (fst kd))) l 0)%Q.
Proof.
  induction l as [|kd l IH]; intros z; simpl; [ring|].
  rewrite (IH (z + _)%Q), (IH (0 + _)%Q). ring.
Qed.

Lemma lbp_step_bounds (model_state : ndarray) (i j : nat)
    (l : list (nat * (Z * Z))) :
  Forall (Forall (fun q => 0 <= q <= 1)%Q) (data model_state) ->
  forall acc : Q,
    (acc
     <= fold_left (fun dec kd =>
                     let '(k, (i_d, j_d)) := kd in
                     dec + np_get model_state
                                  (Z.to_nat (Z.of_nat i + i_d))
                                  (Z.to_nat (Z.of_nat j + j_d))
                           * inject_Z (2 ^ Z.of_nat k)) l acc
     <= acc + fold_left (fun s kd => s + inject_Z (2 ^ Z.of_nat (fst kd))) l 0)%Q.
Proof.
  intros W. induction l as [|[k [i_d j_d]] l IH]; intros acc.
  - simpl. lra.
  - cbn [fold_left fst].
    pose proof (np_get_Forall (fun q => 0 <= q <= 1)%Q model_state
                  (Z.to_nat (Z.of_nat i + i_d)) (Z.to_nat (Z.of_nat j + j_d))
                  ltac:(cbn beta; lra) W) as G.
    cbn beta in G.
    assert (P : (0 <= inject_Z (2 ^ Z.of_nat k))%Q).
    { unfold Qle. simpl. rewrite Z.mul_1_r. apply Z.pow_nonneg. lia. }
    set (g := np_get _ _ _) in *. set (w := inject_Z _) in *.
    specialize (IH (acc + g * w)%Q).
    assert (S : (fold_left (fun s kd => s + inject_Z (2 ^ Z.of_nat (fst kd)))
                           l (0 + w)
                 == w + fold_left (fun s kd => s + inject_Z (2 ^ Z.of_nat (fst kd)))
                                  l 0)%Q).
    { rewrite weights_shift. ring. }
    rewrite S. nra.
Qed.

Lemma lbp_code_bounds (model_state : ndarray) (i j : nat) :
  Forall (Forall (fun q => 0 <= q <= 1)%Q) (data model_state) ->
  (0 <= lbp_code model_state i j <= 255)%Q.
Proof.
  intros W. unfold lbp_code.
  pose proof (lbp_step_bounds model_state i j
                (combine (seq 0 8) (combine i_deltas j_deltas)) W 0%Q) as B.
  assert (E : (fold_left (fun s kd => s + inject_Z (2 ^ Z.of_nat (fst kd)))
                         (combine (seq 0 8) (combine i_deltas j_deltas)) 0
               == 255)%Q) by (vm_compute; reflexivity).
  rewrite E in B. lra.
Qed.

Lemma int_of_float_bounds (q : Q) (n : Z) :
  (0 <= q <= inject_Z n)%Q -> (0 <= int_of_float q <= n)%Z.
Proof.
  destruct q as [a b]. unfold Qle, int_of_float. simpl. intros [H1 H2]. split.
  - apply Z.quot_pos; lia.
  - apply Z.quot_le_upper_bound; lia.
Qed.

Lemma lbp_code_index (model_state : ndarray) (i j : nat) :
  Forall (Forall (fun q => 0 <= q <= 1)%Q) (data model_state) ->
  (0 <= int_of_float (lbp_code model_state i j) < Z.of_nat 256)%Z.
Proof.
  intros W.
  pose proof (lbp_code_bounds model_state i j W) as B.
  apply (int_of_float_bounds _ 255) in B.
  change (Z.of_nat 256) with 256%Z. lia.
Qed.

Lemma list_sum_zeros (n : nat) : list_sum (repeat 0 n) = 0.
Proof. induction n as [|n IH]; [reflexivity|exact IH]. Qed.

Lemma list_sum_bump (counts : list nat) :
  forall k, k < List.length counts ->
            list_sum (list_update k S counts) = S (list_sum counts).
Proof.
  induction counts as [|c counts IH]; intros k H; [simpl in H; lia|].
  destruct k as [|k]; simpl in *; [reflexivity|].
  rewrite IH by lia. lia.
Qed.

Lemma counts_bump_ok (n : Z) (counts : list nat) :
  (0 <= n < Z.of_nat (List.length counts))%Z ->
  counts_bump n counts = Ok (list_update (Z.to_nat n) S counts).
Proof.
  intros [H1 H2]. unfold counts_bump.
  apply Z.leb_le in H1. apply Z.ltb_lt in H2. now rewrite H1, H2.
Qed.

(** The two loops, for any pattern codes that are valid indices. *)
Lemma bump_row (code : nat -> Z) (n : nat) (js : list nat) :
  (forall j, 0 <= code j < Z.of_nat n)%Z ->
  forall counts,
    List.length counts = n ->
    exists counts',
      fold_left (fun r j => counts <- r ;; counts_bump (code j) counts)
                js (Ok counts) = Ok counts'
      /\ List.length counts' = n
      /\ list_sum counts' = list_sum counts + List.length js.
Proof.
  intros B. induction js as [|j js IH]; intros counts L.
  - exists counts. cbn [fold_left List.length]. split; [reflexivity|].
    split; [exact L|lia].
  - cbn [fold_left bind]. pose proof (B j) as Bj.
    rewrite counts_bump_ok by (rewrite L; exact Bj).
    destruct (IH (list_update (Z.to_nat (code j)) S counts))
      as (c & E & Lc & Sc).
    { now rewrite list_update_length. }
    exists c. rewrite list_sum_bump in Sc by lia.
    split; [exact E|]. split; [exact Lc|]. cbn [List.length]. lia.
Qed.

Lemma bump_cells (code : nat -> nat -> Z) (n : nat) (cols rows : list nat) :
  (forall i j, 0 <= code i j < Z.of_nat n)%Z ->
  forall counts,
    List.length counts = n ->
    exists counts',
      fold_left (fun r i =>
                   fold_left (fun r j =>
                                counts <- r ;; counts_bump (code i j) counts)
                             cols r)
                rows (Ok counts) = Ok counts'
      /\ List.length counts' = n
      /\ list_sum counts'
         = list_sum counts + List.length rows * List.length cols.
Proof.
  intros B. induction rows as [|i rows IH]; intros counts L.
  - exists counts. cbn [fold_left List.length]. split; [reflexivity|].
    split; [exact L|lia].
  - cbn [fold_left].
    destruct (bump_row (code i) n cols (B i) counts L) as (c1 & E1 & L1 & S1).
    rewrite E1. destruct (IH c1 L1) as (c2 & E2 & L2 & S2).
    exists c2. split; [exact E2|]. split; [exact L2|].
    cbn [List.length]. lia.
Qed.

(** X18 - On a matrix with entries between 0 and 1 (a binary seating
    matrix in particular) [count_lbp] never fails: every pattern code lies
    between 0 and 255, the result has 256 counts, and they add up to the
    number of interior cells, [(shape[0] - 2) * (shape[1] - 2)], or 0 when
    the matrix has fewer than three rows or columns. *)
Theorem count_lbp_counts_interior_cells (model_state : ndarray) :
  Forall (Forall (fun q => 0 <= q <= 1)%Q) (data model_state) ->
  (forall i j, 0 <= int_of_float (lbp_code model_state i j) <= 255)%Z
  /\ exists counts,
       count_lbp model_state = Ok counts
       /\ List.length counts = 256
       /\ list_sum counts
          = (shape0 model_state - 2) * (shape1 model_state - 2).
Proof.
  intros W. split.
  - intros i j. pose proof (lbp_code_index model_state i j W) as B.
    change (Z.of_nat 256) with 256%Z in B. lia.
  - unfold count_lbp.
    destruct (bump_cells (fun i j => int_of_float (lbp_code model_state i j))
                256 (seq 1 (shape1 model_state - 2))
                (seq 1 (shape0 model_state - 2))
                (fun i j => lbp_code_index model_state i j W)
                (repeat 0 256) (repeat_length 0 256))
      as (c & E & L & S).
    exists c. rewrite !length_seq in S.
    split; [exact E|]. split; [exact L|]. rewrite S.
    now rewrite list_sum_zeros.
Qed.

Lemma count_lbp_counts_interior_cells_witness :
  exists counts,
    count_lbp Runs.three_by_four = Ok counts
    /\ List.length counts = 256
    /\ list_sum counts
       = (shape0 Runs.three_by_four - 2) * (shape1 Runs.three_by_four - 2).
Proof.
  apply (count_lbp_counts_interior_cells Runs.three_by_four).
  unfold Runs.three_by_four; cbn [data].
  repeat constructor; discriminate.
Defined.

(** ** A predetermined seat *)

Lemma free_seat_at (m : ClassroomModel) (p : nat * nat) (s : Seat) :
  In s (free_seats_at m p) -> s = mk_seat p None /\ In s (seats m).
Proof.
  unfold free_seats_at. intros H. apply filter_In in H.
  destruct H as [Hin H]. apply andb_true_iff in H. destruct H as [H1 H2].
  apply pos_eqb_eq in H1. destruct s as [q [id|]]; [discriminate|].
  simpl in H1. subst q. split; [reflexivity|exact Hin].
Qed.

Lemma last_free_seat (p : nat * nat) (l : list Seat) :
  (forall s, In s l -> s = mk_seat p None) -> l <> [] ->
  last (map Some l) None = Some (mk_seat p None).
Proof.
  induction l as [|a l IH]; intros H Hne; [congruence|].
  destruct l as [|b l].
  - simpl. f_equal. apply H. now left.
  - change (last (map Some (a :: b :: l)) None)
      with (last (map Some (b :: l)) None).
    apply IH; [|discriminate]. intros s Hs. apply H. now right.
Qed.

Lemma set_rand_same (m : ClassroomModel) : set_rand (rand m) m = m.
Proof. destruct m; reflexivity. Qed.

Lemma occupy_unhappy (self : Student) (c : Seat) (m : ClassroomModel)
    (e : exn) :
  NoDup (map unique_id (agents m)) -> In self (agents m) ->
  seated self = false ->
  get_happiness c self m = Raise e ->
  occupy self c None m = Raise e.
Proof.
  intros ND Hin Hst Hh.
  assert (Hun : forall a, In a (agents m) -> unique_id a = unique_id self ->
                          seated a = false).
  { intros a Ha E. pose proof (find_by_id _ _ ND Ha) as F1.
    pose proof (find_by_id _ _ ND Hin) as F2. rewrite E in F1.
    congruence. }
  unfold occupy. rewrite (get_happiness_moved c self m _ _ Hun), Hh.
  reflexivity.
Qed.

(** X19 - With a predetermined position, [choose_seat] of a standing
    student ignores the utilities.  A position outside the grid raises
    [IndexError].  Inside the grid: when the cell holds no empty seat (the
    seat is taken, or the cell is an aisle) nothing changes and nothing is
    reported; when it holds an empty seat, the happiness of that seat is
    computed and an exception it raises is passed on, otherwise the student
    sits down on the seat with that happiness as initial happiness, without
    a draw from the generator and without output.  The total utility (and
    with it [max_pass]) plays no part. *)
Theorem predetermined_seat_is_taken (m : ClassroomModel) (self : Student)
    (p : nat * nat) :
  NoDup (map unique_id (agents m)) -> In self (agents m) ->
  seated self = false ->
  (out_of_bounds (classroom m) (Z.of_nat (fst p)) (Z.of_nat (snd p)) = true ->
   choose_seat self (Some p) None m = Raise IndexError)
  /\ (out_of_bounds (classroom m) (Z.of_nat (fst p)) (Z.of_nat (snd p)) = false ->
      (free_seats_at m p = [] -> choose_seat self (Some p) None m = Ok m)
      /\ (free_seats_at m p <> [] ->
          (forall e, get_happiness (mk_seat p None) self m = Raise e ->
                     choose_seat self (Some p) None m = Raise e)
          /\ (forall h, get_happiness (mk_seat p None) self m = Ok h ->
                exists m',
                  choose_seat self (Some p) None m = Ok m'
                  /\ committed m' p (unique_id self)
                  /\ (exists a, get_agent (unique_id self) m' = Some a
                                /\ initial_happiness a = h)
                  /\ rand m' = rand m /\ stdout m' = stdout m))).
Proof.
  intros ND Hin Hst. unfold choose_seat, select_seat. split.
  - intros ->. reflexivity.
  - intros ->. cbn [bind fst snd]. split.
    + intros ->. reflexivity.
    + intros Hne.
      assert (L : last (map Some (free_seats_at m p)) None
                  = Some (mk_seat p None)).
      { apply last_free_seat; [|exact Hne].
        intros s Hs. now apply free_seat_at in Hs. }
      assert (Hs0 : In (mk_seat p None) (seats m)).
      { destruct (free_seats_at m p) as [|s0 rest] eqn:E; [congruence|].
        destruct (free_seat_at m p s0) as [<- H]; [rewrite E; now left|exact H]. }
      rewrite L. split.
      * intros e Hh. now apply occupy_unhappy.
      * intros h Hh.
        destruct (occupy_commits_happy self (mk_seat p None) m (rand m) h
                    ND Hin Hst Hs0 Hh) as (m' & Ho & Hcm & Ha).
        rewrite set_rand_same in Ho.
        exists m'. split; [exact Ho|]. split; [exact Hcm|].
        split; [exact Ha|].
        destruct (occupy_setting _ _ _ _ Ho) as (_ & _ & R).
        destruct (occupy_fields _ _ _ _ Ho) as (h' & _ & _ & _ & O).
        split; assumption.
Qed.

(** On the layout with [max_pass = 0], where every total utility raises,
    the first student is seated at [(2, 1)]. *)
Lemma predetermined_seat_is_taken_witness :
  exists h m',
    get_happiness (mk_seat (2, 1) None) (new_student 0 0 (0, 0))
                  Runs.model_1_1_arrival = Ok h
    /\ choose_seat (new_student 0 0 (0, 0)) (Some (2, 1)) None
                   Runs.model_1_1_arrival = Ok m'
    /\ committed m' (2, 1) 0
    /\ (exists a, get_agent 0 m' = Some a /\ initial_happiness a = h)
    /\ rand m' = rand Runs.model_1_1_arrival
    /\ stdout m' = stdout Runs.model_1_1_arrival.
Proof.
  destruct (predetermined_seat_is_taken Runs.model_1_1_arrival
              (new_student 0 0 (0, 0)) (2, 1)) as (_ & H).
  - vm_compute. apply NoDup_cons; [intros []|apply NoDup_nil].
  - vm_compute. now left.
  - reflexivity.
  - destruct (H ltac:(vm_compute; reflexivity)) as (_ & H1).
    destruct (H1 ltac:(vm_compute; discriminate)) as (_ & H2).
    assert (Hh : exists h, get_happiness (mk_seat (2, 1) None)
                             (new_student 0 0 (0, 0)) Runs.model_1_1_arrival
                           = Ok h) by (eexists; vm_compute; reflexivity).
    destruct Hh as (h & Hh). destruct (H2 h Hh) as (m' & A & B).
    exists h, m'. split; [exact Hh|]. split; [exact A|exact B].
Defined.

(** ** The longest way to a seat *)

Lemma fold_Zmax_spec (l : list Z) :
  forall a, In (fold_left Z.max l a) (a :: l)
            /\ forall x, In x (a :: l) -> (x <= fold_left Z.max l a)%Z.
Proof.
  induction l as [|b l IH]; intros a.
  - simpl. split; [now left|]. intros x [<-|[]]. lia.
  - destruct (IH (Z.max a b)) as [Hin Hle]. cbn [fold_left]. split.
    + destruct Hin as [E|Hin]; [|right; now right].
      rewrite <- E. destruct (Z.max_spec a b) as [[_ ->]|[_ ->]];
        [right; now left|now left].
    + intros x [<-|[<-|Hx]].
      * specialize (Hle (Z.max a b) (or_introl eq_refl)). lia.
      * specialize (Hle (Z.max a b) (or_introl eq_refl)). lia.
      * apply Hle. now right.
Qed.

Lemma max_pass_per_block_In (len : nat) (blocks : list nat) :
  forall i z,
    In z (max_pass_per_block i len blocks)
    <-> exists k b, nth_error blocks k = Some b
                    /\ z = if (0 <? i + k) && (i + k <? len - 1)
                           then Z.quot (Z.of_nat b - 1) 2
                           else (Z.of_nat b - 1)%Z.
Proof.
  induction blocks as [|b blocks IH]; intros i z.
  - simpl. split; [intros []|]. intros ([|k] & b & H & _); discriminate.
  - cbn [max_pass_per_block In]. rewrite IH. split.
    + intros [<-|(k & b' & H & ->)].
      * exists 0, b. rewrite Nat.add_0_r. split; reflexivity.
      * exists (S k), b'. rewrite <- Nat.add_succ_comm. split; auto.
    + intros ([|k] & b' & H & ->).
      * left. cbn in H. inversion H; subst. now rewrite Nat.add_0_r.
      * right. exists k, b'. rewrite Nat.add_succ_comm. split; auto.
Qed.

(** X20 - [max_pass] of a constructed layout is at least -1, and it is
    positive exactly when some outer block (the first or the last) has at
    least two seats per row or some inner block has at least three. *)
Theorem max_pass_is_positive (blocks : list nat) (rows : nat)
    (pu : option ndarray) (ent : option (list (nat * nat)))
    (ay : option (list nat)) (d : ClassroomDesign) :
  ClassroomDesign_init blocks rows pu ent ay = Ok d ->
  (-1 <= max_pass d)%Z
  /\ ((0 < max_pass d)%Z
      <-> exists i b,
            nth_error blocks i = Some b
            /\ if (0 <? i) && (i <? List.length blocks - 1)
               then 3 <= b else 2 <= b).
Proof.
  intros H.
  destruct (design_fields _ _ _ _ _ _ H) as (Hne & _ & _ & _ & _ & _ & _ & Hm).
  unfold Zmax_list in Hm.
  destruct (max_pass_per_block 0 (List.length blocks) blocks) as [|a l] eqn:E;
    [discriminate|].
  inversion Hm as [Hmp]; clear Hm.
  destruct (fold_Zmax_spec l a) as [Hin Hle].
  rewrite <- E in Hin, Hle. rewrite Hmp in Hin, Hle |- *.
  assert (V : forall (i b : nat),
             let z := if (0 <? i) && (i <? List.length blocks - 1)
                      then Z.quot (Z.of_nat b - 1) 2
                      else (Z.of_nat b - 1)%Z in
             (-1 <= z)%Z
             /\ ((0 < z)%Z
                 <-> if (0 <? i) && (i <? List.length blocks - 1)
                     then 3 <= b else 2 <= b)).
  { intros i b. cbv zeta.
    destruct ((0 <? i) && (i <? List.length blocks - 1)).
    - destruct b as [|[|[|b]]].
      + cbn. split; [lia|split; lia].
      + cbn. split; [lia|split; lia].
      + cbn. split; [lia|split; lia].
      + assert (Q : (Z.quot (Z.of_nat (S (S (S b))) - 1) 2
                     = (Z.of_nat (S (S (S b))) - 1) / 2)%Z)
          by (apply Z.quot_div_nonneg; lia).
        assert (P : (0 < (Z.of_nat (S (S (S b))) - 1) / 2)%Z)
          by (apply Z.div_str_pos; lia).
        rewrite Q. split; [lia|split; intros; lia].
    - split; [|split]; lia. }
  apply max_pass_per_block_In in Hin. destruct Hin as (k & b & Hk & Hz).
  cbn [plus] in Hz. split.
  - rewrite Hz. apply V.
  - split.
    + intros P. exists k, b. split; [exact Hk|]. apply V. now rewrite <- Hz.
    + intros (i & b' & Hi & P). apply V in P.
      eapply Z.lt_le_trans; [exact P|]. apply Hle.
      apply max_pass_per_block_In. exists i, b'. split; [exact Hi|reflexivity].
Qed.

Lemma max_pass_is_positive_witness :
  (-1 <= max_pass Examples.design_2_2_value)%Z
  /\ ((0 < max_pass Examples.design_2_2_value)%Z
      <-> exists i b,
            nth_error [2; 2] i = Some b
            /\ if (0 <? i) && (i <? List.length [2; 2] - 1)
               then 3 <= b else 2 <= b).
Proof.
  apply (max_pass_is_positive [2; 2] 2 (Some (np_zeros 5 2)) None None).
  vm_compute; reflexivity.
Defined.

(** ** The coefficients *)

Lemma fold_Qplus_compat (l : list Q) :
  forall a b : Q, (a == b)%Q -> (fold_left Qplus l a == fold_left Qplus l b)%Q.
Proof.
  induction l as [|x l IH]; intros a b H; simpl; [exact H|].
  apply IH. now rewrite H.
Qed.

Lemma Qsum_scaled (t : Q) (l : list Q) :
  ~ (t == 0)%Q ->
  forall a : Q,
    (fold_left Qplus (map (fun c => c / t) l) (a / t)
     == fold_left Qplus l a / t)%Q.
Proof.
  intros Ht. induction l as [|x l IH]; intros a; simpl; [reflexivity|].
  rewrite <- IH. apply fold_Qplus_compat. field. exact Ht.
Qed.

Lemma run_setting (sched : nat -> list nat -> list nat) :
  shuffles sched ->
  forall n t m m', consistent m -> run sched t n m = Ok m' -> same_setting m m'.
Proof.
  intros Hs n t m m' C H.
  apply (run_invariant (same_setting m) sched) with (n := n) (t := t) (m := m);
    auto.
  - intros sh x x' Cx Hsh P Hstep.
    destruct (tick_roster sh x x' Cx Hsh Hstep) as (x1 & Ha & S1 & _).
    eapply same_setting_trans; [exact P|].
    eapply same_setting_trans; [apply (admission_setting _ _ Ha)|exact S1].
  - repeat split.
Qed.

Lemma Qsum_nonneg (l : list Q) :
  Forall (fun q => 0 <= q)%Q l ->
  forall a : Q,
    (a <= fold_left Qplus l a)%Q
    /\ Forall (fun q => a + q <= fold_left Qplus l a)%Q l.
Proof.
  induction 1 as [|x l Hx Hl IH]; intros a; simpl.
  - split; [apply Qle_refl|constructor].
  - destruct (IH (a + x)%Q) as [B1 B2]. split; [lra|].
    constructor; [exact B1|].
    eapply Forall_impl; [|exact B2]. cbn beta. intros q Hq. lra.
Qed.

Lemma Qsum_nonpos (l : list Q) :
  Forall (fun q => q <= 0)%Q l ->
  forall a : Q, (fold_left Qplus l a <= a)%Q.
Proof.
  induction 1 as [|x l Hx Hl IH]; intros a; simpl; [apply Qle_refl|].
  specialize (IH (a + x)%Q). lra.
Qed.

(** X21 - No tick changes the coefficients (nor the layout, the choice
    mode, the population cap, the tie matrix and the sociability range):
    in every state of a run there is one coefficient per value supplied
    to the constructor.  When no supplied value is positive every
    coefficient is 0; when no supplied value is negative every
    coefficient lies between 0 and 1. *)
Theorem coefficients_stay_in_unit_interval
    (mt19937 : Z -> nat -> nat)
    (erdos_renyi : Z -> Q -> result (nat -> nat -> Q))
    (walts_graph : list nat -> result (nat -> nat -> Q))
    (d : ClassroomDesign) (c : pyseq) (ds : option (list nat))
    (ss : option pyseq) (seed : Z) (m0 m : ClassroomModel)
    (sched : nat -> list nat -> list nat) (n : nat) :
  ClassroomModel_init mt19937 erdos_renyi walts_graph d c ds ss seed = Ok m0 ->
  shuffles sched ->
  run sched 0 n m0 = Ok m ->
  same_setting m0 m
  /\ List.length (coefs m) = List.length (pyseq_items c)
  /\ (Forall (fun q => q <= 0)%Q (pyseq_items c) ->
      Forall (fun q => q = 0%Q) (coefs m))
  /\ (Forall (fun q => 0 <= q)%Q (pyseq_items c) ->
      Forall (fun q => 0 <= q <= 1)%Q (coefs m)).
Proof.
  intros Hi Hs Hr.
  pose proof (run_setting sched Hs n 0 m0 m
                (init_consistent _ _ _ _ _ _ _ _ _ Hi) Hr) as S.
  split; [exact S|]. destruct S as (_ & -> & _).
  assert (E : coefs m0
              = map (fun q => if negb (Qle_bool (Qsum (pyseq_items c)) 0)
                              then (q / Qsum (pyseq_items c))%Q else 0%Q)
                    (pyseq_items c)).
  { revert Hi. unfold ClassroomModel_init.
    destruct (match ds with None => _ | Some _ => _ end) as [mn|];
      cbn [bind]; [|discriminate].
    destruct (match ss with None => _ | Some _ => _ end) as [sr|];
      cbn [bind]; [|discriminate].
    intros H; inversion H; reflexivity. }
  rewrite E, length_map. split; [reflexivity|]. split.
  - intros Hneg.
    assert (L : Qle_bool (Qsum (pyseq_items c)) 0 = true).
    { apply Qle_bool_iff. apply (Qsum_nonpos _ Hneg 0%Q). }
    rewrite L. cbn [negb]. apply Forall_forall. intros q Hq.
    apply in_map_iff in Hq. now destruct Hq as (x & <- & _).
  - intros Hpos. destruct (Qsum_nonneg _ Hpos 0%Q) as [_ B].
    fold (Qsum (pyseq_items c)) in B.
    destruct (Qle_bool (Qsum (pyseq_items c)) 0) eqn:L; cbn [negb].
    + apply Forall_forall. intros q Hq. apply in_map_iff in Hq.
      destruct Hq as (x & <- & _). lra.
    + assert (P : (0 < Qsum (pyseq_items c))%Q).
      { apply Qnot_le_lt. intros C. apply Qle_bool_iff in C. congruence. }
      apply Forall_map. rewrite Forall_forall in Hpos, B.
      apply Forall_forall. intros q Hq. cbn beta.
      specialize (Hpos q Hq). specialize (B q Hq). cbn beta in B. split.
      * apply Qle_shift_div_l; [exact P|]. lra.
      * apply Qle_shift_div_r; [exact P|]. lra.
Qed.

Lemma coefficients_stay_in_unit_interval_witness :
  same_setting Examples.model_2_2_value Runs.model_2_2_after_3
  /\ List.length (coefs Runs.model_2_2_after_3) = 4
  /\ Forall (fun q => 0 <= q <= 1)%Q (coefs Runs.model_2_2_after_3).
Proof.
  destruct (coefficients_stay_in_unit_interval Examples.mt19937
              Examples.erdos_renyi Examples.walts_graph
              Examples.design_2_2_value
              (PyList [1 # 4; 1 # 4; 1 # 4; 1 # 4]%Q) None
              (Some (PyList [-1; 0; 1; 0]%Q)) 0%Z Examples.model_2_2_value
              Runs.model_2_2_after_3 Examples.in_order 3)
    as (S & L & _ & P).
  - vm_compute; reflexivity.
  - intros t l. apply Permutation_refl.
  - vm_compute; reflexivity.
  - split; [exact S|]. split; [exact L|]. apply P.
    repeat constructor; discriminate.
Defined.
